(** * Editor-state synchronization core of the studio: a shallow embedding

    The development follows [EditorService] (the editor service of the
    studio): its three caches ([models], [viewStates], [decorations]), the
    conversion of diagnostics into markers and glyph decorations, the tab
    switch, the lifecycle handlers, [updateState] and the debounced
    content-change handler.

    Conventions.
    - JavaScript numbers that hold line numbers, columns, enum values and
      milliseconds are integers here ([Z]).
    - A [Map<string, T>] is a [gmap string T]; a value that may be [null]
      is an [option] inside the map.
    - Objects with identity that live inside the editing widget (text
      buffers, decorations) are kept in a store indexed by their handle;
      a handle is the position in the store, so a fresh handle is the
      length of the store. *)

From Stdlib Require Import ZArith DecimalString DecimalNat.
From stdpp Require Import base option list gmap strings fin_maps.

Local Open Scope string_scope.
Local Open Scope Z_scope.
Local Open Scope list_scope.

(* ===================================================================== *)
(** ** Diagnostics, markers and decorations *)
(* ===================================================================== *)

Module Diagnostics.

(** [DiagnosticSeverity] of the parser: a numeric enumeration, declared
    outside the service (Error = 0, Warning = 1, Information = 2,
    Hint = 3).  A value received at run time need not be one of the four
    named ones. *)
Module DiagnosticSeverity.
Definition Error : Z := 0.
Definition Warning : Z := 1.
Definition Information : Z := 2.
Definition Hint : Z := 3.
End DiagnosticSeverity.

Definition recognized (severity : Z) : Prop :=
  severity = DiagnosticSeverity.Error ∨ severity = DiagnosticSeverity.Warning ∨
  severity = DiagnosticSeverity.Information ∨ severity = DiagnosticSeverity.Hint.

(** [MarkerSeverity] of the widget. *)
Module MarkerSeverity.
Inductive t := Hint | Info | Warning | Error.
End MarkerSeverity.

Record Position := { line : Z; character : Z }.
Record DRange := { start : Position; end_ : Position }.
Record Diagnostic := { message : string; range : DRange; severity : Z }.

(** [monaco.Range]: its four fields. *)
Record Range := {
  r_startLineNumber : Z; r_startColumn : Z;
  r_endLineNumber : Z; r_endColumn : Z }.

(** [new Range(startLineNumber, startColumn, endLineNumber, endColumn)]:
    the constructor puts the two ends in order. *)
Definition newRange (startLineNumber startColumn endLineNumber endColumn : Z) : Range :=
  if (endLineNumber <? startLineNumber) ||
     ((startLineNumber =? endLineNumber) && (endColumn <? startColumn))
  then {| r_startLineNumber := endLineNumber; r_startColumn := endColumn;
          r_endLineNumber := startLineNumber; r_endColumn := startColumn |}
  else {| r_startLineNumber := startLineNumber; r_startColumn := startColumn;
          r_endLineNumber := endLineNumber; r_endColumn := endColumn |}.

Record DecorationOptions := {
  glyphMarginClassName : string;
  glyphMarginHoverMessage : string }.

(** [IModelDecoration] as the service builds it. *)
Record Decoration := {
  id : string;
  ownerId : Z;
  d_range : Range;
  options : DecorationOptions }.

(** [IMarkerData] *)
Record Marker := {
  startLineNumber : Z; startColumn : Z;
  endLineNumber : Z; endColumn : Z;
  m_severity : MarkerSeverity.t;
  m_message : string }.

Definition getSeverity (severity : Z) : MarkerSeverity.t :=
  if severity =? DiagnosticSeverity.Error then MarkerSeverity.Error
  else if severity =? DiagnosticSeverity.Warning then MarkerSeverity.Warning
  else if severity =? DiagnosticSeverity.Information then MarkerSeverity.Info
  else if severity =? DiagnosticSeverity.Hint then MarkerSeverity.Hint
  else MarkerSeverity.Error.

Definition getSeverityClassName (severity : Z) : string :=
  if severity =? DiagnosticSeverity.Warning then "diagnostic-warning"
  else if severity =? DiagnosticSeverity.Information then "diagnostic-information"
  else if severity =? DiagnosticSeverity.Hint then "diagnostic-hint"
  else "diagnostic-warning".

(** The template literal [`${idx}`] for an array index. *)
Definition index_string (idx : nat) : string :=
  NilZero.string_of_uint (Nat.to_uint idx).

Definition newDecoration (idx : nat) (diagnostic : Diagnostic) : Decoration :=
  let className := getSeverityClassName (severity diagnostic) in
  {| id := className +:+ "-" +:+ index_string idx;
     ownerId := 0;
     d_range :=
       newRange (line (start (range diagnostic)) + 1)
                (character (start (range diagnostic)) + 1)
                (line (end_ (range diagnostic)) + 1)
                (character (end_ (range diagnostic)) + 1);
     options :=
       {| glyphMarginClassName := getSeverityClassName (severity diagnostic);
          glyphMarginHoverMessage := message diagnostic |} |}.

Definition newMarker (diagnostic : Diagnostic) : Marker :=
  {| startLineNumber := line (start (range diagnostic)) + 1;
     startColumn := character (start (range diagnostic)) + 1;
     endLineNumber := line (end_ (range diagnostic)) + 1;
     endColumn := character (end_ (range diagnostic)) + 1;
     m_severity := getSeverity (severity diagnostic);
     m_message := message diagnostic |}.

(** The two arrays the [forEach] callback pushes to. *)
Record Output := { decorations : list Decoration; markers : list Marker }.

(** One call of the [forEach] callback: [(diagnostic, idx) => ...]. *)
Definition visit (out : Output) (idx : nat) (diagnostic : Diagnostic) : Output :=
  if negb (severity diagnostic =? DiagnosticSeverity.Error) then
    {| decorations := decorations out ++ [newDecoration idx diagnostic];
       markers := markers out |}
  else
    {| decorations := decorations out;
       markers := markers out ++ [newMarker diagnostic] |}.

(** [Array.prototype.forEach], from index [idx] on. *)
Fixpoint forEach (diagnostics : list Diagnostic) (idx : nat) (out : Output) : Output :=
  match diagnostics with
  | [] => out
  | diagnostic :: rest => forEach rest (S idx) (visit out idx diagnostic)
  end.

Definition createMarkersAndDecorations (diagnostics : list Diagnostic) : Output :=
  forEach diagnostics 0 {| decorations := []; markers := [] |}.

End Diagnostics.

(* ===================================================================== *)
(** ** The editing widget, as far as the service uses it *)
(* ===================================================================== *)

Module Widget.

(** [ICodeEditorViewState]: cursor and scroll position. *)
Record ViewState := { cursorLine : Z; cursorColumn : Z; scrollTop : Z }.

(** The view a buffer is shown with when it has just been attached. *)
Definition initialViewState : ViewState :=
  {| cursorLine := 1; cursorColumn := 1; scrollTop := 0 |}.

(** An [ITextModel] object: its identity (the position of its buffer in
    the buffer store) and its [uri], which never changes.  [m_uri] is
    the string that was given to [Uri.parse]. *)
Record ModelRef := { m_id : nat; m_uri : string }.

(** Two references to the same text model. *)
Definition sameModel (a b : ModelRef) : bool :=
  Nat.eqb (m_id a) (m_id b) && String.eqb (m_uri a) (m_uri b).

(** What a text model holds. *)
Record Buffer := {
  b_language : string;
  b_value : string;
  b_disposed : bool }.

(** [IStandaloneCodeEditor].  [ed_store] holds the decorations the editor
    has added to the buffer it shows: the handle of a decoration is its
    position, and a decoration that is gone leaves [None] behind.  A
    handle stands for the identifier string the buffer gives to a
    decoration: a letter for the buffer, followed by the count of the
    decorations the buffer has been given.  The letters of the first 52
    buffers differ, so that no identifier is given out twice and the
    positions of one list number them all; a run that creates more
    buffers is outside this numbering.  The decorations an
    editor adds belong to that editor and to the buffer it shows; they
    are gone when the editor leaves the buffer.  A range is kept as it
    was validated when the decoration was added; how the buffer moves it
    with later edits of the text is not modelled. *)
Record Editor := {
  ed_model : option ModelRef;
  ed_viewState : ViewState;
  ed_focused : bool;
  ed_store : list (option Diagnostics.Decoration) }.

(** Every decoration is gone; the handles stay used. *)
Definition dropDecorations (store : list (option Diagnostics.Decoration))
    : list (option Diagnostics.Decoration) :=
  (λ _, None) <$> store.

(** The decorations of the editor, by handle: an editor that shows no
    buffer has none. *)
Definition ed_decorations (ed : Editor) : list (option Diagnostics.Decoration) :=
  match ed_model ed with
  | Some _ => ed_store ed
  | None => dropDecorations (ed_store ed)
  end.

(** [monaco.editor.create(elementRef, {...})] with no [model] option: the
    editor is created showing a buffer of its own, [model]. *)
Definition create (model : ModelRef) : Editor :=
  {| ed_model := Some model; ed_viewState := initialViewState;
     ed_focused := false; ed_store := [] |}.

Definition getModel (ed : Editor) : option ModelRef := ed_model ed.

(** The editor shows the buffer of [model]. *)
Definition shows (ed : Editor) (model : ModelRef) : bool :=
  match ed_model ed with
  | Some shown => sameModel shown model
  | None => false
  end.

Definition saveViewState (ed : Editor) : option ViewState :=
  match ed_model ed with
  | Some _ => Some (ed_viewState ed)
  | None => None
  end.

(** [editor.setModel(model)]: nothing happens when the editor shows
    [model] already; otherwise the editor leaves the buffer it shows, its
    decorations there are gone, and [model] is shown with a new view. *)
Definition setModel (model : ModelRef) (ed : Editor) : Editor :=
  if shows ed model then ed
  else {| ed_model := Some model; ed_viewState := initialViewState;
          ed_focused := ed_focused ed; ed_store := dropDecorations (ed_store ed) |}.

(** The buffer of [model] is disposed: an editor that shows it shows
    nothing from then on. *)
Definition modelDisposed (model : ModelRef) (ed : Editor) : Editor :=
  if shows ed model
  then {| ed_model := None; ed_viewState := initialViewState;
          ed_focused := ed_focused ed; ed_store := dropDecorations (ed_store ed) |}
  else ed.

Definition focus (ed : Editor) : Editor :=
  {| ed_model := ed_model ed; ed_viewState := ed_viewState ed;
     ed_focused := true; ed_store := ed_store ed |}.

(** [editor.restoreViewState(v)]: nothing happens when no buffer is shown. *)
Definition restoreViewState (v : ViewState) (ed : Editor) : Editor :=
  match ed_model ed with
  | Some _ =>
      {| ed_model := ed_model ed; ed_viewState := v;
         ed_focused := ed_focused ed; ed_store := ed_store ed |}
  | None => ed
  end.

(** Removal of the decorations with the given handles. *)
Definition removeDecorations (old : list nat)
    (store : list (option Diagnostics.Decoration)) : list (option Diagnostics.Decoration) :=
  foldr (λ h st, <[h := None]> st) store old.

(** A decoration as the buffer keeps it: its range is validated against
    the text of the buffer. *)
Definition validated (validate : Diagnostics.Range → Diagnostics.Range)
    (d : Diagnostics.Decoration) : Diagnostics.Decoration :=
  {| Diagnostics.id := Diagnostics.id d;
     Diagnostics.ownerId := Diagnostics.ownerId d;
     Diagnostics.d_range := validate (Diagnostics.d_range d);
     Diagnostics.options := Diagnostics.options d |}.

(** New decorations get new handles. *)
Fixpoint addDecorations (new : list Diagnostics.Decoration)
    (store : list (option Diagnostics.Decoration))
    : list nat * list (option Diagnostics.Decoration) :=
  match new with
  | [] => ([], store)
  | d :: new =>
      let '(hs, st) := addDecorations new (store ++ [Some d]) in
      (length store :: hs, st)
  end.

(** [model.deltaDecorations(old, new)], as the buffer does it: the old
    handles are gone through in order; one that stands for no decoration
    is skipped; one that stands for a decoration is given to the next new
    decoration, or removed when no new decoration is left; the new
    decorations that are left get new handles. *)
Fixpoint replaceDecorations (old : list nat) (new : list Diagnostics.Decoration)
    (store : list (option Diagnostics.Decoration))
    : list nat * list (option Diagnostics.Decoration) :=
  match old with
  | [] => addDecorations new store
  | h :: old =>
      match mjoin (store !! h) with
      | Some _ =>
          match new with
          | d :: new =>
              let '(hs, st) := replaceDecorations old new (<[h := Some d]> store) in
              (h :: hs, st)
          | [] => replaceDecorations old [] (<[h := None]> store)
          end
      | None => replaceDecorations old new store
      end
  end.

(** [editor.deltaDecorations(oldDecorations, newDecorations)]: the delta
    is that of the buffer the editor shows, and the handles of the new
    decorations are returned; an editor that shows no buffer returns no
    handle and does nothing.  [validate] is the validation of a range
    against the text of the buffer that is shown. *)
Definition deltaDecorations (validate : Diagnostics.Range → Diagnostics.Range)
    (old : list nat) (new : list Diagnostics.Decoration)
    (ed : Editor) : list nat * Editor :=
  match ed_model ed with
  | Some _ =>
      let '(hs, st) := replaceDecorations old (validated validate <$> new) (ed_store ed) in
      (hs, {| ed_model := ed_model ed; ed_viewState := ed_viewState ed;
              ed_focused := ed_focused ed; ed_store := st |})
  | None => ([], ed)
  end.

(** The decorations that are shown. *)
Definition visibleDecorations (ed : Editor) : list Diagnostics.Decoration :=
  omap (λ d, d) (ed_decorations ed).

(** The decoration a handle stands for, if it is still shown. *)
Definition decorationAt (ed : Editor) (h : nat) : option Diagnostics.Decoration :=
  mjoin (ed_decorations ed !! h).

(** [model.setValue(content)] *)
Definition setValue (content : string) (b : Buffer) : Buffer :=
  {| b_language := b_language b; b_value := content; b_disposed := b_disposed b |}.

(** [model.dispose()] *)
Definition dispose (b : Buffer) : Buffer :=
  {| b_language := b_language b; b_value := b_value b; b_disposed := true |}.

End Widget.

(* ===================================================================== *)
(** ** State of the service and of its collaborators *)
(* ===================================================================== *)

(** [File] of the files state. *)
Record File := {
  f_uri : string;
  f_name : string;
  f_content : string;
  f_from : string;
  f_source : option string;
  f_language : string;
  f_modified : bool }.

(** [Partial<File>]: a field that is absent is [None].  [source] may be
    present with the value [undefined]. *)
Record FilePatch := {
  p_uri : option string;
  p_name : option string;
  p_content : option string;
  p_from : option string;
  p_source : option (option string);
  p_language : option string;
  p_modified : option bool }.

Definition emptyPatch : FilePatch :=
  {| p_uri := None; p_name := None; p_content := None; p_from := None;
     p_source := None; p_language := None; p_modified := None |}.

(** [{ ...base, ...over }] *)
Definition spread (base over : FilePatch) : FilePatch :=
  {| p_uri := from_option Some (p_uri base) (p_uri over);
     p_name := from_option Some (p_name base) (p_name over);
     p_content := from_option Some (p_content base) (p_content over);
     p_from := from_option Some (p_from base) (p_from over);
     p_source := from_option Some (p_source base) (p_source over);
     p_language := from_option Some (p_language base) (p_language over);
     p_modified := from_option Some (p_modified base) (p_modified over) |}.

(** [Document] of the documents state, as far as the service reads it. *)
Record Document := { doc_uri : string; filtered : list Diagnostics.Diagnostic }.

(** [EditorTab] of the panels state. *)
Record Tab := { tab_type : string; tab_uri : string }.

(** The fields of [EditorService]. *)
Record EditorService := {
  isCreated : bool;
  decorations : gmap string (list nat);
  instance : option Widget.Editor;
  models : gmap string (option Widget.ModelRef);
  viewStates : gmap string (option Widget.ViewState) }.

(** The service together with what it reads and writes outside itself. *)
Record World := {
  this : EditorService;
  (** the buffers the widget has created, by handle *)
  buffers : list Widget.Buffer;
  (** [setModelMarkers(model, owner, markers)], by the model and the owner
      of the call *)
  modelMarkers : gmap (nat * string) (list Diagnostics.Marker);
  (** [filesState.getState().files] *)
  files : gmap string File;
  (** [localStorage.getItem('document')] *)
  storedDocument : option string;
  (** codes sent as ['file:update'] *)
  socketSent : list string;
  (** calls of [parserSvc.parse(uri, content)], with the time of the call *)
  parseCalls : list (Z * string * string);
  (** the time of the event loop, in milliseconds *)
  clock : Z }.

(** What the editor service calls but does not define is a parameter. *)
Record Services := {
  (** [monaco.Uri.parse(s).toString()] *)
  uri_toString : string → string;
  (** [formatSvc.retrieveLangauge(content)] *)
  retrieveLangauge : string → option string;
  (** [filesSvc.updateFile(uri, patch)] on the files state *)
  updateFile : string → FilePatch → gmap string File → gmap string File;
  (** [model.validateRange(range)] of the widget, for a buffer with the
      given text *)
  validateRange : string → Diagnostics.Range → Diagnostics.Range }.

(** *** Field updates *)

Definition set_decorations (f : gmap string (list nat) → gmap string (list nat))
    (s : EditorService) : EditorService :=
  {| isCreated := isCreated s; decorations := f (decorations s);
     instance := instance s; models := models s; viewStates := viewStates s |}.

Definition set_isCreated (b : bool) (s : EditorService) : EditorService :=
  {| isCreated := b; decorations := decorations s;
     instance := instance s; models := models s; viewStates := viewStates s |}.

Definition set_instance (e : option Widget.Editor) (s : EditorService) : EditorService :=
  {| isCreated := isCreated s; decorations := decorations s;
     instance := e; models := models s; viewStates := viewStates s |}.

Definition set_models
    (f : gmap string (option Widget.ModelRef) → gmap string (option Widget.ModelRef))
    (s : EditorService) : EditorService :=
  {| isCreated := isCreated s; decorations := decorations s;
     instance := instance s; models := f (models s); viewStates := viewStates s |}.

Definition set_viewStates
    (f : gmap string (option Widget.ViewState) → gmap string (option Widget.ViewState))
    (s : EditorService) : EditorService :=
  {| isCreated := isCreated s; decorations := decorations s;
     instance := instance s; models := models s; viewStates := f (viewStates s) |}.

Definition set_this (f : EditorService → EditorService) (w : World) : World :=
  {| this := f (this w); buffers := buffers w; modelMarkers := modelMarkers w;
     files := files w; storedDocument := storedDocument w;
     socketSent := socketSent w; parseCalls := parseCalls w; clock := clock w |}.

Definition set_buffers (f : list Widget.Buffer → list Widget.Buffer) (w : World) : World :=
  {| this := this w; buffers := f (buffers w); modelMarkers := modelMarkers w;
     files := files w; storedDocument := storedDocument w;
     socketSent := socketSent w; parseCalls := parseCalls w; clock := clock w |}.

Definition set_modelMarkers
    (f : gmap (nat * string) (list Diagnostics.Marker) → gmap (nat * string) (list Diagnostics.Marker))
    (w : World) : World :=
  {| this := this w; buffers := buffers w; modelMarkers := f (modelMarkers w);
     files := files w; storedDocument := storedDocument w;
     socketSent := socketSent w; parseCalls := parseCalls w; clock := clock w |}.

Definition set_files (f : gmap string File → gmap string File) (w : World) : World :=
  {| this := this w; buffers := buffers w; modelMarkers := modelMarkers w;
     files := f (files w); storedDocument := storedDocument w;
     socketSent := socketSent w; parseCalls := parseCalls w; clock := clock w |}.

Definition set_socketSent (f : list string → list string) (w : World) : World :=
  {| this := this w; buffers := buffers w; modelMarkers := modelMarkers w;
     files := files w; storedDocument := storedDocument w;
     socketSent := f (socketSent w); parseCalls := parseCalls w; clock := clock w |}.

Definition set_parseCalls (f : list (Z * string * string) → list (Z * string * string))
    (w : World) : World :=
  {| this := this w; buffers := buffers w; modelMarkers := modelMarkers w;
     files := files w; storedDocument := storedDocument w;
     socketSent := socketSent w; parseCalls := f (parseCalls w); clock := clock w |}.

Definition set_clock (t : Z) (w : World) : World :=
  {| this := this w; buffers := buffers w; modelMarkers := modelMarkers w;
     files := files w; storedDocument := storedDocument w;
     socketSent := socketSent w; parseCalls := parseCalls w; clock := t |}.

(** A call either returns or throws; the state reached is kept in both cases. *)
Inductive Completion (A : Type) :=
  | Normal (a : A)
  | Throw (a : A).
Arguments Normal {A} a.
Arguments Throw {A} a.

Definition state_of {A} (c : Completion A) : A :=
  match c with Normal a | Throw a => a end.

(** Values that may reach a parameter typed [string]. *)
Inductive JsValue :=
  | JString (s : string)
  | JUndefined
  | JOther.

(** The argument of [updateState]; an absent field is [None]. *)
Record UpdateState := {
  content : JsValue;
  updateModel : option bool;
  sendToServer : option bool;
  file : option FilePatch }.

(** Truthiness of a string that may be [undefined]. *)
Definition truthy (o : option string) : option string :=
  match o with
  | Some s => if decide (s = "") then None else Some s
  | None => None
  end.

(** [a === b] for a string or [undefined] on the left. *)
Definition strict_eq (a : option string) (b : JsValue) : bool :=
  match a, b with
  | Some s, JString s' => bool_decide (s = s')
  | None, JUndefined => true
  | _, _ => false
  end.

(* ===================================================================== *)
(** ** The operations of the service *)
(* ===================================================================== *)

Section Service.

Context (svcs : Services).

(** [model.uri.toString()] *)
Definition uriString (model : Widget.ModelRef) : string :=
  uri_toString svcs (Widget.m_uri model).

(** [model.getValue()] *)
Definition getValue (model : Widget.ModelRef) (w : World) : string :=
  default "" (Widget.b_value <$> buffers w !! Widget.m_id model).

(** Modelled from the spec: [filesSvc.getFile(uri)] is the lookup
    [getResource(id)] of the resource registry; the files service is
    defined outside the editor service. *)
Definition getFile (uri : string) (w : World) : option File := files w !! uri.

(** [get editor()] *)
Definition editor (w : World) : option Widget.Editor := instance (this w).

Definition getCurrentModel (w : World) : option Widget.ModelRef :=
  editor w ≫= Widget.getModel.

(** [monaco.editor.createModel(value, language, uri)]: a new buffer, and
    the object that refers to it. *)
Definition monaco_createModel (value language uri : string) (w : World)
    : Widget.ModelRef * World :=
  ({| Widget.m_id := length (buffers w); Widget.m_uri := uri |},
   set_buffers (λ bs, bs ++ [{| Widget.b_language := language;
                                Widget.b_value := value;
                                Widget.b_disposed := false |}]) w).

(** [createModel(uri, file?)]: nothing is created for an identifier that
    the cache has, or for which there is no file. *)
Definition createModel (uri : string) (file : option File) (w : World)
    : option Widget.ModelRef * World :=
  match models (this w) !! uri with
  | Some _ => (None, w)
  | None =>
      match (match file with Some f => Some f | None => getFile uri w end) with
      | None => (None, w)
      | Some f =>
          let '(model, w1) := monaco_createModel (f_content f) (f_language f) (f_uri f) w in
          (Some model, set_this (set_models (λ ms, <[uri := Some model]> ms)) w1)
      end
  end.

(** [this.models.get(uri) || this.createModel(uri)] *)
Definition getModel (uri : string) (w : World) : option Widget.ModelRef * World :=
  match models (this w) !! uri with
  | Some (Some model) => (Some model, w)
  | _ => createModel uri None w
  end.

(** [model.dispose()]: the buffer is disposed, and an editor that shows it
    shows nothing from then on. *)
Definition disposeModel (model : Widget.ModelRef) (w : World) : World :=
  set_this (λ s, set_instance (Widget.modelDisposed model <$> instance s) s)
    (set_buffers (λ bs, alter Widget.dispose (Widget.m_id model) bs) w).

(** [removeModel(uri)]: the result is [undefined], or what
    [this.models.delete(uri)] returns. *)
Definition removeModel (uri : string) (w : World) : option bool * World :=
  match models (this w) !! uri with
  | Some (Some model) =>
      let w1 := disposeModel model w in
      (Some true, set_this (set_models (λ ms, delete uri ms)) w1)
  | _ => (None, w)
  end.

(** [createEditor(elementRef)]: [monaco.editor.create] is called with no
    [model] option, so the widget creates an empty buffer of its own (its
    URI is [inmemory://model/n], [n] counting the buffers created so
    far) and the editor shows it. *)
Definition createEditor (w : World) : World :=
  let model :=
    {| Widget.m_id := length (buffers w);
       Widget.m_uri := "inmemory://model/" +:+
                       Diagnostics.index_string (S (length (buffers w))) |} in
  set_this (set_instance (Some (Widget.create model)))
    (set_buffers (λ bs, bs ++ [{| Widget.b_language := "plaintext";
                                  Widget.b_value := "";
                                  Widget.b_disposed := false |}]) w).

(** The validation of a range by the buffer that [ed] shows. *)
Definition validation (ed : Widget.Editor) (w : World)
    : Diagnostics.Range → Diagnostics.Range :=
  match Widget.getModel ed with
  | Some shown => validateRange svcs (getValue shown w)
  | None => λ r, r
  end.

(** [onChangeTab(newTab)].  [this.editor.setModel] throws when there is
    no editor instance. *)
Definition onChangeTab (newTab : Tab) (w : World) : Completion World :=
  let w1 :=
    match getCurrentModel w, editor w with
    | Some oldModel, Some ed =>
        let viewState := Widget.saveViewState ed in
        let uri := uriString oldModel in
        set_this (set_viewStates (λ vs, <[uri := viewState]> vs)) w
    | _, _ => w
    end in
  let '(model, w2) := getModel (tab_uri newTab) w1 in
  match model with
  | Some model =>
      match editor w2 with
      | None => Throw w2
      | Some ed =>
          let ed1 := Widget.focus (Widget.setModel model ed) in
          let uri := uriString model in
          let ed2 :=
            match viewStates (this w2) !! uri with
            | Some (Some restoredViewState) => Widget.restoreViewState restoredViewState ed1
            | _ => ed1
            end in
          Normal (set_this (set_instance (Some ed2)) w2)
      end
  | None => Normal w2
  end.

Definition applyMarkersAndDecorations (document : Document) (w : World) : World :=
  let uri := doc_uri document in
  let '(model, w1) := getModel uri w in
  match model, editor w1 with
  | Some model, Some ed =>
      let out := Diagnostics.createMarkersAndDecorations (filtered document) in
      let w2 := set_modelMarkers
                  (λ mm, <[(Widget.m_id model, uri) := Diagnostics.markers out]> mm) w1 in
      let oldDecorations := default [] (decorations (this w2) !! uri) in
      let '(oldDecorations, ed1) :=
        Widget.deltaDecorations (validation ed w2) oldDecorations
          (Diagnostics.decorations out) ed in
      set_this (λ s, set_decorations (λ ds, <[uri := oldDecorations]> ds)
                       (set_instance (Some ed1) s)) w2
  | _, _ => w1
  end.

Definition removeMarkersAndDecorations (document : Document) (w : World) : World :=
  let uri := doc_uri document in
  let '(model, w1) := getModel uri w in
  match model, editor w1 with
  | Some model, Some ed =>
      let w2 := set_modelMarkers (λ mm, <[(Widget.m_id model, uri) := []]> mm) w1 in
      let oldDecorations := default [] (decorations (this w2) !! uri) in
      let '(oldDecorations, ed1) :=
        Widget.deltaDecorations (validation ed w2) oldDecorations [] ed in
      set_this (λ s, set_decorations (λ ds, <[uri := oldDecorations]> ds)
                       (set_instance (Some ed1) s)) w2
  | _, _ => w1
  end.

Definition getFromLocalStorage (w : World) : option string := storedDocument w.

(** [updateState({ content, updateModel = false, sendToServer = true,
    file = {} })].  The notification that [model.setValue] raises reaches
    the listener through the event loop (see [contentChanged] below). *)
Definition updateState (arg : UpdateState) (w : World) : World :=
  let updateModel := default false (updateModel arg) in
  let sendToServer := default true (sendToServer arg) in
  let file := default emptyPatch (file arg) in
  let currentContent := f_content <$> files w !! "asyncapi" in
  match content arg with
  | JString content =>
      if strict_eq currentContent (JString content) then w
      else
        match truthy (from_option Some (retrieveLangauge svcs content)
                                  (truthy (p_language file))) with
        | None => w
        | Some language =>
            let w1 := if sendToServer
                      then set_socketSent (λ l, l ++ [content]) w else w in
            let w2 :=
              if updateModel then
                match editor w1 ≫= Widget.getModel with
                | Some model =>
                    set_buffers (alter (Widget.setValue content) (Widget.m_id model)) w1
                | None => w1
                end
              else w1 in
            set_files
              (updateFile svcs "asyncapi"
                 (spread {| p_uri := None; p_name := None;
                            p_content := Some content; p_from := None;
                            p_source := None; p_language := Some language;
                            p_modified :=
                              Some (negb (bool_decide (getFromLocalStorage w2 = Some content))) |}
                         file)) w2
        end
  | _ => w
  end.

(** *** The lifecycle events the service subscribes to *)

Inductive Event :=
  | fs_file_remove (file : File)
  | panels_panel_set_active_tab (tab : option Tab)
  | documents_document_create (document : Document)
  | documents_document_update (document : Document)
  | documents_document_remove (document : Document).

(** The handlers registered by [subscribeToFiles], [subscribeToPanels]
    and [subcribeToDocuments].  The tab of [panels.panel.set-active-tab]
    is the result of [panelsSvc.getTab(panel.id, panel.activeTab)]. *)
Definition handle (e : Event) (w : World) : Completion World :=
  match e with
  | fs_file_remove file => Normal (removeModel (f_uri file) w).2
  | panels_panel_set_active_tab tab =>
      match tab with
      | Some tab => if decide (tab_type tab = "editor") then onChangeTab tab w else Normal w
      | None => Normal w
      end
  | documents_document_create document => Normal (applyMarkersAndDecorations document w)
  | documents_document_update document => Normal (applyMarkersAndDecorations document w)
  | documents_document_remove document => Normal (removeMarkersAndDecorations document w)
  end.

End Service.

(* ===================================================================== *)
(** ** The change synchronizer *)
(* ===================================================================== *)

(** [SettingsState] *)
Record EditorSettings := { autoSaving : bool; savingDelay : Z }.
Record GovernanceShow := { warnings : bool; informations : bool; hints : bool }.
Record Governance := { show : GovernanceShow }.
Record Templates := { autoRendering : bool }.
Record SettingsState := {
  s_editor : EditorSettings;
  s_governance : Governance;
  s_templates : Templates }.

(** Modelled from the spec: the helper [isDeepEqual] is defined outside
    the editor service; the spec calls it a deep comparison of the
    governance sub-tree of the settings. *)
Definition isDeepEqual (a b : Governance) : bool :=
  bool_decide (warnings (show a) = warnings (show b)) &&
  bool_decide (informations (show a) = informations (show b)) &&
  bool_decide (hints (show a) = hints (show b)).

(** Modelled from the spec: the helper [debounce] is defined outside the
    editor service.  The spec describes it as one cancelable timer: on
    every call a scheduled flush is cancelled and a new one is scheduled
    after the delay.  [wait] is the delay the function was built with and
    [timeout] the timer that is scheduled, if any. *)
Record Debounced := { wait : Z; timeout : option nat }.

(** The event loop: the world, the settings that [settingsSvc.get()] returns,
    the timers that are scheduled (identifier and time at which each is
    due), and the listener registered with [onDidChangeModelContent]. *)
Record System := {
  world : World;
  currentSettings : SettingsState;
  timers : list (nat * Z);
  nextTimer : nat;
  subscription : option Debounced }.

Definition set_world (f : World → World) (sys : System) : System :=
  {| world := f (world sys); currentSettings := currentSettings sys; timers := timers sys;
     nextTimer := nextTimer sys; subscription := subscription sys |}.

Definition set_settings (s : SettingsState) (sys : System) : System :=
  {| world := world sys; currentSettings := s; timers := timers sys;
     nextTimer := nextTimer sys; subscription := subscription sys |}.

Definition set_subscription (d : option Debounced) (sys : System) : System :=
  {| world := world sys; currentSettings := currentSettings sys; timers := timers sys;
     nextTimer := nextTimer sys; subscription := d |}.

(** [clearTimeout(id)] *)
Definition clearTimeout (id : nat) (sys : System) : System :=
  {| world := world sys; currentSettings := currentSettings sys;
     timers := filter (λ t, t.1 ≠ id) (timers sys);
     nextTimer := nextTimer sys; subscription := subscription sys |}.

(** [setTimeout(later, delay)]: the timer is due [delay] milliseconds from
    now (a negative delay counts as 0). *)
Definition setTimeout (delay : Z) (sys : System) : nat * System :=
  (nextTimer sys,
   {| world := world sys; currentSettings := currentSettings sys;
      timers := timers sys ++ [(nextTimer sys, clock (world sys) + Z.max 0 delay)];
      nextTimer := S (nextTimer sys); subscription := subscription sys |}).

(** The first of the timers that are due soonest. *)
Fixpoint earliest (ts : list (nat * Z)) : option (nat * Z) :=
  match ts with
  | [] => None
  | t :: rest =>
      match earliest rest with
      | Some t' => if bool_decide (t'.2 < t.2) then Some t' else Some t
      | None => Some t
      end
  end.

Section Synchronizer.

Context (svcs : Services).

(** The function that [onChangeContent] hands to [debounce]. *)
Definition flush (w : World) : World :=
  match getCurrentModel w with
  | Some model =>
      let content := getValue model w in
      set_parseCalls (λ l, l ++ [(clock w, uriString svcs model, content)]) w
  | None => w
  end.

(** [onChangeContent(settings)]: the debounced function, built with the
    saving delay of the settings it is given. *)
Definition onChangeContent (settings : SettingsState) : Debounced :=
  {| wait := savingDelay (s_editor settings); timeout := None |}.

(** A call of the debounced function. *)
Definition call_debounced (d : Debounced) (sys : System) : System :=
  let sys1 := match timeout d with
              | Some id => clearTimeout id sys
              | None => sys
              end in
  let '(id, sys2) := setTimeout (wait d) sys1 in
  set_subscription (Some {| wait := wait d; timeout := Some id |}) sys2.

(** A timer fires: the clock stands at the time the timer is due, the
    timer forgets itself and runs the debounced function's body. *)
Definition fire (t : nat * Z) (sys : System) : System :=
  let sys1 := clearTimeout t.1 sys in
  let sys2 :=
    match subscription sys1 with
    | Some d =>
        if bool_decide (timeout d = Some t.1)
        then set_subscription (Some {| wait := wait d; timeout := None |}) sys1
        else sys1
    | None => sys1
    end in
  set_world (λ w, flush (set_clock (Z.max (clock w) t.2) w)) sys2.

(** The timers due up to time [t] fire, soonest first. *)
Fixpoint runTimers (fuel : nat) (t : Z) (sys : System) : System :=
  match fuel with
  | O => sys
  | S fuel =>
      match earliest (timers sys) with
      | Some tm =>
          if bool_decide (tm.2 ≤ t) then runTimers fuel t (fire tm sys) else sys
      | None => sys
      end
  end.

(** Time passes until [t]. *)
Definition advance (t : Z) (sys : System) : System :=
  let sys1 := runTimers (length (timers sys)) t sys in
  set_world (λ w, set_clock (Z.max (clock w) t) w) sys1.

(** [configureEditor]: the listener is registered with the settings of
    the moment. *)
Definition configureEditor (sys : System) : System :=
  set_subscription (Some (onChangeContent (currentSettings sys))) sys.

(** The handler of ['settings.update'] that [configureEditor] registers.
    A listener that is disposed no longer receives notifications; a
    timer it has scheduled stays scheduled. *)
Definition on_settings_update (settings prevSettings : SettingsState)
    (sys : System) : System :=
  if isDeepEqual (s_governance settings) (s_governance prevSettings) then sys
  else
    match subscription sys with
    | Some _ => set_subscription (Some (onChangeContent (currentSettings sys))) sys
    | None => sys
    end.

End Synchronizer.

(** *** What reaches the event loop from outside *)

Section Environment.

Context (svcs : Services).

(** At time [t] an edit makes [text] the content of the buffer the
    editor shows, and the widget notifies the registered listener.  An
    edit is a task of its own, and the timers that were due before it
    have fired.  Between a timer that is due at [t] and an edit at [t]
    the event loop fixes no order; the timer is taken first here. *)
Definition contentChanged (t : Z) (text : string) (sys : System) : System :=
  let sys1 := advance svcs t sys in
  match getCurrentModel (world sys1) with
  | Some model =>
      let sys2 :=
        set_world (set_buffers (alter (Widget.setValue text) (Widget.m_id model))) sys1 in
      match subscription sys2 with
      | Some d => call_debounced d sys2
      | None => sys2
      end
  | None => sys1
  end.

(** At time [t] the settings become [settings] and ['settings.update']
    is delivered with the new and the previous settings. *)
Definition settingsUpdate (t : Z) (settings : SettingsState) (sys : System) : System :=
  let sys1 := advance svcs t sys in
  on_settings_update settings (currentSettings sys1) (set_settings settings sys1).

(** A burst of edits, each with its time and the content it leaves. *)
Definition edits (es : list (Z * string)) (sys : System) : System :=
  foldl (λ sys e, contentChanged e.1 e.2 sys) sys es.

(** The time at which the flush of the registered listener is due. *)
Definition scheduledFlush (sys : System) : option Z :=
  d ← subscription sys; id ← timeout d;
  t ← list_find (λ t, t.1 = id) (timers sys); Some t.2.2.

End Environment.

(** The times of a burst do not decrease, starting at or after [from]. *)
Fixpoint ascending (from : Z) (es : list (Z * string)) : Prop :=
  match es with
  | [] => True
  | e :: rest => from ≤ e.1 ∧ ascending e.1 rest
  end.

(** *** A concrete world, for examples *)

Module Example.

(** The length of every line of a text; a line ends with a line feed, a
    carriage return, or a carriage return and a line feed. *)
Fixpoint lineLengths (text : string) (n : Z) : list Z :=
  match text with
  | EmptyString => [n]
  | String c rest =>
      if Ascii.eqb c (Ascii.ascii_of_nat 10) then n :: lineLengths rest 0
      else if Ascii.eqb c (Ascii.ascii_of_nat 13) then
        match rest with
        | String c' rest' =>
            if Ascii.eqb c' (Ascii.ascii_of_nat 10) then n :: lineLengths rest' 0
            else n :: lineLengths rest 0
        | EmptyString => n :: lineLengths rest 0
        end
      else lineLengths rest (n + 1)
  end.

(** A position is moved into the text. *)
Definition validatePosition (lengths : list Z) (lineNumber column : Z) : Z * Z :=
  let lineCount := Z.of_nat (length lengths) in
  let maxColumn l := default 0 (lengths !! Z.to_nat (l - 1)) + 1 in
  if lineNumber <? 1 then (1, 1)
  else if lineCount <? lineNumber then (lineCount, maxColumn lineCount)
  else if column <=? 1 then (lineNumber, 1)
  else if maxColumn lineNumber <=? column then (lineNumber, maxColumn lineNumber)
  else (lineNumber, column).

Definition svcs : Services :=
  {| uri_toString := λ s, if String.prefix "inmemory:" s then s else "file:///" +:+ s;
     validateRange := λ text r,
       let lengths := lineLengths text 0 in
       let s := validatePosition lengths (Diagnostics.r_startLineNumber r)
                  (Diagnostics.r_startColumn r) in
       let e := validatePosition lengths (Diagnostics.r_endLineNumber r)
                  (Diagnostics.r_endColumn r) in
       Diagnostics.newRange s.1 s.2 e.1 e.2;
     retrieveLangauge := λ c,
       if decide (c = "") then None
       else if String.prefix "{" c then Some "json" else Some "yaml";
     updateFile := λ uri patch fs,
       alter (λ f, {| f_uri := default (f_uri f) (p_uri patch);
                      f_name := default (f_name f) (p_name patch);
                      f_content := default (f_content f) (p_content patch);
                      f_from := default (f_from f) (p_from patch);
                      f_source := default (f_source f) (p_source patch);
                      f_language := default (f_language f) (p_language patch);
                      f_modified := default (f_modified f) (p_modified patch) |}) uri fs |}.

Definition file_of (uri content : string) : File :=
  {| f_uri := uri; f_name := uri; f_content := content; f_from := "storage";
     f_source := None; f_language := "yaml"; f_modified := false |}.

(** The service before the editor is set up, with three files known. *)
Definition bare : World :=
  {| this := {| isCreated := false; decorations := ∅;
                instance := None; models := ∅; viewStates := ∅ |};
     buffers := []; modelMarkers := ∅;
     files := <["asyncapi" := file_of "asyncapi" "asyncapi: 3.0.0"]>
              (<["a" := file_of "a" "A"]> (<["b" := file_of "b" "B"]> ∅));
     storedDocument := Some "asyncapi: 3.0.0";
     socketSent := []; parseCalls := []; clock := 0 |}.

(** The service right after [onSetupEditor]: the editor shows the empty
    buffer it was created with. *)
Definition w0 : World := createEditor (set_this (set_isCreated true) bare).

Definition settings0 : SettingsState :=
  {| s_editor := {| autoSaving := true; savingDelay := 300 |};
     s_governance := {| show := {| warnings := true; informations := true; hints := true |} |};
     s_templates := {| autoRendering := true |} |}.

(** The editor shows the file ["a"] and the listener is registered. *)
Definition sys0 : System :=
  configureEditor
    {| world := state_of (onChangeTab svcs {| tab_type := "editor"; tab_uri := "a" |} w0);
       currentSettings := settings0; timers := []; nextTimer := 0;
       subscription := None |}.

Definition diag (sev : Z) (l1 c1 l2 c2 : Z) (msg : string) : Diagnostics.Diagnostic :=
  {| Diagnostics.message := msg;
     Diagnostics.range :=
       {| Diagnostics.start := {| Diagnostics.line := l1; Diagnostics.character := c1 |};
          Diagnostics.end_ := {| Diagnostics.line := l2; Diagnostics.character := c2 |} |};
     Diagnostics.severity := sev |}.

End Example.

(** *** Runs used in the statements *)

(** Handle lookups, one after the other; every result is kept with the
    identifier that was looked up. *)
Fixpoint lookups (uris : list string) (w : World)
    : list (string * option Widget.ModelRef) * World :=
  match uris with
  | [] => ([], w)
  | uri :: rest =>
      let '(model, w1) := getModel uri w in
      let '(results, w2) := lookups rest w1 in
      ((uri, model) :: results, w2)
  end.

(** What a lookup of [uri] with result [r] leaves behind: the handle is
    cached, or there is nothing to make one from. *)
Definition settled (uri : string) (r : option Widget.ModelRef) (w : World) : Prop :=
  match r with
  | Some model => models (this w) !! uri = Some (Some model)
  | None =>
      models (this w) !! uri = Some None ∨
      (models (this w) !! uri = None ∧ files w !! uri = None)
  end.

(** The decorations shown on the buffer of [model]: those of the editor,
    when it shows that buffer. *)
Definition shownOn (model : Widget.ModelRef) (w : World) : list Diagnostics.Decoration :=
  match editor w with
  | Some ed => if Widget.shows ed model then Widget.visibleDecorations ed else []
  | None => []
  end.

(** The snapshot a tab switch saves: the view of the buffer that is bound
    when the switch starts, under the URI of that buffer. *)
Definition saved (svcs : Services) (w : World)
    (vs : gmap string (option Widget.ViewState)) : gmap string (option Widget.ViewState) :=
  match getCurrentModel w, editor w with
  | Some oldModel, Some ed => <[uriString svcs oldModel := Widget.saveViewState ed]> vs
  | _, _ => vs
  end.

(** The user moves the cursor or scrolls: the view of the editor changes. *)
Definition moveView (v : Widget.ViewState) (w : World) : World :=
  set_this (λ s, set_instance (Widget.restoreViewState v <$> instance s) s) w.

(** The listener is registered with the delay [d] and nothing is
    scheduled. *)
Definition idle (sys : System) (d : Z) : Prop :=
  wait <$> subscription sys = Some d ∧ timers sys = [].

(** The listener is registered with the delay [d]; its flush is scheduled
    for the time [due], and nothing else is scheduled. *)
Definition pending (sys : System) (d due : Z) : Prop :=
  ∃ id, subscription sys = Some {| wait := d; timeout := Some id |} ∧
        timers sys = [(id, due)].

(** The editor shows the buffer of [model], which holds [text]. *)
Definition shows (w : World) (model : Widget.ModelRef) (text : string) : Prop :=
  getCurrentModel w = Some model ∧
  Widget.b_value <$> buffers w !! Widget.m_id model = Some text.

(** Every scheduled timer has an identifier that has been handed out. *)
Definition timers_fresh (sys : System) : Prop :=
  Forall (λ t, (t.1 < nextTimer sys)%nat) (timers sys).

(* ===================================================================== *)
(** ** The rest of the service: setup, storage, conversions *)
(* ===================================================================== *)

Definition set_storedDocument (d : option string) (w : World) : World :=
  {| this := this w; buffers := buffers w; modelMarkers := modelMarkers w;
     files := files w; storedDocument := d;
     socketSent := socketSent w; parseCalls := parseCalls w; clock := clock w |}.

(** The two toasts of [saveToLocalStorage]. *)
Inductive Toast :=
  | SavingAutomatically
  | SuccessfullySaved.

(** What a call into a collaborator that may throw yields. *)
Inductive Outcome (A : Type) :=
  | Returned (a : A)
  | Raised.
Arguments Returned {A} a.
Arguments Raised {A}.

Section Storage.

Context (svcs : Services).

(** [get value()]: [this.editor?.getModel()?.getValue()] *)
Definition value (w : World) : option string :=
  getCurrentModel w ≫= λ model, Some (getValue model w).

(** [onSetupEditor(elementRef)].  The second component tells whether
    [appState.setState({ initialized: true })] was called. *)
Definition onSetupEditor (sys : System) : System * bool :=
  if isCreated (this (world sys)) then (sys, false)
  else
    let sys1 := set_world (set_this (set_isCreated true)) sys in
    let sys2 := set_world createEditor sys1 in
    (configureEditor sys2, true).

(** [saveToLocalStorage(editorValue?, notify = true)].
    [localStorage.setItem] stores the string of its argument, which is
    ["undefined"] when neither the argument nor the editor has a value.
    The second component is the toast that is shown, if any. *)
Definition saveToLocalStorage (editorValue : option string) (notify : option bool)
    (sys : System) : System * option Toast :=
  let notify := default true notify in
  let editorValue := from_option Some (value (world sys)) (truthy editorValue) in
  let sys1 := set_world (set_storedDocument (Some (default "undefined" editorValue))) sys in
  let sys2 :=
    set_world (set_files (updateFile svcs "asyncapi"
                 {| p_uri := None; p_name := None; p_content := None;
                    p_from := Some "storage"; p_source := Some None;
                    p_language := None; p_modified := Some false |})) sys1 in
  (sys2,
   if notify then
     Some (if autoSaving (s_editor (currentSettings sys2))
           then SavingAutomatically else SuccessfullySaved)
   else None).

(** [convertToYaml()]; [format_convertToYaml] is
    [formatSvc.convertToYaml].  What is caught is thrown again. *)
Definition convertToYaml (format_convertToYaml : option string → Outcome (option string))
    (w : World) : Completion World :=
  match format_convertToYaml (value w) with
  | Returned yamlContent =>
      match truthy yamlContent with
      | Some yamlContent =>
          Normal (updateState svcs
                    {| content := JString yamlContent; updateModel := Some true;
                       sendToServer := None;
                       file := Some {| p_uri := None; p_name := None; p_content := None;
                                       p_from := None; p_source := None;
                                       p_language := Some "yaml"; p_modified := None |} |} w)
      | None => Normal w
      end
  | Raised => Throw w
  end.

(** [convertToJSON()]; [format_convertToJSON] is
    [formatSvc.convertToJSON]. *)
Definition convertToJSON (format_convertToJSON : option string → Outcome (option string))
    (w : World) : Completion World :=
  match format_convertToJSON (value w) with
  | Returned jsonContent =>
      match truthy jsonContent with
      | Some jsonContent =>
          Normal (updateState svcs
                    {| content := JString jsonContent; updateModel := Some true;
                       sendToServer := None;
                       file := Some {| p_uri := None; p_name := None; p_content := None;
                                       p_from := None; p_source := None;
                                       p_language := Some "json"; p_modified := None |} |} w)
      | None => Normal w
      end
  | Raised => Throw w
  end.

(** [importBase64(content)]; [decodeBase64] is [formatSvc.decodeBase64]. *)
Definition importBase64 (decodeBase64 : string → Outcome string) (content : string)
    (w : World) : Completion World :=
  match decodeBase64 content with
  | Returned decoded =>
      Normal (updateState svcs
                {| content := JString decoded; updateModel := Some true;
                   sendToServer := None;
                   file := Some {| p_uri := None; p_name := None; p_content := None;
                                   p_from := Some "base64"; p_source := Some None;
                                   p_language := None; p_modified := None |} |} w)
  | Raised => Throw w
  end.

(** What happens to the service between two moments: an event is
    delivered, or [updateState] is called. *)
Inductive Action :=
  | deliver (e : Event)
  | call_updateState (arg : UpdateState).

Definition step (a : Action) (w : World) : World :=
  match a with
  | deliver e => state_of (handle svcs e w)
  | call_updateState arg => updateState svcs arg w
  end.

Definition run (actions : list Action) (w : World) : World :=
  foldl (λ w a, step a w) w actions.

(** The editor is switched to the tab of [uri] between two moments of the
    event loop. *)
Definition switchTab (uri : string) (sys : System) : System :=
  set_world (λ w, state_of (onChangeTab svcs {| tab_type := "editor"; tab_uri := uri |} w)) sys.

End Storage.

(** Every cached handle refers to a buffer that exists and is not
    disposed, and no two identifiers share a buffer. *)
Definition handles_wf (w : World) : Prop :=
  (∀ id model, models (this w) !! id = Some (Some model) →
     ∃ b, buffers w !! Widget.m_id model = Some b ∧ Widget.b_disposed b = false) ∧
  (∀ id1 id2 model1 model2,
     models (this w) !! id1 = Some (Some model1) →
     models (this w) !! id2 = Some (Some model2) →
     Widget.m_id model1 = Widget.m_id model2 → id1 = id2).

(** The decoration store of the editor, empty when there is no editor. *)
Definition decorationStore (w : World) : list (option Diagnostics.Decoration) :=
  default [] (Widget.ed_decorations <$> editor w).

(** Every stored decoration handle is one the editor has handed out, and no
    handle is stored for two identifiers. *)
Definition decorations_wf (w : World) : Prop :=
  (∀ id hs h, decorations (this w) !! id = Some hs → h ∈ hs →
     (h < length (decorationStore w))%nat) ∧
  (∀ id1 id2 hs1 hs2 h,
     decorations (this w) !! id1 = Some hs1 → decorations (this w) !! id2 = Some hs2 →
     h ∈ hs1 → h ∈ hs2 → id1 = id2).

(** No handle is stored twice for one identifier. *)
Definition decorations_nodup (w : World) : Prop :=
  ∀ id hs, decorations (this w) !! id = Some hs → NoDup hs.

(** What the editor shows for the handles stored under [id]. *)
Definition shownFor (id : string) (w : World) : list (option Diagnostics.Decoration) :=
  (λ h, mjoin (decorationStore w !! h)) <$> default [] (decorations (this w) !! id).

(** Every edit of a burst comes more than [d] after the one before. *)
Fixpoint spaced (d from : Z) (es : list (Z * string)) : Prop :=
  match es with
  | [] => True
  | e :: rest => from + d < e.1 ∧ spaced d e.1 rest
  end.

(* ===================================================================== *)
(** ** Properties of the conversion of diagnostics *)
(* ===================================================================== *)

Section DiagnosticsFacts.

Import Diagnostics.

Definition isError (d : Diagnostic) : Prop := severity d = DiagnosticSeverity.Error.

Lemma visit_decorations out idx d :
  decorations (visit out idx d) =
  decorations out ++ (if decide (isError d) then [] else [newDecoration idx d]).
Proof.
  unfold visit, isError. destruct (Z.eqb_spec (severity d) DiagnosticSeverity.Error) as [E|E];
    simpl; case_decide; try done. by rewrite app_nil_r.
Qed.

Lemma visit_markers out idx d :
  markers (visit out idx d) =
  markers out ++ (if decide (isError d) then [newMarker d] else []).
Proof.
  unfold visit, isError. destruct (Z.eqb_spec (severity d) DiagnosticSeverity.Error) as [E|E];
    simpl; case_decide; try done. by rewrite app_nil_r.
Qed.

(** The markers are those of the diagnostics of error severity, in order. *)
Lemma forEach_markers ds idx out :
  markers (forEach ds idx out) = markers out ++ (newMarker <$> filter isError ds).
Proof.
  revert idx out. induction ds as [|d ds IH]; intros idx out; simpl.
  - by rewrite app_nil_r.
  - rewrite IH, visit_markers, filter_cons. case_decide; simpl.
    + by rewrite <- app_assoc.
    + by rewrite app_nil_r.
Qed.

(** The decorations are those of the other diagnostics, in order, each
    with its position in the list that was given. *)
Lemma forEach_decorations ds idx out :
  decorations (forEach ds idx out) =
  decorations out ++
    ((λ p, newDecoration p.1 p.2) <$>
       filter (λ p, ¬ isError p.2) (imap (λ i d, ((idx + i)%nat, d)) ds)).
Proof.
  revert idx out. induction ds as [|d ds IH]; intros idx out; simpl.
  - by rewrite app_nil_r.
  - rewrite IH, visit_decorations, filter_cons. simpl.
    rewrite Nat.add_0_r.
    assert (imap ((λ i d0, ((idx + i)%nat, d0)) ∘ S) ds
            = imap (λ i d0, ((S idx + i)%nat, d0)) ds) as ->.
    { apply imap_ext. intros i x _. simpl. f_equal. lia. }
    destruct (decide (isError d)) as [E|E].
    + rewrite decide_False by tauto. by rewrite app_nil_r.
    + rewrite decide_True by tauto. simpl. by rewrite <- app_assoc.
Qed.

Lemma createMarkersAndDecorations_markers ds :
  markers (createMarkersAndDecorations ds) = newMarker <$> filter isError ds.
Proof. unfold createMarkersAndDecorations. by rewrite forEach_markers. Qed.

Lemma createMarkersAndDecorations_decorations ds :
  decorations (createMarkersAndDecorations ds) =
  (λ p, newDecoration p.1 p.2) <$> filter (λ p, ¬ isError p.2) (imap pair ds).
Proof. unfold createMarkersAndDecorations. by rewrite forEach_decorations. Qed.

Lemma elem_of_decorations ds dec :
  dec ∈ decorations (createMarkersAndDecorations ds) ↔
  ∃ idx d, ds !! idx = Some d ∧ ¬ isError d ∧ dec = newDecoration idx d.
Proof.
  rewrite createMarkersAndDecorations_decorations, list_elem_of_fmap. split.
  - intros [[i d] [-> H]]. apply list_elem_of_filter in H as [Hne H].
    apply list_elem_of_lookup in H as [k H]. rewrite list_lookup_imap in H.
    destruct (ds !! k) as [d'|] eqn:E; simplify_eq/=. eauto.
  - intros (i & d & H & Hne & ->). exists (i, d). split; [done|].
    apply list_elem_of_filter. split; [done|].
    apply list_elem_of_lookup. exists i. by rewrite list_lookup_imap, H.
Qed.

(** C5, as the code has it: a diagnostic whose severity is none of
    error, warning, information and hint is not dropped and is not
    turned into a marker.  It becomes a glyph decoration, at its
    position in the list, with the class ["diagnostic-warning"].  The
    markers are exactly those of the diagnostics of error severity, so
    each of them has the widget's error severity: the default case of
    [getSeverity] is never reached from [createMarkersAndDecorations]. *)
Theorem unrecognized_severity_is_decoration
    (ds : list Diagnostic) (idx : nat) (d : Diagnostic) :
  ds !! idx = Some d →
  ¬ recognized (severity d) →
  let out := createMarkersAndDecorations ds in
  newDecoration idx d ∈ decorations out ∧
  glyphMarginClassName (options (newDecoration idx d)) = "diagnostic-warning" ∧
  markers out = newMarker <$> filter isError ds ∧
  Forall (λ m, m_severity m = MarkerSeverity.Error) (markers out).
Proof.
  intros Hd Hnr out. unfold recognized in Hnr.
  assert (¬ isError d) as Hne by (unfold isError; tauto).
  split; [|split; [|split]].
  - apply elem_of_decorations. eauto.
  - simpl. unfold getSeverityClassName.
    destruct (Z.eqb_spec (severity d) DiagnosticSeverity.Warning); [tauto|].
    destruct (Z.eqb_spec (severity d) DiagnosticSeverity.Information); [tauto|].
    destruct (Z.eqb_spec (severity d) DiagnosticSeverity.Hint); [tauto|]. done.
  - apply createMarkersAndDecorations_markers.
  - subst out. rewrite createMarkersAndDecorations_markers.
    apply Forall_fmap, Forall_forall. intros x Hx.
    apply list_elem_of_filter in Hx as [Hx _]. unfold isError in Hx.
    simpl. unfold getSeverity. by rewrite Hx.
Qed.

Lemma unrecognized_severity_is_decoration_witness :
  let d := Example.diag 7 0 0 0 1 "u" in
  let ds := [Example.diag DiagnosticSeverity.Error 3 0 3 4 "e"; d] in
  ds !! 1%nat = Some d ∧
  ¬ recognized (severity d) ∧
  newDecoration 1 d ∈ decorations (createMarkersAndDecorations ds) ∧
  length (markers (createMarkersAndDecorations ds)) = 1%nat.
Proof.
  intros d ds.
  assert (¬ recognized (severity d)) as Hnr.
  { unfold recognized. simpl. intros [H|[H|[H|H]]]; discriminate H. }
  destruct (unrecognized_severity_is_decoration ds 1 d eq_refl Hnr) as (Hin & _ & Hm & _).
  split; [reflexivity|]. split; [exact Hnr|]. split; [exact Hin|].
  rewrite Hm. reflexivity.
Defined.

(** C5, as it is stated, fails: the diagnostic of severity 7 yields no
    marker at all; it is emitted as a glyph decoration. *)
Lemma unrecognized_severity_counterexample :
  let d := Example.diag 7 0 0 0 1 "u" in
  ¬ recognized (severity d) ∧
  ¬ (∃ m, m ∈ markers (createMarkersAndDecorations [d]) ∧
          m_severity m = MarkerSeverity.Error) ∧
  decorations (createMarkersAndDecorations [d]) = [newDecoration 0 d].
Proof.
  simpl. split; [|split].
  - unfold recognized. simpl. intros [H|[H|[H|H]]]; discriminate H.
  - intros [m [Hm _]]. vm_compute in Hm. by apply elem_of_nil in Hm.
  - reflexivity.
Qed.

(** C6: the single warning at [(2,0),(2,5)) with message "m" gives no
    marker and exactly one decoration, with the range of lines 3 to 3 and
    columns 1 to 6, the glyph class ["diagnostic-warning"] and the hover
    message "m". *)
Theorem warning_scenario :
  createMarkersAndDecorations
    [Example.diag DiagnosticSeverity.Warning 2 0 2 5 "m"] =
  {| decorations :=
       [{| id := "diagnostic-warning-0"; ownerId := 0;
           d_range := {| r_startLineNumber := 3; r_startColumn := 1;
                         r_endLineNumber := 3; r_endColumn := 6 |};
           options := {| glyphMarginClassName := "diagnostic-warning";
                         glyphMarginHoverMessage := "m" |} |}];
     markers := [] |}.
Proof. reflexivity. Qed.

(** C10: the index in the identifier of a decoration is the position of
    its diagnostic in the whole list that was given: the decorations are
    exactly the [newDecoration idx d] for the diagnostics [d] at position
    [idx] that are not of error severity, and the identifier of such a
    decoration ends in the decimal of [idx].  The list of an error and a
    hint gives one decoration, with the identifier ["diagnostic-hint-1"]. *)
Theorem decoration_index_is_position :
  (∀ (ds : list Diagnostic) (dec : Decoration),
     dec ∈ decorations (createMarkersAndDecorations ds) ↔
     ∃ idx d, ds !! idx = Some d ∧ severity d ≠ DiagnosticSeverity.Error ∧
              dec = newDecoration idx d ∧
              id dec = getSeverityClassName (severity d) +:+ "-" +:+ index_string idx) ∧
  id <$> decorations (createMarkersAndDecorations
           [Example.diag DiagnosticSeverity.Error 0 0 0 1 "e";
            Example.diag DiagnosticSeverity.Hint 1 0 1 1 "h"])
  = ["diagnostic-hint-1"].
Proof.
  split; [|reflexivity].
  intros ds dec. rewrite elem_of_decorations. unfold isError.
  split; intros (idx & d & H1 & H2 & H3).
  - exists idx, d. by subst.
  - destruct H3 as [-> _]. eauto.
Qed.

End DiagnosticsFacts.

(* ===================================================================== *)
(** ** Properties of the handle cache *)
(* ===================================================================== *)

Section HandleCache.

Lemma createModel_present uri file w :
  is_Some (models (this w) !! uri) → createModel uri file w = (None, w).
Proof. intros [m Hm]. unfold createModel. by rewrite Hm. Qed.

Lemma getModel_cached uri model w :
  models (this w) !! uri = Some (Some model) → getModel uri w = (Some model, w).
Proof. intros H. unfold getModel. by rewrite H. Qed.

Lemma getModel_settles uri w :
  settled uri (getModel uri w).1 (getModel uri w).2.
Proof.
  unfold getModel, createModel, getFile, settled.
  destruct (models (this w) !! uri) as [[m|]|] eqn:E; simpl; auto.
  destruct (files w !! uri) as [f|] eqn:F; simpl; auto.
  by rewrite lookup_insert_eq.
Qed.

Lemma getModel_files uri w : files (getModel uri w).2 = files w.
Proof.
  unfold getModel, createModel, getFile.
  destruct (models (this w) !! uri) as [[m|]|]; simpl; auto.
  by destruct (files w !! uri).
Qed.

(** A lookup changes the cache at most at the identifier looked up, and
    only where nothing was cached. *)
Lemma getModel_models uri w id :
  is_Some (models (this w) !! id) ∨ id ≠ uri →
  models (this (getModel uri w).2) !! id = models (this w) !! id.
Proof.
  intros H. unfold getModel, createModel, getFile.
  destruct (models (this w) !! uri) as [[m|]|] eqn:E; simpl; auto.
  destruct (files w !! uri) as [f|]; simpl; auto.
  rewrite lookup_insert_ne; [done|].
  intros ->. destruct H as [[x Hx]|H]; congruence.
Qed.

Lemma getModel_preserves_settled id r uri w :
  settled id r w → settled id r (getModel uri w).2.
Proof.
  unfold settled. destruct r as [m|].
  - intros H. rewrite getModel_models; [done|]. left. by rewrite H.
  - intros [H|[H1 H2]].
    + left. rewrite getModel_models; [done|]. left. by rewrite H.
    + destruct (decide (id = uri)) as [->|Hne].
      * pose proof (getModel_settles uri w) as Hs.
        unfold getModel, createModel, getFile in *. rewrite H1, H2 in *.
        simpl in *. auto.
      * right. rewrite getModel_models, getModel_files; auto.
Qed.

Lemma settled_lookup id r w : settled id r w → (getModel id w).1 = r.
Proof.
  unfold settled, getModel, createModel, getFile. destruct r as [m|].
  - by intros ->.
  - intros [->|[-> ->]]; done.
Qed.

Lemma lookups_settled id r uris w :
  settled id r w →
  settled id r (lookups uris w).2 ∧
  ∀ i ri, (lookups uris w).1 !! i = Some (id, ri) → ri = r.
Proof.
  revert w. induction uris as [|uri uris IH]; intros w Hs; simpl.
  - split; [done|]. intros i ri H. by rewrite lookup_nil in H.
  - destruct (getModel uri w) as [model w1] eqn:G.
    destruct (lookups uris w1) as [results w2] eqn:L. simpl.
    assert (settled id r w1) as Hs1.
    { replace w1 with (getModel uri w).2 by (by rewrite G).
      by apply getModel_preserves_settled. }
    destruct (IH w1 Hs1) as [IH1 IH2]. rewrite L in IH1, IH2. simpl in *.
    split; [done|]. intros [|i] ri H; simpl in H.
    + injection H as -> <-. apply settled_lookup in Hs. by rewrite G in Hs.
    + eauto.
Qed.

(** C2: in a run of handle lookups (nothing is removed in between), all
    lookups of one identifier return the same handle; and a creation
    request for an identifier that is in the cache returns nothing and
    changes nothing, so that no second buffer is created. *)
Theorem getModel_same_handle (id : string) (uris : list string) (w : World) :
  (∀ i j ri rj,
     (lookups uris w).1 !! i = Some (id, ri) →
     (lookups uris w).1 !! j = Some (id, rj) →
     ri = rj) ∧
  (∀ file w', is_Some (models (this w') !! id) →
     createModel id file w' = (None, w') ∧
     buffers (createModel id file w').2 = buffers w').
Proof.
  split.
  - revert w. induction uris as [|uri uris IH]; intros w i j ri rj Hi Hj.
    + simpl in Hi. by rewrite lookup_nil in Hi.
    + simpl in Hi, Hj. destruct (getModel uri w) as [model w1] eqn:G.
      destruct (lookups uris w1) as [results w2] eqn:L. simpl in Hi, Hj.
      pose proof (getModel_settles uri w) as Hs. rewrite G in Hs. simpl in Hs.
      pose proof (lookups_settled uri model uris w1 Hs) as [_ Hall].
      rewrite L in Hall. simpl in Hall.
      specialize (IH w1). rewrite L in IH. simpl in IH.
      destruct i as [|i], j as [|j]; simpl in Hi, Hj.
      * congruence.
      * injection Hi as -> <-. symmetry. eauto.
      * injection Hj as -> <-. eauto.
      * eauto.
  - intros file w' H. by rewrite createModel_present.
Qed.

Lemma getModel_same_handle_witness :
  let model := {| Widget.m_id := 1; Widget.m_uri := "a" |} in
  (lookups ["a"; "b"; "a"] Example.w0).1 !! 0%nat = Some ("a", Some model) ∧
  (lookups ["a"; "b"; "a"] Example.w0).1 !! 2%nat = Some ("a", Some model) ∧
  Some model = Some model.
Proof.
  intros model. split; [reflexivity|]. split; [reflexivity|].
  apply (proj1 (getModel_same_handle "a" ["a"; "b"; "a"] Example.w0) 0%nat 2%nat);
    reflexivity.
Defined.

End HandleCache.

(* ===================================================================== *)
(** ** Properties of the decoration cache *)
(* ===================================================================== *)

Section DecorationCache.

Context (svcs : Services).

Implicit Types (store : list (option Diagnostics.Decoration)) (old : list nat).
Implicit Types (new : list Diagnostics.Decoration).

Lemma length_removeDecorations old store :
  length (Widget.removeDecorations old store) = length store.
Proof.
  unfold Widget.removeDecorations.
  induction old as [|h old IH]; simpl; [done|]. by rewrite length_insert.
Qed.

Lemma lookup_removeDecorations old store h :
  Widget.removeDecorations old store !! h =
  if decide (h ∈ old) then (λ _, None) <$> store !! h else store !! h.
Proof.
  induction old as [|k old IH].
  - destruct (decide (h ∈ [])) as [H|H]; [by apply elem_of_nil in H|done].
  - change (Widget.removeDecorations (k :: old) store)
      with (<[k := None]> (Widget.removeDecorations old store)).
    pose proof (length_removeDecorations old store) as Hlen.
    destruct (decide (k = h)) as [->|Hne].
    + rewrite decide_True by left.
      destruct (decide (h < length store)%nat) as [Hlt|Hge].
      * rewrite list_lookup_insert_eq by lia.
        apply lookup_lt_is_Some in Hlt as [x ->]. done.
      * rewrite list_insert_ge by lia.
        rewrite IH. rewrite (lookup_ge_None_2 store h) by lia. by case_decide.
    + rewrite list_lookup_insert_ne by done. rewrite IH.
      destruct (decide (h ∈ old)) as [Hin|Hnin].
      * rewrite decide_True by (by right). done.
      * rewrite decide_False; [done|]. intros Hin.
        apply elem_of_cons in Hin as [->|Hin]; tauto.
Qed.

Lemma omap_fmap_Some {A} (l : list A) : omap (λ d : option A, d) (Some <$> l) = l.
Proof. induction l; simpl; [done|]. by f_equal. Qed.

Lemma omap_all_None {A} (l : list (option A)) :
  (∀ h, mjoin (l !! h) = None) → omap (λ d, d) l = [].
Proof.
  induction l as [|x l IH]; intros H; [done|].
  pose proof (H 0%nat) as H0. simpl in H0. subst x. simpl.
  apply IH. intros h. exact (H (S h)).
Qed.

(** Two stores that hold the same decoration under every handle show the
    same decorations. *)
Lemma omap_ext_lookup {A} (l1 l2 : list (option A)) :
  (∀ h, mjoin (l1 !! h) = mjoin (l2 !! h)) →
  omap (λ d, d) l1 = omap (λ d, d) l2.
Proof.
  revert l2. induction l1 as [|x l1 IH]; intros l2 H.
  - symmetry. apply omap_all_None. intros h. by rewrite <- H.
  - destruct l2 as [|y l2].
    + apply omap_all_None. intros h. by rewrite H.
    + pose proof (H 0%nat) as H0. simpl in H0. subst y.
      assert (omap (λ d, d) l1 = omap (λ d, d) l2) as Ht
        by (apply IH; intros h; exact (H (S h))).
      destruct x; simpl; [f_equal|]; exact Ht.
Qed.

Lemma valid_handle store h d :
  mjoin (store !! h) = Some d → store !! h = Some (Some d) ∧ (h < length store)%nat.
Proof.
  intros H. destruct (store !! h) as [[d'|]|] eqn:Hs; simplify_eq/=.
  split; [done|]. by eapply lookup_lt_Some.
Qed.

Lemma addDecorations_eq new store :
  Widget.addDecorations new store =
  (seq (length store) (length new), store ++ (Some <$> new)).
Proof.
  revert store. induction new as [|d new IH]; intros store; simpl.
  - by rewrite app_nil_r.
  - rewrite IH, length_app. simpl. rewrite <- app_assoc. simpl.
    by replace (length store + 1)%nat with (S (length store)) by lia.
Qed.

(** As many handles are returned as there are new decorations, and no
    handle that has been handed out is forgotten. *)
Lemma replaceDecorations_length old new store :
  length (Widget.replaceDecorations old new store).1 = length new ∧
  (length store ≤ length (Widget.replaceDecorations old new store).2)%nat.
Proof.
  revert new store. induction old as [|k old IH]; intros new store.
  - simpl. rewrite addDecorations_eq. simpl. rewrite length_seq, length_app. split; lia.
  - simpl. destruct (mjoin (store !! k)) as [d0|].
    + destruct new as [|d new].
      * specialize (IH [] (<[k:=None]> store)). by rewrite length_insert in IH.
      * specialize (IH new (<[k:=Some d]> store)). rewrite length_insert in IH.
        destruct (Widget.replaceDecorations old new (<[k:=Some d]> store)) as [hs st].
        simpl in *. lia.
    + apply IH.
Qed.

(** A handle that is not among the old ones keeps its decoration. *)
Lemma replaceDecorations_frame old new store h :
  h ∉ old → (h < length store)%nat →
  (Widget.replaceDecorations old new store).2 !! h = store !! h.
Proof.
  revert new store. induction old as [|k old IH]; intros new store Hh Hlt.
  - simpl. rewrite addDecorations_eq. simpl. by rewrite lookup_app_l.
  - apply not_elem_of_cons in Hh as [Hne Hh]. simpl.
    destruct (mjoin (store !! k)) as [d0|].
    + destruct new as [|d new].
      * rewrite IH by (by rewrite ?length_insert).
        by rewrite list_lookup_insert_ne.
      * specialize (IH new (<[k:=Some d]> store) Hh). rewrite length_insert in IH.
        destruct (Widget.replaceDecorations old new (<[k:=Some d]> store)) as [hs st].
        simpl in *. rewrite IH by done. by rewrite list_lookup_insert_ne.
    + by apply IH.
Qed.

(** A handle that is returned is an old one that stood for a decoration,
    or one that had not been handed out. *)
Lemma replaceDecorations_elem_of old new store h :
  h ∈ (Widget.replaceDecorations old new store).1 →
  (h < length (Widget.replaceDecorations old new store).2)%nat ∧
  ((h ∈ old ∧ (h < length store)%nat) ∨ (length store ≤ h)%nat).
Proof.
  revert new store. induction old as [|k old IH]; intros new store.
  - simpl. rewrite addDecorations_eq. simpl. rewrite elem_of_seq, length_app, length_fmap.
    intros ?. split; [lia|right; lia].
  - simpl. destruct (mjoin (store !! k)) as [d0|] eqn:Hk.
    + apply valid_handle in Hk as [_ Hk].
      destruct new as [|d new].
      * intros Hh. destruct (IH [] (<[k:=None]> store) Hh) as [H1 H2].
        rewrite length_insert in H2. split; [done|].
        destruct H2 as [[? ?]|?]; [left; split; [by right|done]|by right].
      * pose proof (replaceDecorations_length old new (<[k:=Some d]> store)) as [_ Hlen].
        specialize (IH new (<[k:=Some d]> store)). rewrite length_insert in IH, Hlen.
        destruct (Widget.replaceDecorations old new (<[k:=Some d]> store)) as [hs st].
        simpl in *. intros Hh. apply elem_of_cons in Hh as [->|Hh].
        -- split; [lia|]. left. split; [by left|done].
        -- destruct (IH Hh) as [H1 H2]. split; [done|].
           destruct H2 as [[? ?]|?]; [left; split; [by right|done]|by right].
    + intros Hh. destruct (IH new store Hh) as [H1 H2]. split; [done|].
      destruct H2 as [[? ?]|?]; [left; split; [by right|done]|by right].
Qed.

(** A handle that stands for a decoration afterwards is one that is
    returned, or one that the delta did not touch. *)
Lemma replaceDecorations_shown old new store h :
  is_Some (mjoin ((Widget.replaceDecorations old new store).2 !! h)) →
  h ∈ (Widget.replaceDecorations old new store).1 ∨ ((h ∉ old) ∧ (h < length store)%nat).
Proof.
  revert new store. induction old as [|k old IH]; intros new store.
  - simpl. rewrite addDecorations_eq. simpl. intros [d Hd].
    apply valid_handle in Hd as [_ Hlt]. rewrite length_app, length_fmap in Hlt.
    destruct (decide (h < length store)%nat).
    + right. split; [apply not_elem_of_nil|done].
    + left. apply elem_of_seq. lia.
  - simpl. destruct (mjoin (store !! k)) as [d0|] eqn:Hk.
    + apply valid_handle in Hk as [_ Hk].
      destruct new as [|d new].
      * intros Hs. destruct (IH [] (<[k:=None]> store) Hs) as [?|[Hn Hlt]]; [by left|].
        rewrite length_insert in Hlt. right. split; [|done].
        apply not_elem_of_cons. split; [|done]. intros ->.
        rewrite replaceDecorations_frame in Hs by (by rewrite ?length_insert).
        rewrite list_lookup_insert_eq in Hs by done. by destruct Hs.
      * specialize (IH new (<[k:=Some d]> store)). rewrite length_insert in IH.
        destruct (Widget.replaceDecorations old new (<[k:=Some d]> store)) as [hs st].
        simpl in *. intros Hs. destruct (IH Hs) as [?|[Hn Hlt]]; [left; by right|].
        destruct (decide (h = k)) as [->|Hne]; [left; by left|].
        right. split; [|done]. by apply not_elem_of_cons.
    + intros Hs. destruct (IH new store Hs) as [?|[Hn Hlt]]; [by left|].
      right. split; [|done]. apply not_elem_of_cons. split; [|done]. intros ->.
      rewrite replaceDecorations_frame in Hs by done. rewrite Hk in Hs. by destruct Hs.
Qed.

Lemma replaceDecorations_NoDup old new store :
  NoDup old → NoDup (Widget.replaceDecorations old new store).1.
Proof.
  revert new store. induction old as [|k old IH]; intros new store Hnd.
  - simpl. rewrite addDecorations_eq. simpl. apply NoDup_seq.
  - apply NoDup_cons in Hnd as [Hk Hnd]. simpl.
    destruct (mjoin (store !! k)) as [d0|] eqn:Hv.
    + apply valid_handle in Hv as [_ Hv].
      destruct new as [|d new]; [by apply IH|].
      pose proof (replaceDecorations_elem_of old new (<[k:=Some d]> store) k) as He.
      specialize (IH new (<[k:=Some d]> store) Hnd). rewrite length_insert in He.
      destruct (Widget.replaceDecorations old new (<[k:=Some d]> store)) as [hs st].
      simpl in *. apply NoDup_cons. split; [|done].
      intros Hin. destruct (He Hin) as [_ [[? ?]|?]]; [done|lia].
    + by apply IH.
Qed.

(** The handles that are returned stand for the new decorations, in
    order. *)
Lemma replaceDecorations_lookup old new store :
  NoDup old →
  (λ h, mjoin ((Widget.replaceDecorations old new store).2 !! h))
    <$> (Widget.replaceDecorations old new store).1 = Some <$> new.
Proof.
  revert new store. induction old as [|k old IH]; intros new store Hnd.
  - simpl. rewrite addDecorations_eq. simpl.
    apply list_eq. intros i. rewrite !list_lookup_fmap.
    destruct (decide (i < length new)%nat) as [Hlt|Hge].
    + rewrite lookup_seq_lt by done. simpl.
      rewrite lookup_app_r by lia.
      replace (length store + i - length store)%nat with i by lia.
      rewrite list_lookup_fmap. apply lookup_lt_is_Some in Hlt as [x ->]. done.
    + rewrite lookup_seq_ge by lia. by rewrite lookup_ge_None_2 by lia.
  - apply NoDup_cons in Hnd as [Hk Hnd]. simpl.
    destruct (mjoin (store !! k)) as [d0|] eqn:Hv.
    + apply valid_handle in Hv as [_ Hv].
      destruct new as [|d new].
      * pose proof (replaceDecorations_length old [] (<[k:=None]> store)) as [Hlen _].
        destruct (Widget.replaceDecorations old [] (<[k:=None]> store)) as [hs st].
        simpl in *. by destruct hs.
      * pose proof (replaceDecorations_frame old new (<[k:=Some d]> store) k Hk) as Hf.
        specialize (IH new (<[k:=Some d]> store) Hnd). rewrite length_insert in Hf.
        destruct (Widget.replaceDecorations old new (<[k:=Some d]> store)) as [hs st].
        simpl in *. f_equal; [|exact IH].
        rewrite Hf by done. by rewrite list_lookup_insert_eq.
    + by apply IH.
Qed.

(** A delta whose old handles stand for the new decorations already
    changes nothing. *)
Lemma replaceDecorations_same old new store :
  (λ h, mjoin (store !! h)) <$> old = Some <$> new →
  Widget.replaceDecorations old new store = (old, store).
Proof.
  revert new. induction old as [|k old IH]; intros new H.
  - destruct new; [done|discriminate].
  - destruct new as [|d new]; [discriminate|]. simpl in H. injection H as Hk H.
    simpl. rewrite Hk. apply valid_handle in Hk as [Hk _].
    rewrite (list_insert_id _ _ _ Hk). by rewrite (IH new H).
Qed.

(** The same, for the delta of the editor and the decorations it shows. *)
Lemma deltaDecorations_model v old new ed :
  Widget.ed_model (Widget.deltaDecorations v old new ed).2 = Widget.ed_model ed.
Proof.
  unfold Widget.deltaDecorations. destruct (Widget.ed_model ed) eqn:Hm; [|done].
  by destruct (Widget.replaceDecorations _ _ _).
Qed.

Lemma deltaDecorations_unbound v old new ed :
  Widget.ed_model ed = None → Widget.deltaDecorations v old new ed = ([], ed).
Proof. unfold Widget.deltaDecorations. by intros ->. Qed.

Lemma deltaDecorations_bound v old new ed model :
  Widget.ed_model ed = Some model →
  let r := Widget.replaceDecorations old (Widget.validated v <$> new) (Widget.ed_store ed) in
  (Widget.deltaDecorations v old new ed).1 = r.1 ∧
  Widget.ed_decorations (Widget.deltaDecorations v old new ed).2 = r.2 ∧
  Widget.ed_decorations ed = Widget.ed_store ed.
Proof.
  intros Hm. unfold Widget.deltaDecorations, Widget.ed_decorations. rewrite Hm. simpl.
  destruct (Widget.replaceDecorations _ _ _). simpl. by rewrite ?Hm.
Qed.

Lemma decorationAt_unbound ed h :
  Widget.ed_model ed = None → Widget.decorationAt ed h = None.
Proof.
  intros Hm. unfold Widget.decorationAt, Widget.ed_decorations, Widget.dropDecorations.
  rewrite Hm, list_lookup_fmap. by destruct (Widget.ed_store ed !! h).
Qed.

Lemma deltaDecorations_length v old new ed :
  length (Widget.deltaDecorations v old new ed).1
    = match Widget.ed_model ed with Some _ => length new | None => 0%nat end ∧
  (length (Widget.ed_decorations ed)
     ≤ length (Widget.ed_decorations (Widget.deltaDecorations v old new ed).2))%nat.
Proof.
  destruct (Widget.ed_model ed) as [model|] eqn:Hm.
  - destruct (deltaDecorations_bound v old new ed model Hm) as (-> & -> & ->).
    destruct (replaceDecorations_length old (Widget.validated v <$> new) (Widget.ed_store ed))
      as [H1 H2]. by rewrite length_fmap in H1.
  - by rewrite deltaDecorations_unbound.
Qed.

Lemma deltaDecorations_frame v old new ed h :
  h ∉ old → (h < length (Widget.ed_decorations ed))%nat →
  Widget.ed_decorations (Widget.deltaDecorations v old new ed).2 !! h
  = Widget.ed_decorations ed !! h.
Proof.
  intros Hh Hlt. destruct (Widget.ed_model ed) as [model|] eqn:Hm.
  - destruct (deltaDecorations_bound v old new ed model Hm) as (_ & -> & He).
    rewrite He in Hlt |- *. by apply replaceDecorations_frame.
  - by rewrite deltaDecorations_unbound.
Qed.

Lemma deltaDecorations_elem_of v old new ed h :
  h ∈ (Widget.deltaDecorations v old new ed).1 →
  (h < length (Widget.ed_decorations (Widget.deltaDecorations v old new ed).2))%nat ∧
  ((h ∈ old ∧ (h < length (Widget.ed_decorations ed))%nat) ∨
   (length (Widget.ed_decorations ed) ≤ h)%nat).
Proof.
  destruct (Widget.ed_model ed) as [model|] eqn:Hm.
  - destruct (deltaDecorations_bound v old new ed model Hm) as (-> & -> & ->).
    apply replaceDecorations_elem_of.
  - rewrite deltaDecorations_unbound by done. simpl. intros H. by apply elem_of_nil in H.
Qed.

Lemma deltaDecorations_NoDup v old new ed :
  NoDup old → NoDup (Widget.deltaDecorations v old new ed).1.
Proof.
  intros Hnd. destruct (Widget.ed_model ed) as [model|] eqn:Hm.
  - destruct (deltaDecorations_bound v old new ed model Hm) as (-> & _ & _).
    by apply replaceDecorations_NoDup.
  - rewrite deltaDecorations_unbound by done. apply NoDup_nil_2.
Qed.

Lemma deltaDecorations_lookup v old new ed :
  NoDup old → is_Some (Widget.ed_model ed) →
  Widget.decorationAt (Widget.deltaDecorations v old new ed).2
    <$> (Widget.deltaDecorations v old new ed).1
  = Some <$> (Widget.validated v <$> new).
Proof.
  intros Hnd [model Hm]. unfold Widget.decorationAt.
  destruct (deltaDecorations_bound v old new ed model Hm) as (-> & -> & _).
  by apply replaceDecorations_lookup.
Qed.

(** A handle that is neither old nor returned keeps its decoration. *)
Lemma deltaDecorations_other v old new ed h :
  h ∉ old → h ∉ (Widget.deltaDecorations v old new ed).1 →
  Widget.decorationAt (Widget.deltaDecorations v old new ed).2 h = Widget.decorationAt ed h.
Proof.
  intros Hh Hr. destruct (Widget.ed_model ed) as [model|] eqn:Hm.
  - unfold Widget.decorationAt.
    destruct (deltaDecorations_bound v old new ed model Hm) as (H1 & -> & ->).
    rewrite H1 in Hr.
    destruct (decide (h < length (Widget.ed_store ed))%nat) as [Hlt|Hge].
    + by rewrite replaceDecorations_frame.
    + rewrite (lookup_ge_None_2 (Widget.ed_store ed) h) by lia. simpl.
      destruct (mjoin (_ !! h)) as [d|] eqn:Hd; [|done].
      destruct (replaceDecorations_shown old (Widget.validated v <$> new)
                  (Widget.ed_store ed) h) as [?|[_ ?]]; [by rewrite Hd| done | lia].
  - by rewrite deltaDecorations_unbound.
Qed.

(** An old handle that is not returned stands for nothing afterwards. *)
Lemma deltaDecorations_gone v old new ed h :
  h ∈ old → h ∉ (Widget.deltaDecorations v old new ed).1 →
  Widget.decorationAt (Widget.deltaDecorations v old new ed).2 h = None.
Proof.
  intros Hh Hr. destruct (Widget.ed_model ed) as [model|] eqn:Hm.
  - unfold Widget.decorationAt.
    destruct (deltaDecorations_bound v old new ed model Hm) as (H1 & -> & _).
    rewrite H1 in Hr.
    destruct (mjoin (_ !! h)) as [d|] eqn:Hd; [|done].
    destruct (replaceDecorations_shown old (Widget.validated v <$> new)
                (Widget.ed_store ed) h) as [?|[? _]]; [by rewrite Hd|done..].
  - rewrite deltaDecorations_unbound by done. by apply decorationAt_unbound.
Qed.

Lemma deltaDecorations_same v old new ed :
  Widget.decorationAt ed <$> old = Some <$> (Widget.validated v <$> new) →
  Widget.deltaDecorations v old new ed = (old, ed).
Proof.
  intros H. destruct (Widget.ed_model ed) as [model|] eqn:Hm.
  - unfold Widget.deltaDecorations. rewrite Hm.
    unfold Widget.decorationAt, Widget.ed_decorations in H. rewrite Hm in H.
    rewrite (replaceDecorations_same _ _ _ H). rewrite <- Hm. by destruct ed.
  - rewrite deltaDecorations_unbound by done.
    destruct old as [|k old]; [done|]. simpl in H.
    rewrite decorationAt_unbound in H by done. by destruct new.
Qed.

(** With no new decoration, the delta is the removal of the old ones. *)
Lemma deltaDecorations_nil v old ed :
  (Widget.deltaDecorations v old [] ed).1 = [] ∧
  ∀ h, Widget.decorationAt (Widget.deltaDecorations v old [] ed).2 h =
       if decide (h ∈ old) then None else Widget.decorationAt ed h.
Proof.
  assert ((Widget.deltaDecorations v old [] ed).1 = []) as Hnil.
  { destruct (deltaDecorations_length v old [] ed) as [H _].
    destruct ((Widget.deltaDecorations v old [] ed).1); [done|].
    by destruct (Widget.ed_model ed). }
  split; [done|]. intros h. destruct (decide (h ∈ old)).
  - apply deltaDecorations_gone; [done|]. rewrite Hnil. apply not_elem_of_nil.
  - apply deltaDecorations_other; [done|]. rewrite Hnil. apply not_elem_of_nil.
Qed.

Lemma getModel_editor uri w : editor (getModel uri w).2 = editor w.
Proof.
  unfold getModel, createModel, getFile, editor.
  destruct (models (this w) !! uri) as [[m|]|]; simpl; auto.
  by destruct (files w !! uri).
Qed.

Lemma getModel_decorations uri w :
  decorations (this (getModel uri w).2) = decorations (this w).
Proof.
  unfold getModel, createModel, getFile.
  destruct (models (this w) !! uri) as [[m|]|]; simpl; auto.
  by destruct (files w !! uri).
Qed.

Lemma getModel_modelMarkers uri w : modelMarkers (getModel uri w).2 = modelMarkers w.
Proof.
  unfold getModel, createModel, getFile.
  destruct (models (this w) !! uri) as [[m|]|]; simpl; auto.
  by destruct (files w !! uri).
Qed.

Lemma getModel_None uri w : (getModel uri w).1 = None → (getModel uri w).2 = w.
Proof.
  unfold getModel, createModel, getFile.
  destruct (models (this w) !! uri) as [[m|]|]; simpl; try done;
    by destruct (files w !! uri).
Qed.

Lemma validation_ext ed ed' w w' :
  Widget.ed_model ed' = Widget.ed_model ed → buffers w' = buffers w →
  validation svcs ed' w' = validation svcs ed w.
Proof. unfold validation, Widget.getModel, getValue. by intros -> ->. Qed.

(** What [applyMarkersAndDecorations] does when the handle is found and
    the editor exists. *)
Lemma applyMarkersAndDecorations_found document w model ed :
  (getModel (doc_uri document) w).1 = Some model →
  editor w = Some ed →
  let w1 := (getModel (doc_uri document) w).2 in
  let out := Diagnostics.createMarkersAndDecorations (filtered document) in
  let r := Widget.deltaDecorations (validation svcs ed w1)
             (default [] (decorations (this w) !! doc_uri document))
             (Diagnostics.decorations out) ed in
  applyMarkersAndDecorations svcs document w =
    set_this (λ s, set_decorations (λ ds, <[doc_uri document := r.1]> ds)
                     (set_instance (Some r.2) s))
      (set_modelMarkers
         (λ mm, <[(Widget.m_id model, doc_uri document) := Diagnostics.markers out]> mm) w1).
Proof.
  intros Hm He. cbv zeta.
  pose proof (getModel_editor (doc_uri document) w) as He1.
  pose proof (getModel_decorations (doc_uri document) w) as Hd1.
  unfold applyMarkersAndDecorations.
  destruct (getModel (doc_uri document) w) as [r0 w1]. simpl in *. subst r0.
  rewrite He1, He. cbn [set_modelMarkers this]. rewrite Hd1.
  rewrite (validation_ext ed ed _ w1) by done.
  by destruct (Widget.deltaDecorations _ _ _ _).
Qed.

Lemma removeMarkersAndDecorations_found document w model ed :
  (getModel (doc_uri document) w).1 = Some model →
  editor w = Some ed →
  let w1 := (getModel (doc_uri document) w).2 in
  let r := Widget.deltaDecorations (validation svcs ed w1)
             (default [] (decorations (this w) !! doc_uri document)) [] ed in
  removeMarkersAndDecorations svcs document w =
    set_this (λ s, set_decorations (λ ds, <[doc_uri document := r.1]> ds)
                     (set_instance (Some r.2) s))
      (set_modelMarkers (λ mm, <[(Widget.m_id model, doc_uri document) := []]> mm) w1).
Proof.
  intros Hm He. cbv zeta.
  pose proof (getModel_editor (doc_uri document) w) as He1.
  pose proof (getModel_decorations (doc_uri document) w) as Hd1.
  unfold removeMarkersAndDecorations.
  destruct (getModel (doc_uri document) w) as [r0 w1]. simpl in *. subst r0.
  rewrite He1, He. cbn [set_modelMarkers this]. rewrite Hd1.
  rewrite (validation_ext ed ed _ w1) by done.
  by destruct (Widget.deltaDecorations _ _ _ _).
Qed.

Lemma applyMarkersAndDecorations_unfound document w :
  (getModel (doc_uri document) w).1 = None ∨ editor w = None →
  applyMarkersAndDecorations svcs document w = (getModel (doc_uri document) w).2 ∧
  removeMarkersAndDecorations svcs document w = (getModel (doc_uri document) w).2.
Proof.
  intros H. pose proof (getModel_editor (doc_uri document) w) as He1.
  unfold applyMarkersAndDecorations, removeMarkersAndDecorations.
  destruct (getModel (doc_uri document) w) as [r0 w1]. simpl in *.
  destruct H as [->|He]; [done|]. rewrite He1, He. by destruct r0.
Qed.

Lemma sameModel_eq a b : Widget.sameModel a b = true → a = b.
Proof.
  unfold Widget.sameModel. intros H. apply andb_prop in H as [H1 H2].
  apply Nat.eqb_eq in H1. apply String.eqb_eq in H2.
  destruct a, b; simpl in *; by subst.
Qed.

(** C3, as the code has it: when the handle of [id] can be obtained and
    the editor shows the buffer of [id], applying the diagnostics [d1]
    and then [d2] for [id] leaves exactly what is derived from [d2].  The
    markers of [id] are those of [d2] (set, not added).  Each call takes
    the delta of the editor against the handles stored for [id] before it
    and stores the handles the delta returns under [id].  After the
    second call these handles are distinct and stand for the decorations
    of [d2], in order, with their ranges validated against the text of
    the buffer; every other handle that was stored for [id], before or in
    between, stands for nothing; and every handle beside them stands for
    what it stood for before the first call. *)
Theorem applyMarkersAndDecorations_replaces
    (id : string) (d1 d2 : list Diagnostics.Diagnostic) (w : World)
    (model : Widget.ModelRef) (ed : Widget.Editor) :
  (getModel id w).1 = Some model →
  editor w = Some ed →
  Widget.getModel ed = Some model →
  NoDup (default [] (decorations (this w) !! id)) →
  let w1 := applyMarkersAndDecorations svcs {| doc_uri := id; filtered := d1 |} w in
  let w2 := applyMarkersAndDecorations svcs {| doc_uri := id; filtered := d2 |} w1 in
  let out1 := Diagnostics.createMarkersAndDecorations d1 in
  let out2 := Diagnostics.createMarkersAndDecorations d2 in
  let validate := validateRange svcs (getValue model (getModel id w).2) in
  let old := default [] (decorations (this w) !! id) in
  let r1 := Widget.deltaDecorations validate old (Diagnostics.decorations out1) ed in
  let r2 := Widget.deltaDecorations validate r1.1 (Diagnostics.decorations out2) r1.2 in
  modelMarkers w1 !! (Widget.m_id model, id) = Some (Diagnostics.markers out1) ∧
  modelMarkers w2 !! (Widget.m_id model, id) = Some (Diagnostics.markers out2) ∧
  (decorations (this w1) !! id = Some r1.1 ∧ editor w1 = Some r1.2) ∧
  (decorations (this w2) !! id = Some r2.1 ∧ editor w2 = Some r2.2) ∧
  getCurrentModel w2 = Some model ∧
  NoDup r2.1 ∧
  Widget.decorationAt r2.2 <$> r2.1 =
    Some <$> (Widget.validated validate <$> Diagnostics.decorations out2) ∧
  ∀ h, h ∉ r2.1 →
       Widget.decorationAt r2.2 h =
         if decide (h ∈ old ++ r1.1) then None else Widget.decorationAt ed h.
Proof.
  intros Hm He Hshown Hnd w1 w2 out1 out2 validate old r1 r2.
  pose proof (applyMarkersAndDecorations_found
                {| doc_uri := id; filtered := d1 |} w model ed Hm He) as Hw1.
  cbv zeta in Hw1. cbn [doc_uri filtered] in Hw1. fold w1 out1 old in Hw1.
  assert (validation svcs ed (getModel id w).2 = validate) as Hv.
  { unfold validation. by rewrite Hshown. }
  rewrite Hv in Hw1. fold r1 in Hw1.
  pose proof (getModel_settles id w) as Hs. rewrite Hm in Hs. simpl in Hs.
  assert (models (this w1) !! id = Some (Some model)) as Hm1 by (by rewrite Hw1).
  assert (editor w1 = Some r1.2) as He1 by (by rewrite Hw1).
  assert (decorations (this w1) !! id = Some r1.1) as Hd1
    by (rewrite Hw1; simpl; by rewrite lookup_insert_eq).
  assert (buffers w1 = buffers (getModel id w).2) as Hb1 by (by rewrite Hw1).
  pose proof (getModel_cached id model w1 Hm1) as Hc1.
  assert ((getModel id w1).1 = Some model) as Hm1' by (by rewrite Hc1).
  pose proof (applyMarkersAndDecorations_found
                {| doc_uri := id; filtered := d2 |} w1 model r1.2 Hm1' He1) as Hw2.
  cbv zeta in Hw2. cbn [doc_uri filtered] in Hw2. fold w2 out2 in Hw2.
  rewrite Hc1 in Hw2. cbn [snd] in Hw2. rewrite Hd1 in Hw2. cbn [default] in Hw2.
  assert (validation svcs r1.2 w1 = validate) as Hv2.
  { rewrite <- Hv. apply validation_ext; [apply deltaDecorations_model|done]. }
  rewrite Hv2 in Hw2. fold r2 in Hw2.
  assert (Widget.ed_model r1.2 = Some model) as Hshown1
    by (unfold r1; by rewrite deltaDecorations_model).
  assert (NoDup r1.1) as Hnd1 by (by apply deltaDecorations_NoDup).
  split; [rewrite Hw1; simpl; by rewrite lookup_insert_eq|].
  split; [rewrite Hw2; simpl; by rewrite lookup_insert_eq|].
  split; [done|].
  split; [split; rewrite Hw2; simpl; [by rewrite lookup_insert_eq|done]|].
  split.
  { rewrite Hw2. unfold getCurrentModel, editor. simpl. unfold Widget.getModel, r2.
    by rewrite deltaDecorations_model. }
  split; [by apply deltaDecorations_NoDup|].
  split; [apply deltaDecorations_lookup; [done|by rewrite Hshown1]|].
  intros h Hh2. destruct (decide (h ∈ r1.1)) as [Hh1|Hh1].
  - rewrite decide_True by (apply elem_of_app; by right).
    by apply deltaDecorations_gone.
  - unfold r2. rewrite deltaDecorations_other by done.
    destruct (decide (h ∈ old)) as [Ho|Ho].
    + rewrite decide_True by (apply elem_of_app; by left).
      by apply deltaDecorations_gone.
    + rewrite decide_False by (rewrite elem_of_app; tauto).
      by apply deltaDecorations_other.
Qed.

(** C4, as the code has it.  The handler of the resource-removed event
    disposes the buffer of the resource and evicts its handle; an editor
    that showed the buffer shows nothing from then on; the markers and
    the stored decoration handles of the resource stay as they are.  They
    are cleared by the handler of the document-removed event.  Delivered
    after the removal, that handler changes nothing when no handle can be
    obtained for the resource any more; when a handle can be obtained and
    the editor exists, the markers set for that handle become empty, the
    list stored for the resource becomes empty, and none of the handles
    that were stored stands for a decoration. *)
Theorem file_removal_evicts_handle_only
    (file : File) (ds : list Diagnostics.Diagnostic) (w : World) :
  let id := f_uri file in
  let w' := state_of (handle svcs (fs_file_remove file) w) in
  let w'' := state_of (handle svcs (documents_document_remove
                                      {| doc_uri := id; filtered := ds |}) w') in
  (decorations (this w') = decorations (this w) ∧
   modelMarkers w' = modelMarkers w) ∧
  (∀ model, models (this w) !! id = Some (Some model) →
     models (this w') = delete id (models (this w)) ∧
     buffers w' = alter Widget.dispose (Widget.m_id model) (buffers w) ∧
     editor w' = Widget.modelDisposed model <$> editor w ∧
     shownOn model w' = []) ∧
  ((getModel id w').1 = None → w'' = w') ∧
  (∀ model' ed',
     (getModel id w').1 = Some model' →
     editor w' = Some ed' →
     modelMarkers w'' !! (Widget.m_id model', id) = Some [] ∧
     decorations (this w'') !! id = Some [] ∧
     ∃ ed'', editor w'' = Some ed'' ∧
             Forall (λ h, Widget.decorationAt ed'' h = None)
               (default [] (decorations (this w) !! id))).
Proof.
  intros id w' w''.
  assert (decorations (this w') = decorations (this w)) as Hd.
  { unfold w'. simpl. unfold removeModel.
    by destruct (models (this w) !! f_uri file) as [[m|]|]. }
  split; [split; [exact Hd|]|split; [|split]].
  - unfold w'. simpl. unfold removeModel.
    by destruct (models (this w) !! f_uri file) as [[m|]|].
  - intros model Hm. unfold w', shownOn. simpl. unfold removeModel, editor.
    fold id. rewrite Hm. simpl. repeat split.
    destruct (instance (this w)) as [ed|]; simpl; [|done].
    unfold Widget.modelDisposed. destruct (Widget.shows ed model) eqn:Hs; [done|].
    by rewrite Hs.
  - intros Hn. unfold w''. simpl.
    destruct (applyMarkersAndDecorations_unfound {| doc_uri := id; filtered := ds |} w')
      as [_ ->]; [by left|].
    by apply getModel_None.
  - intros model' ed' Hm He. unfold w''. simpl.
    rewrite (removeMarkersAndDecorations_found
               {| doc_uri := id; filtered := ds |} w' model' ed' Hm He).
    cbn [doc_uri]. rewrite Hd.
    destruct (deltaDecorations_nil (validation svcs ed' (getModel id w').2)
                (default [] (decorations (this w) !! id)) ed') as [Hnil Hat].
    simpl. rewrite !lookup_insert_eq, Hnil. split; [done|]. split; [done|].
    eexists. split; [unfold editor; simpl; done|].
    apply Forall_forall. intros h Hh. rewrite Hat. by rewrite decide_True.
Qed.

End DecorationCache.

Lemma applyMarkersAndDecorations_replaces_witness :
  let w := world Example.sys0 in
  let a := {| Widget.m_id := 1; Widget.m_uri := "a" |} in
  let d1 := [Example.diag 1 0 0 0 1 "m"] in
  let d2 := [Example.diag 0 4 0 4 1 "e"; Example.diag 3 0 0 0 1 "h"] in
  let w1 := applyMarkersAndDecorations Example.svcs {| doc_uri := "a"; filtered := d1 |} w in
  let w2 := applyMarkersAndDecorations Example.svcs {| doc_uri := "a"; filtered := d2 |} w1 in
  (getModel "a" w).1 = Some a ∧
  getCurrentModel w = Some a ∧
  decorations (this w) !! "a" = None ∧
  decorations (this w1) !! "a" = Some [0%nat] ∧
  decorations (this w2) !! "a" = Some [0%nat] ∧
  shownOn a w2 = [Diagnostics.newDecoration 1 (Example.diag 3 0 0 0 1 "h")].
Proof.
  intros w a d1 d2 w1 w2.
  pose (ed := default (Widget.create a) (editor w)).
  assert (editor w = Some ed) as He by reflexivity.
  assert (Widget.getModel ed = Some a) as Hs by reflexivity.
  assert ((getModel "a" w).1 = Some a) as Hm by reflexivity.
  assert (NoDup (default [] (decorations (this w) !! "a"))) as Hnd by apply NoDup_nil_2.
  destruct (applyMarkersAndDecorations_replaces Example.svcs "a" d1 d2 w a ed Hm He Hs Hnd)
    as (_ & _ & [Hd1 _] & [Hd2 _] & _).
  split; [exact Hm|]. split; [reflexivity|]. split; [reflexivity|].
  split; [etrans; [exact Hd1|reflexivity]|].
  split; [etrans; [exact Hd2|reflexivity]|]. reflexivity.
Defined.

(** C3, as it is stated, fails.  While the editor shows the buffer of
    ["a"], diagnostics are applied for ["b"], first [d1] and then [d2]:
    the decoration derived from [d2] is put on the buffer of ["a"] and
    none on the buffer of ["b"], also not when the editor shows ["b"]
    afterwards.  And before the editor is created nothing is applied at
    all. *)
Lemma applyMarkersAndDecorations_counterexample :
  let a := {| Widget.m_id := 1; Widget.m_uri := "a" |} in
  let b := {| Widget.m_id := 2; Widget.m_uri := "b" |} in
  let d1 := [Example.diag 1 0 0 0 1 "m"] in
  let d2 := [Example.diag 0 0 0 0 1 "e"; Example.diag 3 0 0 0 1 "h"] in
  let twice w :=
    applyMarkersAndDecorations Example.svcs {| doc_uri := "b"; filtered := d2 |}
      (applyMarkersAndDecorations Example.svcs {| doc_uri := "b"; filtered := d1 |} w) in
  let w2 := twice (world Example.sys0) in
  let w3 := state_of (onChangeTab Example.svcs {| tab_type := "editor"; tab_uri := "b" |} w2) in
  (getCurrentModel (world Example.sys0) = Some a ∧
   (getModel "b" w2).1 = Some b ∧
   decorations (this w2) !! "b" = Some [0%nat] ∧
   shownOn b w2 = [] ∧
   shownOn a w2 = [Diagnostics.newDecoration 1 (Example.diag 3 0 0 0 1 "h")] ∧
   getCurrentModel w3 = Some b ∧
   shownOn b w3 = []) ∧
  (editor Example.bare = None ∧
   modelMarkers (twice Example.bare) = ∅ ∧
   decorations (this (twice Example.bare)) = ∅).
Proof. repeat split; reflexivity. Qed.

Lemma file_removal_evicts_handle_only_witness :
  let a := {| Widget.m_id := 1; Widget.m_uri := "a" |} in
  let w := applyMarkersAndDecorations Example.svcs
             {| doc_uri := "a"; filtered := [Example.diag 1 0 0 0 1 "m"] |}
             (world Example.sys0) in
  let gone := state_of (handle Example.svcs (fs_file_remove (Example.file_of "a" "A")) w) in
  let cleared := state_of (handle Example.svcs
                   (documents_document_remove {| doc_uri := "a"; filtered := [] |}) gone) in
  models (this w) !! "a" = Some (Some a) ∧
  models (this gone) !! "a" = None ∧
  getCurrentModel gone = None ∧
  (getModel "a" gone).1 = Some {| Widget.m_id := 2; Widget.m_uri := "a" |} ∧
  decorations (this cleared) !! "a" = Some [].
Proof.
  intros a w gone cleared.
  assert (models (this w) !! "a" = Some (Some a)) as Hm by reflexivity.
  destruct (file_removal_evicts_handle_only Example.svcs (Example.file_of "a" "A") [] w)
    as (_ & Hr & _ & Hc).
  destruct (Hr _ Hm) as (Hr1 & _ & Hr3 & _).
  assert ((getModel "a" gone).1 = Some {| Widget.m_id := 2; Widget.m_uri := "a" |}) as Hm'
    by reflexivity.
  pose (ed' := default (Widget.create a) (editor gone)).
  assert (editor gone = Some ed') as He' by reflexivity.
  destruct (Hc _ ed' Hm' He') as (_ & Hc2 & _).
  split; [exact Hm|]. split; [|split; [|split; [exact Hm'|exact Hc2]]].
  - fold gone in Hr1. rewrite Hr1. apply lookup_delete_eq.
  - reflexivity.
Defined.

(** C4, as it is stated, fails: after the resource-removed event for
    ["a"] the handle of ["a"] is evicted and its buffer disposed, but the
    handle of the decoration applied for ["a"] is still stored, and the
    marker is still set. *)
Lemma file_removal_counterexample :
  let warning := Example.diag 1 0 0 0 1 "m" in
  let error := Example.diag 0 0 0 0 1 "e" in
  let w := applyMarkersAndDecorations Example.svcs
             {| doc_uri := "a"; filtered := [warning; error] |} (world Example.sys0) in
  let gone := state_of (handle Example.svcs (fs_file_remove (Example.file_of "a" "A")) w) in
  models (this gone) !! "a" = None ∧
  Widget.b_disposed <$> buffers gone !! 1%nat = Some true ∧
  decorations (this gone) !! "a" = Some [0%nat] ∧
  modelMarkers gone !! (1%nat, "a") = Some [Diagnostics.newMarker error].
Proof. repeat split; reflexivity. Qed.

(* ===================================================================== *)
(** ** Properties of the tab switch *)
(* ===================================================================== *)

Section TabSwitch.

Context (svcs : Services).

Lemma getModel_set_viewStates f uri w :
  getModel uri (set_this (set_viewStates f) w) =
  ((getModel uri w).1, set_this (set_viewStates f) (getModel uri w).2).
Proof.
  unfold getModel, createModel, getFile. simpl.
  destruct (models (this w) !! uri) as [[m|]|]; simpl; auto.
  by destruct (files w !! uri).
Qed.

Lemma getModel_viewStates uri w :
  viewStates (this (getModel uri w).2) = viewStates (this w).
Proof.
  unfold getModel, createModel, getFile.
  destruct (models (this w) !! uri) as [[m|]|]; simpl; auto.
  by destruct (files w !! uri).
Qed.

Lemma setModel_model model ed : Widget.ed_model (Widget.setModel model ed) = Some model.
Proof.
  unfold Widget.setModel. destruct (Widget.shows ed model) eqn:Hs; [|done].
  unfold Widget.shows in Hs. destruct (Widget.ed_model ed) as [shown|]; [|done].
  apply sameModel_eq in Hs. by subst.
Qed.

Lemma restoreViewState_model v ed :
  Widget.ed_model (Widget.restoreViewState v ed) = Widget.ed_model ed.
Proof. unfold Widget.restoreViewState. by destruct (Widget.ed_model ed) eqn:Hm. Qed.

Lemma restoreViewState_view v ed model :
  Widget.ed_model ed = Some model →
  Widget.ed_viewState (Widget.restoreViewState v ed) = v.
Proof. unfold Widget.restoreViewState. by intros ->. Qed.

(** The switch starts by saving; the rest works on the state so reached. *)
Lemma onChangeTab_saves_first newTab w :
  onChangeTab svcs newTab w =
  let w1 := set_this (set_viewStates (saved svcs w)) w in
  match (getModel (tab_uri newTab) w).1 with
  | Some model =>
      match editor w with
      | None => Throw (getModel (tab_uri newTab) w1).2
      | Some ed =>
          let ed1 := Widget.focus (Widget.setModel model ed) in
          let ed2 :=
            match saved svcs w (viewStates (this w)) !! uriString svcs model with
            | Some (Some restoredViewState) => Widget.restoreViewState restoredViewState ed1
            | _ => ed1
            end in
          Normal (set_this (set_instance (Some ed2)) (getModel (tab_uri newTab) w1).2)
      end
  | None => Normal w1
  end.
Proof.
  assert (set_this (set_viewStates (λ vs, vs)) w = w) as Hid by (by destruct w as [[]]).
  unfold onChangeTab.
  assert ((match getCurrentModel w, editor w with
           | Some oldModel, Some ed =>
               set_this (set_viewStates
                 (λ vs, <[uriString svcs oldModel := Widget.saveViewState ed]> vs)) w
           | _, _ => w
           end) = set_this (set_viewStates (saved svcs w)) w) as ->.
  { unfold saved. destruct (getCurrentModel w), (editor w); by rewrite ?Hid. }
  simpl. rewrite getModel_set_viewStates.
  pose proof (getModel_editor (tab_uri newTab) w) as He.
  pose proof (getModel_viewStates (tab_uri newTab) w) as Hv.
  pose proof (getModel_None (tab_uri newTab) w) as Hn.
  destruct (getModel (tab_uri newTab) w) as [[model|] w2]; simpl in *.
  - unfold editor in *. simpl. rewrite He, Hv. done.
  - by rewrite Hn.
Qed.

(** C7: (1) a tab switch saves the view of the buffer that is bound
    under the URI of that buffer, and the view saved is the one the
    editor had before it was rebound; (2) switching from A to B and back
    to A, whatever the view was moved to in between, shows A with
    exactly the view that was saved when A was left; (3) when the handle
    of the new resource cannot be obtained, the switch returns with the
    editor, its binding and the handle cache as they were: the saved
    snapshot is all that changes. *)
Theorem onChangeTab_round_trip :
  (∀ newTab w ed oldModel,
     editor w = Some ed → Widget.ed_model ed = Some oldModel →
     viewStates (this (state_of (onChangeTab svcs newTab w))) !! uriString svcs oldModel
     = Some (Some (Widget.ed_viewState ed))) ∧
  (∀ A B w ed modelA modelB v,
     editor w = Some ed → Widget.ed_model ed = Some modelA →
     models (this w) !! A = Some (Some modelA) →
     (getModel B w).1 = Some modelB →
     uriString svcs modelB ≠ uriString svcs modelA →
     let w1 := state_of (onChangeTab svcs {| tab_type := "editor"; tab_uri := B |} w) in
     let w2 := state_of (onChangeTab svcs {| tab_type := "editor"; tab_uri := A |}
                           (moveView v w1)) in
     (Widget.ed_model <$> editor w1) = Some (Some modelB) ∧
     (Widget.ed_model <$> editor w2) = Some (Some modelA) ∧
     (Widget.ed_viewState <$> editor w2) = Some (Widget.ed_viewState ed)) ∧
  (∀ newTab w,
     (getModel (tab_uri newTab) w).1 = None →
     onChangeTab svcs newTab w = Normal (set_this (set_viewStates (saved svcs w)) w) ∧
     editor (state_of (onChangeTab svcs newTab w)) = editor w ∧
     models (this (state_of (onChangeTab svcs newTab w))) = models (this w) ∧
     buffers (state_of (onChangeTab svcs newTab w)) = buffers w).
Proof.
  split; [|split].
  - intros newTab w ed oldModel He Hm.
    rewrite onChangeTab_saves_first. simpl.
    assert (saved svcs w (viewStates (this w)) !! uriString svcs oldModel
            = Some (Some (Widget.ed_viewState ed))) as Hs.
    { unfold saved, getCurrentModel, Widget.saveViewState, Widget.getModel.
      rewrite He. simpl. rewrite Hm. by rewrite lookup_insert_eq. }
    rewrite getModel_set_viewStates. simpl.
    destruct (getModel (tab_uri newTab) w) as [[model|] w2] eqn:G; simpl.
    + rewrite He. simpl.
      pose proof (getModel_viewStates (tab_uri newTab) w) as Hv.
      rewrite G in Hv. simpl in Hv. by rewrite Hv.
    + done.
  - intros A B w ed modelA modelB v He Hm HA HB Hne w1 w2.
    assert (saved svcs w (viewStates (this w))
            = <[uriString svcs modelA := Some (Widget.ed_viewState ed)]>
                (viewStates (this w))) as Hs.
    { unfold saved, getCurrentModel, Widget.saveViewState, Widget.getModel.
      rewrite He. simpl. by rewrite Hm. }
    (* the state after the first switch *)
    assert (∃ edB, editor w1 = Some edB ∧ Widget.ed_model edB = Some modelB ∧
                   viewStates (this w1) = saved svcs w (viewStates (this w)) ∧
                   models (this w1) !! A = Some (Some modelA)) as (edB & He1 & Hm1 & Hv1 & HA1).
    { subst w1. rewrite onChangeTab_saves_first. simpl. rewrite HB, He. simpl.
      rewrite getModel_set_viewStates. simpl.
      rewrite getModel_viewStates.
      rewrite (getModel_models B w A) by (left; by rewrite HA).
      eexists. split; [reflexivity|]. split; [|done].
      destruct (saved svcs w (viewStates (this w)) !! uriString svcs modelB) as [[?|]|];
        rewrite ?restoreViewState_model; apply setModel_model. }
    (* the view is moved, then the second switch *)
    assert (editor (moveView v w1) = Some (Widget.restoreViewState v edB)) as He1'.
    { unfold moveView, editor in *. simpl. by rewrite He1. }
    assert ((getModel A (moveView v w1)).1 = Some modelA) as HA1'.
    { by rewrite (getModel_cached A modelA (moveView v w1) HA1). }
    assert (saved svcs (moveView v w1) (viewStates (this (moveView v w1)))
              !! uriString svcs modelA = Some (Some (Widget.ed_viewState ed))) as Hs2.
    { unfold saved, getCurrentModel. rewrite He1'. cbn [mbind option_bind].
      unfold Widget.getModel. rewrite restoreViewState_model, Hm1.
      rewrite lookup_insert_ne by done.
      unfold moveView. simpl. rewrite Hv1, Hs. by rewrite lookup_insert_eq. }
    split; [by rewrite He1; simpl; rewrite Hm1|].
    subst w2. rewrite onChangeTab_saves_first. cbv zeta. cbn [tab_uri].
    rewrite HA1', He1', Hs2. unfold editor. simpl.
    rewrite restoreViewState_model. simpl. rewrite setModel_model. split; [done|].
    f_equal. eapply restoreViewState_view. simpl. apply setModel_model.
  - intros newTab w Hn.
    pose proof (onChangeTab_saves_first newTab w) as H. simpl in H. rewrite Hn in H.
    rewrite H. done.
Qed.

End TabSwitch.

Lemma onChangeTab_round_trip_witness :
  let v0 := {| Widget.cursorLine := 5; Widget.cursorColumn := 7; Widget.scrollTop := 120 |} in
  let v1 := {| Widget.cursorLine := 9; Widget.cursorColumn := 2; Widget.scrollTop := 40 |} in
  let w := moveView v0 (world Example.sys0) in
  let w1 := state_of (onChangeTab Example.svcs {| tab_type := "editor"; tab_uri := "b" |} w) in
  let w2 := state_of (onChangeTab Example.svcs {| tab_type := "editor"; tab_uri := "a" |}
                        (moveView v1 w1)) in
  (getModel "b" w).1 = Some {| Widget.m_id := 2; Widget.m_uri := "b" |} ∧
  (Widget.ed_viewState <$> editor w2) = Some v0 ∧
  (getModel "nowhere" w).1 = None ∧
  editor (state_of (onChangeTab Example.svcs {| tab_type := "editor"; tab_uri := "nowhere" |} w))
  = editor w.
Proof.
  intros v0 v1 w w1 w2.
  destruct (onChangeTab_round_trip Example.svcs) as (_ & Hround & Habsent).
  split; [reflexivity|]. split.
  - refine (proj2 (proj2 (Hround "a" "b" w
              (default (Widget.create {| Widget.m_id := 1; Widget.m_uri := "a" |}) (editor w))
              {| Widget.m_id := 1; Widget.m_uri := "a" |}
              {| Widget.m_id := 2; Widget.m_uri := "b" |} v1 _ _ _ _ _)));
      try reflexivity.
    intros E. vm_compute in E. discriminate E.
  - split; [reflexivity|].
    apply (Habsent {| tab_type := "editor"; tab_uri := "nowhere" |} w). reflexivity.
Defined.

(* ===================================================================== *)
(** ** Properties of [updateState] *)
(* ===================================================================== *)

Section UpdateState.

Context (svcs : Services).


End UpdateState.


(* ===================================================================== *)
(** ** Properties of the change synchronizer *)
(* ===================================================================== *)

Section Debounce.

Context (svcs : Services).

Lemma advance_nothing_scheduled t sys :
  timers sys = [] →
  advance svcs t sys = set_world (λ w, set_clock (Z.max (clock w) t) w) sys.
Proof. intros H. unfold advance. by rewrite H. Qed.

Lemma advance_not_due t sys d due :
  pending sys d due → t < due →
  advance svcs t sys = set_world (λ w, set_clock (Z.max (clock w) t) w) sys.
Proof.
  intros (id & Hs & Ht) Hlt. unfold advance. rewrite Ht. simpl. rewrite Ht. simpl.
  rewrite bool_decide_false by lia. done.
Qed.

Lemma flush_shows w model text :
  shows w model text →
  flush svcs w = set_parseCalls (λ l, l ++ [(clock w, uriString svcs model, text)]) w.
Proof.
  intros [Hm Hv]. unfold flush, getValue. rewrite Hm.
  destruct (buffers w !! Widget.m_id model); simplify_eq/=. done.
Qed.

(** The flush that is due fires once, at the time it is due. *)
Lemma advance_due t sys d due model text :
  pending sys d due → shows (world sys) model text →
  clock (world sys) ≤ due → due ≤ t →
  let sys' := advance svcs t sys in
  idle sys' d ∧ shows (world sys') model text ∧ clock (world sys') = t ∧
  parseCalls (world sys') =
    parseCalls (world sys) ++ [(due, uriString svcs model, text)].
Proof.
  intros (id & Hs & Ht) Hshow Hc Hdue. unfold advance. rewrite Ht. simpl.
  rewrite Ht. simpl. rewrite bool_decide_true by lia.
  unfold fire. simpl. rewrite Hs. simpl. rewrite bool_decide_true by done.
  rewrite (flush_shows _ model text) by exact Hshow.
  unfold idle. simpl. rewrite Ht. rewrite filter_cons. simpl.
  rewrite decide_False by (intros H; by apply H).
  rewrite (Z.max_r (clock (world sys)) due) by lia. rewrite Z.max_r by lia.
  split; [done|]. split; [exact Hshow|]. done.
Qed.

(** An edit cancels the flush that is scheduled, if any, and schedules
    one for a delay later. *)
Lemma contentChanged_schedules t text sys d model old :
  idle sys d ∨ (∃ due, pending sys d due ∧ t < due) →
  shows (world sys) model old →
  clock (world sys) ≤ t → 0 ≤ d →
  let sys' := contentChanged svcs t text sys in
  pending sys' d (t + d) ∧ shows (world sys') model text ∧
  clock (world sys') = t ∧ parseCalls (world sys') = parseCalls (world sys).
Proof.
  intros Hsched [Hm Hv] Hc Hd sys'.
  assert (advance svcs t sys = set_world (λ w, set_clock (Z.max (clock w) t) w) sys)
    as Hadv.
  { destruct Hsched as [[_ Ht]|(due & Hp & Hlt)].
    - by apply advance_nothing_scheduled.
    - by eapply advance_not_due. }
  assert (∃ d0, subscription sys = Some d0 ∧ wait d0 = d ∧
                match timeout d0 with
                | Some id => filter (λ t0 : nat * Z, t0.1 ≠ id) (timers sys) = []
                | None => timers sys = []
                end) as (d0 & Hsub & Hw & Hclear).
  { destruct Hsched as [[Hs Ht]|(due & (id & Hs & Ht) & Hlt)].
    - destruct (subscription sys) as [d0|]; simplify_eq/=.
      exists d0. split; [done|]. split; [done|]. rewrite Ht. by destruct (timeout d0).
    - eexists. split; [done|]. split; [done|]. simpl. rewrite Ht, filter_cons. simpl.
      by rewrite decide_False by (intros H; by apply H). }
  assert (sys' =
          {| world := set_buffers (alter (Widget.setValue text) (Widget.m_id model))
                        (set_clock t (world sys));
             currentSettings := currentSettings sys;
             timers := [(nextTimer sys, t + d)];
             nextTimer := S (nextTimer sys);
             subscription := Some {| wait := d; timeout := Some (nextTimer sys) |} |})
    as ->.
  { subst sys'. unfold contentChanged. rewrite Hadv. cbn [world set_world].
    change (getCurrentModel (set_clock _ (world sys))) with (getCurrentModel (world sys)).
    rewrite Hm. cbn [subscription set_world]. rewrite Hsub.
    unfold call_debounced, setTimeout, clearTimeout, set_subscription.
    destruct (timeout d0) as [id|]; cbn; rewrite Hclear, Hw;
      rewrite !Z.max_r by lia; done. }
  unfold pending, shows. cbn.
  split; [by eexists|]. split; [|done]. split; [exact Hm|].
  rewrite list_lookup_alter, decide_True by done.
  destruct (buffers (world sys) !! Widget.m_id model); simplify_eq/=; done.
Qed.

(** A burst of edits in which every edit comes before [lim], a time not
    after the flush that is scheduled: the flush ends up scheduled a
    delay after the last edit, and nothing has been analysed. *)
Lemma edits_keep_pending es : ∀ sys d model t0 text0 lim,
  pending sys d (t0 + d) → shows (world sys) model text0 →
  clock (world sys) = t0 → 0 ≤ d → lim ≤ t0 + d →
  ascending t0 es → Forall (λ e, e.1 < lim) es →
  let sys' := edits svcs es sys in
  let last_edit := default (t0, text0) (last es) in
  pending sys' d (last_edit.1 + d) ∧ shows (world sys') model last_edit.2 ∧
  clock (world sys') = last_edit.1 ∧ parseCalls (world sys') = parseCalls (world sys).
Proof.
  induction es as [|[t text] es IH]; intros sys d model t0 text0 lim Hp Hs Hc Hd Hlim Ha Hw.
  - simpl. done.
  - simpl in Ha. destruct Ha as [Hle Ha].
    apply Forall_cons in Hw as [Hlt Hw]. simpl in Hlt.
    destruct (contentChanged_schedules t text sys d model text0) as (Hp1 & Hs1 & Hc1 & Hk1);
      [right; exists (t0 + d); split; [done|lia] | done | lia | done |].
    specialize (IH (contentChanged svcs t text sys) d model t text lim
                  Hp1 Hs1 Hc1 Hd ltac:(lia) Ha Hw).
    unfold edits in *. simpl. rewrite last_cons.
    destruct (last es) as [e|]; simpl in *; rewrite <- Hk1; exact IH.
Qed.

(** C1: for a burst of edits of the buffer that is shown, all of them
    within one delay of the first, with the listener registered with the
    delay [d] and nothing scheduled before: no analysis call is made
    before a delay has passed since the last edit, and from then on
    exactly one call has been made, at the time of the last edit plus
    [d], with the URI of the buffer and the content the last edit left. *)
Theorem debounce_coalesces
    (sys : System) (d : Z) (model : Widget.ModelRef) (text0 : string)
    (first : Z * string) (rest : list (Z * string)) :
  idle sys d → 0 ≤ d →
  shows (world sys) model text0 →
  ascending (clock (world sys)) (first :: rest) →
  Forall (λ e, e.1 < first.1 + d) rest →
  let last_edit := default first (last rest) in
  let after := edits svcs (first :: rest) sys in
  (∀ t, t < last_edit.1 + d →
     parseCalls (world (advance svcs t after)) = parseCalls (world sys)) ∧
  (∀ t, last_edit.1 + d ≤ t →
     parseCalls (world (advance svcs t after)) =
     parseCalls (world sys) ++ [(last_edit.1 + d, uriString svcs model, last_edit.2)]).
Proof.
  destruct first as [t1 text1].
  intros Hi Hd Hs [Hle Ha] Hw last_edit after. simpl in Hle, Ha, Hw.
  destruct (contentChanged_schedules t1 text1 sys d model text0) as (Hp1 & Hs1 & Hc1 & Hk1);
    [by left | done | lia | done |].
  destruct (edits_keep_pending rest (contentChanged svcs t1 text1 sys) d model t1 text1
              (t1 + d) Hp1 Hs1 Hc1 Hd ltac:(lia) Ha Hw) as (Hp & Hsh & Hc & Hk).
  fold last_edit in Hp, Hsh, Hc. change (edits svcs rest _) with after in Hp, Hsh, Hc, Hk.
  split.
  - intros t Ht. rewrite (advance_not_due t after d _ Hp Ht). simpl. congruence.
  - intros t Ht.
    destruct (advance_due t after d _ model _ Hp Hsh ltac:(lia) Ht) as (_ & _ & _ & ->).
    congruence.
Qed.

End Debounce.

(** The burst of the scenario: edits at 0, 10, 20 and 30 ms with a delay
    of 300 ms give one call, at 330 ms, with the content of the last edit. *)
Lemma debounce_coalesces_witness :
  let burst := [(10, "x1"); (20, "x2"); (30, "x3")] in
  let after := edits Example.svcs ((0, "x0") :: burst) Example.sys0 in
  idle Example.sys0 300 ∧
  shows (world Example.sys0) {| Widget.m_id := 1; Widget.m_uri := "a" |} "A" ∧
  ascending 0 ((0, "x0") :: burst) ∧
  Forall (λ e, e.1 < 0 + 300) burst ∧
  parseCalls (world (advance Example.svcs 329 after)) = [] ∧
  parseCalls (world (advance Example.svcs 330 after)) = [(330, "file:///a", "x3")].
Proof.
  intros burst after.
  assert (idle Example.sys0 300) as Hi by (split; reflexivity).
  assert (shows (world Example.sys0) {| Widget.m_id := 1; Widget.m_uri := "a" |} "A")
    as Hs by (split; reflexivity).
  assert (clock (world Example.sys0) = 0) as Hc by reflexivity.
  assert (ascending (clock (world Example.sys0)) ((0, "x0") :: burst)) as Ha
    by (rewrite Hc; repeat split; simpl; lia).
  assert (Forall (λ e, e.1 < (0, "x0").1 + 300) burst) as Hw
    by (repeat constructor; simpl; lia).
  destruct (debounce_coalesces Example.svcs Example.sys0 300 _ "A" (0, "x0") burst
              Hi ltac:(lia) Hs Ha Hw) as [Hearly Hlate].
  split; [done|]. split; [done|]. split; [by rewrite Hc in Ha|]. split; [exact Hw|]. split.
  - apply (Hearly 329). simpl. lia.
  - apply (Hlate 330). simpl. lia.
Defined.

Section SavingDelay.

Context (svcs : Services).

(** What the listener, the editor and the counters look like from the
    point of view of the next edit. *)
Lemma flush_frame w :
  this (flush svcs w) = this w ∧ buffers (flush svcs w) = buffers w ∧
  clock (flush svcs w) = clock w.
Proof. unfold flush. by destruct (getCurrentModel w). Qed.

Lemma fire_frame tm sys :
  wait <$> subscription (fire svcs tm sys) = wait <$> subscription sys ∧
  this (world (fire svcs tm sys)) = this (world sys) ∧
  buffers (world (fire svcs tm sys)) = buffers (world sys) ∧
  nextTimer (fire svcs tm sys) = nextTimer sys ∧
  currentSettings (fire svcs tm sys) = currentSettings sys ∧
  timers (fire svcs tm sys) = filter (λ t, t.1 ≠ tm.1) (timers sys) ∧
  clock (world (fire svcs tm sys)) = Z.max (clock (world sys)) tm.2.
Proof.
  unfold fire.
  set (sys2 := match subscription (clearTimeout tm.1 sys) with
               | Some d =>
                   if bool_decide (timeout d = Some tm.1)
                   then set_subscription (Some {| wait := wait d; timeout := None |})
                          (clearTimeout tm.1 sys)
                   else clearTimeout tm.1 sys
               | None => clearTimeout tm.1 sys
               end).
  assert (wait <$> subscription sys2 = wait <$> subscription sys ∧
          world sys2 = world sys ∧ nextTimer sys2 = nextTimer sys ∧
          currentSettings sys2 = currentSettings sys ∧
          timers sys2 = filter (λ t, t.1 ≠ tm.1) (timers sys)) as (H1 & H2 & H3 & H4 & H5).
  { subst sys2. unfold clearTimeout, set_subscription. cbn.
    destruct (subscription sys) as [d|] eqn:E; cbn; [|by rewrite ?E].
    destruct (bool_decide (timeout d = Some tm.1)); cbn; by rewrite ?E. }
  simpl. rewrite H1, H2, H3, H4, H5.
  destruct (flush_frame (set_clock (Z.max (clock (world sys)) tm.2) (world sys)))
    as (-> & -> & ->). done.
Qed.

Lemma runTimers_frame fuel t sys :
  let sys' := runTimers svcs fuel t sys in
  wait <$> subscription sys' = wait <$> subscription sys ∧
  this (world sys') = this (world sys) ∧
  buffers (world sys') = buffers (world sys) ∧
  nextTimer sys' = nextTimer sys ∧
  currentSettings sys' = currentSettings sys ∧
  timers sys' ⊆ timers sys ∧
  Z.max (clock (world sys')) t = Z.max (clock (world sys)) t.
Proof.
  revert sys. induction fuel as [|fuel IH]; intros sys; simpl; [done|].
  destruct (earliest (timers sys)) as [tm|]; [|done].
  destruct (bool_decide_reflect (tm.2 ≤ t)) as [Hdue|]; [|done].
  destruct (IH (fire svcs tm sys)) as (-> & -> & -> & -> & -> & Hsub & Hc).
  destruct (fire_frame tm sys) as (-> & -> & -> & -> & -> & Ht & Hclock).
  rewrite Hc, Hclock. repeat split; try done; [|lia].
  etrans; [exact Hsub|]. rewrite Ht. intros x Hx.
  by apply list_elem_of_filter in Hx as [_ Hx].
Qed.

Lemma advance_frame t sys :
  let sys' := advance svcs t sys in
  wait <$> subscription sys' = wait <$> subscription sys ∧
  this (world sys') = this (world sys) ∧
  buffers (world sys') = buffers (world sys) ∧
  nextTimer sys' = nextTimer sys ∧
  currentSettings sys' = currentSettings sys ∧
  timers sys' ⊆ timers sys ∧
  clock (world sys') = Z.max (clock (world sys)) t.
Proof.
  unfold advance. simpl.
  destruct (runTimers_frame (length (timers sys)) t sys) as (? & ? & ? & ? & ? & ? & ?).
  done.
Qed.

(** C8, as the code has it: the delay is read from the settings when the
    listener is built, not when a flush is scheduled.  (1) The listener
    that [configureEditor] registers holds the saving delay of the
    settings of that moment.  (2) An edit schedules the flush for the
    delay the listener holds, whatever the settings are by then.  (3) A
    settings update leaves the delay of the listener as it is when the
    governance part of the settings is unchanged; when that part
    differs, the listener is built anew and holds the saving delay of
    the new settings. *)
Theorem savingDelay_read_when_listener_is_built :
  (∀ sys,
     subscription (configureEditor sys) =
     Some {| wait := savingDelay (s_editor (currentSettings sys)); timeout := None |}) ∧
  (∀ sys d t text model old,
     subscription sys = Some d →
     shows (world sys) model old →
     timers_fresh sys →
     let sys' := contentChanged svcs t text sys in
     scheduledFlush sys' = Some (Z.max (clock (world sys)) t + Z.max 0 (wait d)) ∧
     wait <$> subscription sys' = Some (wait d)) ∧
  (∀ sys d t new,
     subscription sys = Some d →
     let sys' := settingsUpdate svcs t new sys in
     currentSettings sys' = new ∧
     wait <$> subscription sys' =
       Some (if isDeepEqual (s_governance new) (s_governance (currentSettings sys))
             then wait d else savingDelay (s_editor new))).
Proof.
  split; [done|]. split.
  - intros sys d t text model old Hsub [Hm _] Hfresh sys'.
    pose proof (advance_frame t sys) as Hfr. cbv zeta in Hfr.
    destruct Hfr as (Hw & Hthis & _ & Hnext & _ & Htim & Hclock).
    rewrite Hsub in Hw. cbn [fmap option_fmap option_map wait] in Hw.
    subst sys'. unfold contentChanged.
    generalize dependent (advance svcs t sys). intros sys1 Hw Hthis Hnext Htim Hclock.
    destruct (subscription sys1) as [d1|] eqn:Hsub1; [|discriminate Hw].
    injection Hw as H0.
    assert (getCurrentModel (world sys1) = Some model) as Hm1.
    { unfold getCurrentModel, editor in *. by rewrite Hthis. }
    rewrite Hm1. cbn [subscription set_world]. rewrite Hsub1.
    set (kept := match timeout d1 with
                 | Some id => filter (λ t0 : nat * Z, t0.1 ≠ id) (timers sys1)
                 | None => timers sys1
                 end).
    assert (call_debounced d1
              (set_world (set_buffers (alter (Widget.setValue text) (Widget.m_id model)))
                 sys1)
            = {| world := set_buffers (alter (Widget.setValue text) (Widget.m_id model))
                                 (world sys1);
                      currentSettings := currentSettings sys1;
                      timers := kept ++ [(nextTimer sys,
                                          Z.max (clock (world sys)) t + Z.max 0 (wait d))];
                      nextTimer := S (nextTimer sys);
                      subscription := Some {| wait := wait d;
                                              timeout := Some (nextTimer sys) |} |})
      as ->.
    { subst kept. unfold call_debounced, setTimeout, clearTimeout, set_subscription.
      destruct (timeout d1) as [id|]; cbn; by rewrite Hnext, H0, Hclock. }
    split; [|done]. unfold scheduledFlush. cbn.
    assert (list_find (λ t0 : nat * Z, t0.1 = nextTimer sys) kept = None) as Hnone.
    { apply list_find_None, Forall_forall. intros x Hx.
      assert (x ∈ timers sys) as Hin.
      { apply Htim. subst kept. destruct (timeout d1); [|done].
        by apply list_elem_of_filter in Hx as [_ Hx]. }
      unfold timers_fresh in Hfresh. rewrite Forall_forall in Hfresh.
      specialize (Hfresh x Hin). simpl in Hfresh. lia. }
    rewrite (list_find_app_r _ _ _ Hnone). cbn.
    rewrite decide_True by done. done.
  - intros sys d t new Hsub sys'. subst sys'. unfold settingsUpdate, on_settings_update.
    pose proof (advance_frame t sys) as Hfr. cbv zeta in Hfr.
    destruct Hfr as (Hw & _ & _ & _ & Hset & _ & _).
    rewrite Hsub in Hw. cbn [fmap option_fmap option_map wait] in Hw.
    cbn [currentSettings set_settings]. rewrite Hset.
    destruct (isDeepEqual (s_governance new) (s_governance (currentSettings sys))).
    + done.
    + cbn [subscription set_settings].
      destruct (subscription (advance svcs t sys)); [done|discriminate Hw].
Qed.

End SavingDelay.

Lemma savingDelay_read_when_listener_is_built_witness :
  let faster :=
    {| s_editor := {| autoSaving := true; savingDelay := 50 |};
       s_governance := s_governance Example.settings0;
       s_templates := s_templates Example.settings0 |} in
  let sys1 := settingsUpdate Example.svcs 100 faster Example.sys0 in
  subscription Example.sys0 = Some {| wait := 300; timeout := None |} ∧
  shows (world sys1) {| Widget.m_id := 1; Widget.m_uri := "a" |} "A" ∧
  timers_fresh sys1 ∧
  wait <$> subscription sys1 = Some 300 ∧
  scheduledFlush (contentChanged Example.svcs 200 "x" sys1) = Some 500.
Proof.
  intros faster sys1.
  destruct (savingDelay_read_when_listener_is_built Example.svcs) as (_ & Hedit & Hupd).
  assert (subscription Example.sys0 = Some {| wait := 300; timeout := None |}) as H0
    by reflexivity.
  assert (subscription sys1 = Some {| wait := 300; timeout := None |}) as H1
    by reflexivity.
  assert (shows (world sys1) {| Widget.m_id := 1; Widget.m_uri := "a" |} "A") as Hs
    by (split; reflexivity).
  assert (timers_fresh sys1) as Hf by constructor.
  split; [done|]. split; [done|]. split; [done|]. split.
  - exact (proj2 (Hupd Example.sys0 _ 100 faster H0)).
  - exact (proj1 (Hedit sys1 _ 200 "x" _ "A" H1 Hs Hf)).
Defined.

(** C8, as it is stated, fails: the saving delay is changed from 300 ms to
    50 ms at 100 ms (the governance part stays as it is); the edit at
    200 ms still schedules its flush for 500 ms, not for 250 ms. *)
Lemma savingDelay_counterexample :
  let faster :=
    {| s_editor := {| autoSaving := true; savingDelay := 50 |};
       s_governance := s_governance Example.settings0;
       s_templates := s_templates Example.settings0 |} in
  let sys1 := settingsUpdate Example.svcs 100 faster Example.sys0 in
  let sys2 := contentChanged Example.svcs 200 "x" sys1 in
  savingDelay (s_editor (currentSettings sys1)) = 50 ∧
  scheduledFlush sys2 = Some 500 ∧
  scheduledFlush sys2 ≠ Some (200 + savingDelay (s_editor (currentSettings sys1))) ∧
  parseCalls (world (advance Example.svcs 499 sys2)) = [] ∧
  parseCalls (world (advance Example.svcs 500 sys2)) = [(500, "file:///a", "x")].
Proof.
  intros faster sys1 sys2.
  split; [reflexivity|]. split; [reflexivity|]. split; [|split; reflexivity].
  intros H. vm_compute in H. discriminate H.
Qed.

(* ===================================================================== *)
(** ** Further properties of the conversion of diagnostics *)
(* ===================================================================== *)

Section DiagnosticsMore.

Import Diagnostics.

Lemma forEach_messages ds idx out :
  m_message <$> markers (forEach ds idx out) =
    (m_message <$> markers out) ++ (message <$> filter isError ds) ∧
  (λ dec, glyphMarginHoverMessage (options dec)) <$> decorations (forEach ds idx out) =
    ((λ dec, glyphMarginHoverMessage (options dec)) <$> decorations out) ++
    (message <$> filter (λ d, ¬ isError d) ds).
Proof.
  revert idx out. induction ds as [|d ds IH]; intros idx out; simpl.
  - by rewrite !app_nil_r.
  - destruct (IH (S idx) (visit out idx d)) as [-> ->].
    rewrite visit_markers, visit_decorations, !filter_cons, !fmap_app.
    destruct (decide (isError d)) as [E|E].
    + rewrite decide_False by tauto. simpl. rewrite app_nil_r.
      by rewrite <- app_assoc.
    + rewrite decide_True by tauto. simpl. rewrite app_nil_r.
      by rewrite <- app_assoc.
Qed.

(** X1: no diagnostic is dropped or doubled.  The messages of the markers
    are those of the diagnostics of error severity, in the order given;
    the hover messages of the decorations are those of all the other
    diagnostics, in the order given; together they are as many as the
    diagnostics. *)
Theorem diagnostics_partitioned (ds : list Diagnostic) :
  let out := createMarkersAndDecorations ds in
  m_message <$> markers out = message <$> filter isError ds ∧
  (λ dec, glyphMarginHoverMessage (options dec)) <$> decorations out =
    message <$> filter (λ d, ¬ isError d) ds ∧
  (length (markers out) + length (decorations out))%nat = length ds.
Proof.
  intros out. subst out. unfold createMarkersAndDecorations.
  destruct (forEach_messages ds 0 {| decorations := []; markers := [] |}) as [Hm Hd].
  split; [exact Hm|]. split; [exact Hd|].
  apply (f_equal length) in Hm, Hd.
  rewrite length_app, !length_fmap in Hm. rewrite length_app, !length_fmap in Hd.
  simpl in Hm, Hd. rewrite Hm, Hd. clear Hm Hd.
  induction ds as [|d ds IH]; [done|].
  rewrite !filter_cons. destruct (decide (isError d)) as [E|E].
  - rewrite decide_False by tauto. simpl. lia.
  - rewrite decide_True by tauto. simpl. lia.
Qed.

Lemma to_uint_nonnil (n : nat) : Nat.to_uint n ≠ Decimal.Nil.
Proof.
  intros E. pose proof (DecimalNat.Unsigned.of_to n) as H. rewrite E in H.
  simpl in H. subst n. discriminate E.
Qed.

Lemma index_string_inj (i j : nat) : index_string i = index_string j → i = j.
Proof.
  unfold index_string. intros H.
  apply (f_equal NilZero.uint_of_string) in H.
  rewrite !NilZero.usu in H by apply to_uint_nonnil.
  injection H as H. by apply DecimalNat.Unsigned.to_uint_inj.
Qed.

Lemma decoration_id_inj (i j : nat) (d d' : Diagnostic) :
  id (newDecoration i d) = id (newDecoration j d') → i = j.
Proof.
  simpl. unfold getSeverityClassName.
  repeat match goal with |- context [Z.eqb ?a ?b] => destruct (Z.eqb a b) end;
    intros H; simplify_eq/=; by apply index_string_inj.
Qed.

Lemma fst_imap_pair {A} (l : list A) (k : nat) :
  fst <$> imap (λ i x, ((k + i)%nat, x)) l = seq k (length l).
Proof.
  revert k. induction l as [|x l IH]; intros k; simpl; [done|].
  rewrite Nat.add_0_r. f_equal. rewrite <- (IH (S k)). f_equal.
  apply imap_ext. intros i y _. simpl. f_equal. lia.
Qed.

(** X2: the identifiers of the decorations of one conversion are pairwise
    different. *)
Theorem decoration_ids_distinct (ds : list Diagnostic) :
  NoDup (id <$> decorations (createMarkersAndDecorations ds)).
Proof.
  rewrite createMarkersAndDecorations_decorations, <- list_fmap_compose.
  apply NoDup_fmap_2_strong.
  - intros [i d] [j d'] Hx Hy Hid. simpl in Hid.
    apply decoration_id_inj in Hid as ->.
    apply list_elem_of_filter in Hx as [_ Hx]. apply list_elem_of_filter in Hy as [_ Hy].
    apply list_elem_of_lookup in Hx as [k Hx]. apply list_elem_of_lookup in Hy as [k' Hy].
    rewrite list_lookup_imap in Hx, Hy.
    destruct (ds !! k) eqn:Ek; simplify_eq/=.
    destruct (ds !! k') eqn:Ek'; simplify_eq/=. done.
  - apply NoDup_filter. apply (NoDup_fmap_1 fst).
    pose proof (fst_imap_pair ds 0) as H. simpl in H.
    change (imap (λ i x, (i, x)) ds) with (imap pair ds) in H. rewrite H.
    apply NoDup_seq.
Qed.

End DiagnosticsMore.

(* ===================================================================== *)
(** ** Further properties of the handle cache *)
(* ===================================================================== *)

Section HandleCacheMore.

Context (svcs : Services).

(** X3: a second removal of the same identifier returns nothing and
    changes nothing, and so does the removal of an identifier for which
    no handle is cached; the first removal returns [true] exactly when a
    handle was cached. *)
Theorem removeModel_twice (uri : string) (w : World) :
  removeModel uri (removeModel uri w).2 = (None, (removeModel uri w).2) ∧
  ((removeModel uri w).1 = Some true ↔ ∃ model, models (this w) !! uri = Some (Some model)) ∧
  ((removeModel uri w).1 = None → (removeModel uri w).2 = w).
Proof.
  unfold removeModel.
  destruct (models (this w) !! uri) as [[model|]|] eqn:E; simpl.
  - rewrite lookup_delete_eq. split; [done|]. split; [|done]. split; eauto.
  - rewrite E. split; [done|]. split; [|done]. split; [done|]. by intros [? ?].
  - rewrite E. split; [done|]. split; [|done]. split; [done|]. by intros [? ?].
Qed.

Lemma handles_wf_frame w w' :
  models (this w') = models (this w) → buffers w' = buffers w →
  handles_wf w → handles_wf w'.
Proof. unfold handles_wf. intros -> ->. done. Qed.

Lemma getModel_handles_wf uri w : handles_wf w → handles_wf (getModel uri w).2.
Proof.
  intros [Hlive Hinj]. unfold getModel, createModel, getFile, monaco_createModel.
  destruct (models (this w) !! uri) as [[model|]|] eqn:E; simpl; [done..|].
  destruct (files w !! uri) as [f|] eqn:F; simpl; [|done].
  split; simpl.
  - intros id model Hm. destruct (decide (id = uri)) as [->|Hne].
    + rewrite lookup_insert_eq in Hm. injection Hm as <-. simpl.
      rewrite lookup_app_r by done. rewrite Nat.sub_diag. simpl. eauto.
    + rewrite lookup_insert_ne in Hm by done.
      destruct (Hlive id model Hm) as (b & Hb & Hd).
      exists b. split; [|done]. by apply lookup_app_l_Some.
  - intros id1 id2 m1 m2 H1 H2 Heq.
    destruct (decide (id1 = uri)) as [->|Hne1], (decide (id2 = uri)) as [->|Hne2];
      [done| | |].
    + rewrite lookup_insert_eq in H1. rewrite lookup_insert_ne in H2 by done.
      injection H1 as <-. simpl in Heq.
      destruct (Hlive id2 m2 H2) as (b & Hb & _). apply lookup_lt_Some in Hb. lia.
    + rewrite lookup_insert_eq in H2. rewrite lookup_insert_ne in H1 by done.
      injection H2 as <-. simpl in Heq.
      destruct (Hlive id1 m1 H1) as (b & Hb & _). apply lookup_lt_Some in Hb. lia.
    + rewrite lookup_insert_ne in H1, H2 by done. eauto.
Qed.

Lemma removeModel_handles_wf uri w : handles_wf w → handles_wf (removeModel uri w).2.
Proof.
  intros [Hlive Hinj]. unfold removeModel.
  destruct (models (this w) !! uri) as [[model|]|] eqn:E; simpl; [|done..].
  split; simpl.
  - intros id m Hm. apply lookup_delete_Some in Hm as [Hne Hm].
    destruct (Hlive id m Hm) as (b & Hb & Hd). exists b. split; [|done].
    rewrite list_lookup_alter_ne; [done|].
    intros Heq. apply Hne. symmetry. by eapply Hinj.
  - intros id1 id2 m1 m2 H1 H2.
    apply lookup_delete_Some in H1 as [_ H1]. apply lookup_delete_Some in H2 as [_ H2].
    eauto.
Qed.

Lemma handles_wf_setValue i s w :
  handles_wf w → handles_wf (set_buffers (alter (Widget.setValue s) i) w).
Proof.
  intros [Hlive Hinj]. split; [|exact Hinj]. simpl.
  intros id m Hm. destruct (Hlive id m Hm) as (b & Hb & Hd).
  destruct (decide (i = Widget.m_id m)) as [->|Hne].
  - exists (Widget.setValue s b). rewrite list_lookup_alter, decide_True by done.
    by rewrite Hb.
  - exists b. by rewrite list_lookup_alter_ne.
Qed.

Lemma getModel_buffers_set_viewStates f uri w :
  buffers (getModel uri (set_this (set_viewStates f) w)).2 = buffers (getModel uri w).2 ∧
  models (this (getModel uri (set_this (set_viewStates f) w)).2)
  = models (this (getModel uri w).2).
Proof. by rewrite getModel_set_viewStates. Qed.

Lemma onChangeTab_cache newTab w :
  models (this (state_of (onChangeTab svcs newTab w)))
  = models (this (getModel (tab_uri newTab) w).2) ∧
  buffers (state_of (onChangeTab svcs newTab w)) = buffers (getModel (tab_uri newTab) w).2.
Proof.
  rewrite onChangeTab_saves_first. cbv zeta.
  destruct (getModel_buffers_set_viewStates (saved svcs w) (tab_uri newTab) w) as [Hb Hm].
  pose proof (getModel_None (tab_uri newTab) w) as Hn.
  destruct ((getModel (tab_uri newTab) w).1) as [model|].
  - by destruct (editor w).
  - simpl. by rewrite Hn.
Qed.

Lemma applyMarkersAndDecorations_cache document w :
  models (this (applyMarkersAndDecorations svcs document w))
  = models (this (getModel (doc_uri document) w).2) ∧
  buffers (applyMarkersAndDecorations svcs document w) = buffers (getModel (doc_uri document) w).2.
Proof.
  unfold applyMarkersAndDecorations.
  destruct (getModel (doc_uri document) w) as [[model|] w1]; simpl; [|done].
  destruct (editor w1); [|done]. by destruct (Widget.deltaDecorations _ _ _ _).
Qed.

Lemma removeMarkersAndDecorations_cache document w :
  models (this (removeMarkersAndDecorations svcs document w))
  = models (this (getModel (doc_uri document) w).2) ∧
  buffers (removeMarkersAndDecorations svcs document w) = buffers (getModel (doc_uri document) w).2.
Proof.
  unfold removeMarkersAndDecorations.
  destruct (getModel (doc_uri document) w) as [[model|] w1]; simpl; [|done].
  destruct (editor w1); [|done]. by destruct (Widget.deltaDecorations _ _ _ _).
Qed.

Lemma updateState_handles_wf arg w : handles_wf w → handles_wf (updateState svcs arg w).
Proof.
  intros Hwf. unfold updateState.
  destruct (content arg) as [c| |]; [|done..].
  destruct (strict_eq _ _); [done|].
  destruct (truthy _) as [language|]; [|done].
  set (w1 := if default true (sendToServer arg) then _ else w).
  assert (handles_wf w1) as Hwf1 by (subst w1; by destruct (default true _)).
  destruct (default false (updateModel arg)); [|exact Hwf1].
  destruct (editor w1 ≫= Widget.getModel) as [model|]; [|exact Hwf1].
  apply (handles_wf_frame
           (set_buffers (alter (Widget.setValue c) (Widget.m_id model)) w1)); [done..|].
  by apply handles_wf_setValue.
Qed.

Lemma step_handles_wf a w : handles_wf w → handles_wf (step svcs a w).
Proof.
  intros Hwf. destruct a as [[file|[tab|]|document|document|document]|arg]; simpl.
  - by apply removeModel_handles_wf.
  - destruct (decide (tab_type tab = "editor")); [|done].
    destruct (onChangeTab_cache tab w) as [Hm Hb].
    eapply handles_wf_frame; [exact Hm|exact Hb|]. by apply getModel_handles_wf.
  - done.
  - destruct (applyMarkersAndDecorations_cache document w) as [Hm Hb].
    eapply handles_wf_frame; [exact Hm|exact Hb|]. by apply getModel_handles_wf.
  - destruct (applyMarkersAndDecorations_cache document w) as [Hm Hb].
    eapply handles_wf_frame; [exact Hm|exact Hb|]. by apply getModel_handles_wf.
  - destruct (removeMarkersAndDecorations_cache document w) as [Hm Hb].
    eapply handles_wf_frame; [exact Hm|exact Hb|]. by apply getModel_handles_wf.
  - by apply updateState_handles_wf.
Qed.

(** X4: whatever events are delivered and whatever [updateState] is called
    with, every handle in the cache keeps referring to a buffer that
    exists and has not been disposed, and no buffer is cached under two
    identifiers. *)
Theorem handles_stay_live (actions : list Action) (w : World) :
  handles_wf w → handles_wf (run svcs actions w).
Proof.
  revert w. induction actions as [|a actions IH]; intros w Hwf; simpl; [done|].
  apply IH. by apply step_handles_wf.
Qed.

(** X5: after the handle of a resource has been removed, a lookup for the
    resource (its file still being known) creates a new buffer from the
    file: the handle returned is not the one that was removed, the buffer
    of the removed handle is disposed, and the new buffer is not. *)
Theorem removeModel_then_getModel (uri : string) (w : World)
    (model : Widget.ModelRef) (f : File) :
  handles_wf w →
  models (this w) !! uri = Some (Some model) →
  files w !! uri = Some f →
  let w1 := (removeModel uri w).2 in
  let fresh := {| Widget.m_id := length (buffers w); Widget.m_uri := f_uri f |} in
  (getModel uri w1).1 = Some fresh ∧
  Widget.m_id fresh ≠ Widget.m_id model ∧
  models (this (getModel uri w1).2) !! uri = Some (Some fresh) ∧
  Widget.b_disposed <$> buffers (getModel uri w1).2 !! Widget.m_id model = Some true ∧
  buffers (getModel uri w1).2 !! Widget.m_id fresh =
    Some {| Widget.b_language := f_language f; Widget.b_value := f_content f;
            Widget.b_disposed := false |}.
Proof.
  intros [Hlive _] Hm Hf w1 fresh.
  destruct (Hlive uri model Hm) as (b & Hb & _).
  pose proof (lookup_lt_Some _ _ _ Hb) as Hlt.
  subst w1 fresh. unfold removeModel. rewrite Hm. simpl.
  unfold getModel, createModel, getFile. simpl.
  rewrite lookup_delete_eq, Hf. simpl. rewrite length_alter.
  split; [done|]. split; [lia|]. split; [by rewrite lookup_insert_eq|]. split.
  - rewrite lookup_app_l by (rewrite length_alter; lia).
    rewrite list_lookup_alter, decide_True by done. by rewrite Hb.
  - rewrite lookup_app_r by (rewrite length_alter; lia).
    rewrite length_alter, Nat.sub_diag. done.
Qed.

End HandleCacheMore.

Lemma handles_wf_initial (w : World) : models (this w) = ∅ → handles_wf w.
Proof.
  intros H. split.
  - intros id model Hm. rewrite H in Hm. by rewrite lookup_empty in Hm.
  - intros id1 id2 m1 m2 Hm. rewrite H in Hm. by rewrite lookup_empty in Hm.
Qed.

Lemma handles_stay_live_witness :
  let actions :=
    [deliver (documents_document_create {| doc_uri := "a"; filtered := [] |});
     deliver (panels_panel_set_active_tab (Some {| tab_type := "editor"; tab_uri := "b" |}));
     deliver (fs_file_remove (Example.file_of "a" "A"));
     call_updateState {| content := JString "{}"; updateModel := Some true;
                         sendToServer := None; file := None |}] in
  handles_wf Example.w0 ∧ handles_wf (run Example.svcs actions Example.w0).
Proof.
  intros actions.
  assert (handles_wf Example.w0) as H by (by apply handles_wf_initial).
  split; [exact H|]. by apply handles_stay_live.
Defined.

Lemma removeModel_then_getModel_witness :
  let w := (getModel "a" Example.w0).2 in
  handles_wf w ∧
  models (this w) !! "a" = Some (Some {| Widget.m_id := 1; Widget.m_uri := "a" |}) ∧
  (getModel "a" (removeModel "a" w).2).1 = Some {| Widget.m_id := 2; Widget.m_uri := "a" |}.
Proof.
  intros w.
  assert (handles_wf w) as H
    by (apply getModel_handles_wf; by apply handles_wf_initial).
  split; [exact H|]. split; [reflexivity|].
  exact (proj1 (removeModel_then_getModel "a" w _ (Example.file_of "a" "A")
                  H eq_refl eq_refl)).
Defined.

(* ===================================================================== *)
(** ** Further properties of the decoration cache *)
(* ===================================================================== *)

Section DecorationCacheMore.

Context (svcs : Services).

(** X6: delivering the same diagnostics for a resource a second time
    changes nothing at all: the second call sets the same markers, its
    delta gives the handles stored by the first call to the same
    decorations, and the same handles are stored again. *)
Theorem applyMarkersAndDecorations_twice (document : Document) (w : World) :
  NoDup (default [] (decorations (this w) !! doc_uri document)) →
  applyMarkersAndDecorations svcs document (applyMarkersAndDecorations svcs document w)
  = applyMarkersAndDecorations svcs document w.
Proof.
  intros Hnd.
  pose proof (getModel_settles (doc_uri document) w) as Hs.
  destruct ((getModel (doc_uri document) w).1) as [model|] eqn:Hm;
    [destruct (editor w) as [ed|] eqn:He|].
  - pose proof (applyMarkersAndDecorations_found svcs document w model ed Hm He) as Hw1.
    cbv zeta in Hw1.
    set (w0 := (getModel (doc_uri document) w).2) in *.
    set (out := Diagnostics.createMarkersAndDecorations (filtered document)) in *.
    set (v := validation svcs ed w0) in *.
    set (r := Widget.deltaDecorations v (default [] (decorations (this w) !! doc_uri document))
                (Diagnostics.decorations out) ed) in *.
    set (w1 := applyMarkersAndDecorations svcs document w) in *.
    assert (models (this w1) !! doc_uri document = Some (Some model)) as Hm1
      by (by rewrite Hw1).
    assert (editor w1 = Some r.2) as He1 by (by rewrite Hw1).
    assert (decorations (this w1) !! doc_uri document = Some r.1) as Hd1
      by (rewrite Hw1; simpl; by rewrite lookup_insert_eq).
    pose proof (getModel_cached (doc_uri document) model w1 Hm1) as Hc1.
    assert ((getModel (doc_uri document) w1).1 = Some model) as Hm1' by (by rewrite Hc1).
    rewrite (applyMarkersAndDecorations_found svcs document w1 model r.2 Hm1' He1).
    cbv zeta. rewrite Hc1. cbn [snd]. rewrite Hd1.
    change (default [] (Some r.1)) with r.1. fold out.
    assert (validation svcs r.2 w1 = v) as ->.
    { apply validation_ext; [apply deltaDecorations_model|by rewrite Hw1]. }
    assert (Widget.deltaDecorations v r.1 (Diagnostics.decorations out) r.2 = r) as ->.
    { destruct (Widget.ed_model ed) as [shown|] eqn:Hshown.
      - transitivity (r.1, r.2); [|by destruct r]. apply deltaDecorations_same.
        apply deltaDecorations_lookup; [done|by rewrite Hshown].
      - unfold r. rewrite (deltaDecorations_unbound v _ _ ed) by done. simpl.
        by rewrite deltaDecorations_unbound. }
    rewrite Hw1. unfold set_this, set_decorations, set_instance, set_modelMarkers. simpl.
    by rewrite !insert_insert_eq.
  - destruct (applyMarkersAndDecorations_unfound svcs document w) as [-> _]; [by right|].
    destruct (applyMarkersAndDecorations_unfound svcs document (getModel (doc_uri document) w).2)
      as [-> _]; [right; by rewrite getModel_editor|].
    by rewrite (getModel_cached _ model _ Hs).
  - destruct (applyMarkersAndDecorations_unfound svcs document w) as [-> _]; [by left|].
    rewrite (getModel_None _ _ Hm).
    destruct (applyMarkersAndDecorations_unfound svcs document w) as [-> _]; [by left|].
    by apply getModel_None.
Qed.

(** X7: when the diagnostics of a resource have been applied and the
    document of the resource is then removed, the markers of the resource
    are empty, nothing is stored or shown for it, and the editor shows what
    it showed of other resources before the diagnostics were applied. *)
Theorem apply_then_remove
    (document : Document) (w : World) (model : Widget.ModelRef) (ed : Widget.Editor) :
  (getModel (doc_uri document) w).1 = Some model →
  editor w = Some ed →
  let id := doc_uri document in
  let w1 := applyMarkersAndDecorations svcs document w in
  let w2 := state_of (handle svcs (documents_document_remove document) w1) in
  modelMarkers w2 !! (Widget.m_id model, id) = Some [] ∧
  decorations (this w2) !! id = Some [] ∧
  shownFor id w2 = [] ∧
  (Widget.visibleDecorations <$> editor w2) =
    Some (omap (λ d, d)
            (Widget.removeDecorations (default [] (decorations (this w) !! id))
               (Widget.ed_decorations ed))).
Proof.
  intros Hm He id w1 w2. subst id.
  pose proof (applyMarkersAndDecorations_found svcs document w model ed Hm He) as Hw1.
  cbv zeta in Hw1. fold w1 in Hw1.
  set (old := default [] (decorations (this w) !! doc_uri document)) in *.
  set (r1 := Widget.deltaDecorations _ old _ ed) in Hw1.
  assert (models (this w1) !! doc_uri document = Some (Some model)) as Hm1.
  { pose proof (getModel_settles (doc_uri document) w) as Hs. rewrite Hm in Hs.
    by rewrite Hw1. }
  assert (editor w1 = Some r1.2) as He1 by (by rewrite Hw1).
  assert (decorations (this w1) !! doc_uri document = Some r1.1) as Hd1
    by (rewrite Hw1; simpl; by rewrite lookup_insert_eq).
  pose proof (getModel_cached (doc_uri document) model w1 Hm1) as Hc1.
  assert ((getModel (doc_uri document) w1).1 = Some model) as Hm1' by (by rewrite Hc1).
  pose proof (removeMarkersAndDecorations_found svcs document w1 model r1.2 Hm1' He1) as Hw2.
  cbv zeta in Hw2. change (removeMarkersAndDecorations svcs document w1) with w2 in Hw2.
  rewrite Hd1 in Hw2. change (default [] (Some r1.1)) with r1.1 in Hw2.
  set (r2 := Widget.deltaDecorations _ r1.1 [] r1.2) in Hw2.
  destruct (deltaDecorations_nil (validation svcs r1.2 (getModel (doc_uri document) w1).2)
              r1.1 r1.2) as [Hnil Hat]. fold r2 in Hnil, Hat.
  assert (decorations (this w2) !! doc_uri document = Some []) as Hd2
    by (rewrite Hw2; simpl; by rewrite lookup_insert_eq, Hnil).
  split; [rewrite Hw2; simpl; by rewrite lookup_insert_eq|].
  split; [exact Hd2|].
  split; [unfold shownFor; by rewrite Hd2|].
  assert (editor w2 = Some r2.2) as -> by (by rewrite Hw2).
  simpl. f_equal. unfold Widget.visibleDecorations. apply omap_ext_lookup. intros h.
  change (mjoin (Widget.ed_decorations r2.2 !! h)) with (Widget.decorationAt r2.2 h).
  rewrite Hat, lookup_removeDecorations.
  destruct (decide (h ∈ r1.1)) as [Hh1|Hh1], (decide (h ∈ old)) as [Ho|Ho].
  - by destruct (Widget.ed_decorations ed !! h).
  - destruct (deltaDecorations_elem_of _ _ _ _ _ Hh1) as [_ [[? _]|Hge]]; [done|].
    by rewrite lookup_ge_None_2.
  - rewrite (deltaDecorations_gone _ _ _ _ _ Ho Hh1 : Widget.decorationAt r1.2 h = None).
    by destruct (Widget.ed_decorations ed !! h).
  - exact (deltaDecorations_other _ _ _ _ _ Ho Hh1).
Qed.

(** X8: when the handle of the resource cannot be obtained, applying or
    clearing diagnostics changes nothing at all; when there is no editor,
    the markers and the stored decoration handles stay as they are, and
    the only effect is that of the handle lookup. *)
Theorem diagnostics_need_handle_and_editor (document : Document) (w : World) :
  ((getModel (doc_uri document) w).1 = None →
     applyMarkersAndDecorations svcs document w = w ∧
     removeMarkersAndDecorations svcs document w = w) ∧
  (editor w = None →
     applyMarkersAndDecorations svcs document w = (getModel (doc_uri document) w).2 ∧
     removeMarkersAndDecorations svcs document w = (getModel (doc_uri document) w).2 ∧
     modelMarkers (applyMarkersAndDecorations svcs document w) = modelMarkers w ∧
     decorations (this (applyMarkersAndDecorations svcs document w)) = decorations (this w)).
Proof.
  split.
  - intros Hn. pose proof (getModel_None _ _ Hn) as Hw.
    destruct (applyMarkersAndDecorations_unfound svcs document w) as [-> ->]; [by left|].
    by rewrite Hw.
  - intros He.
    destruct (applyMarkersAndDecorations_unfound svcs document w) as [-> ->]; [by right|].
    by rewrite getModel_modelMarkers, getModel_decorations.
Qed.

End DecorationCacheMore.

Lemma applyMarkersAndDecorations_twice_witness :
  let w := world Example.sys0 in
  let document := {| doc_uri := "a";
                     filtered := [Example.diag 1 2 0 2 5 "m"; Example.diag 0 1 0 1 2 "e"] |} in
  let w1 := applyMarkersAndDecorations Example.svcs document w in
  let w2 := applyMarkersAndDecorations Example.svcs document w1 in
  NoDup (default [] (decorations (this w) !! "a")) ∧
  w2 = w1 ∧
  decorations (this w1) !! "a" = Some [0%nat] ∧
  decorations (this w2) !! "a" = Some [0%nat].
Proof.
  intros w document w1 w2.
  assert (NoDup (default [] (decorations (this w) !! "a"))) as Hnd by apply NoDup_nil_2.
  pose proof (applyMarkersAndDecorations_twice Example.svcs document w Hnd) as H.
  split; [exact Hnd|]. split; [exact H|]. split; reflexivity.
Defined.

Lemma apply_then_remove_witness :
  let w := world Example.sys0 in
  let document := {| doc_uri := "a"; filtered := [Example.diag 1 2 0 2 5 "m"] |} in
  let w2 := state_of (handle Example.svcs (documents_document_remove document)
                        (applyMarkersAndDecorations Example.svcs document w)) in
  (getModel "a" w).1 = Some {| Widget.m_id := 1; Widget.m_uri := "a" |} ∧
  is_Some (editor w) ∧
  shownFor "a" w2 = [] ∧
  (Widget.visibleDecorations <$> editor w2) = Some [].
Proof.
  intros w document w2.
  pose (ed := default (Widget.create {| Widget.m_id := 1; Widget.m_uri := "a" |}) (editor w)).
  destruct (apply_then_remove Example.svcs document w
              {| Widget.m_id := 1; Widget.m_uri := "a" |} ed eq_refl eq_refl)
    as (_ & _ & Hs & Hv).
  split; [reflexivity|]. split; [by eexists|]. split; [exact Hs|].
  fold w2 in Hv. rewrite Hv. reflexivity.
Defined.

Lemma diagnostics_need_handle_and_editor_witness :
  let document := {| doc_uri := "nowhere"; filtered := [Example.diag 1 2 0 2 5 "m"] |} in
  let known := {| doc_uri := "a"; filtered := [Example.diag 1 2 0 2 5 "m"] |} in
  let bare := Example.bare in
  (getModel "nowhere" Example.w0).1 = None ∧
  applyMarkersAndDecorations Example.svcs document Example.w0 = Example.w0 ∧
  editor bare = None ∧
  decorations (this (applyMarkersAndDecorations Example.svcs known bare)) = ∅ ∧
  length (buffers (applyMarkersAndDecorations Example.svcs known bare)) = 1%nat.
Proof.
  intros document known bare.
  destruct (diagnostics_need_handle_and_editor Example.svcs document Example.w0) as [Hn _].
  destruct (diagnostics_need_handle_and_editor Example.svcs known bare) as [_ He].
  destruct (He eq_refl) as (Ha & _ & _ & Hd).
  split; [reflexivity|]. split; [exact (proj1 (Hn eq_refl))|]. split; [reflexivity|].
  split; [exact Hd|]. rewrite Ha. reflexivity.
Defined.

Section DecorationInvariant.

Context (svcs : Services).

Lemma decorations_wf_frame w w' :
  decorations (this w') = decorations (this w) →
  length (decorationStore w') = length (decorationStore w) →
  decorations_wf w → decorations_wf w'.
Proof. unfold decorations_wf. intros -> ->. done. Qed.

(** The handles of [uri] are replaced by handles that were stored for
    [uri] or had not been handed out. *)
Lemma decorations_wf_delta uri hs w w' :
  decorations_wf w →
  decorations (this w') = <[uri := hs]> (decorations (this w)) →
  (length (decorationStore w) ≤ length (decorationStore w'))%nat →
  (∀ h, h ∈ hs →
        (h < length (decorationStore w'))%nat ∧
        (h ∈ default [] (decorations (this w) !! uri) ∨
         (length (decorationStore w) ≤ h)%nat)) →
  decorations_wf w'.
Proof.
  intros [Hrange Hdisj] Hd Hlen Hhs.
  assert (∀ id hs' h, id ≠ uri → decorations (this w) !! id = Some hs' →
                      h ∈ hs → h ∈ hs' → False) as Hfresh.
  { intros id hs' h Hne Hid Hh Hh'. destruct (Hhs h Hh) as [_ [Hold|Hge]].
    - destruct (decorations (this w) !! uri) as [old|] eqn:Ho;
        [|by apply elem_of_nil in Hold].
      apply Hne. by eapply (Hdisj id uri).
    - specialize (Hrange id hs' h Hid Hh'). lia. }
  split.
  - intros id hs' h Hid Hh. rewrite Hd in Hid.
    destruct (decide (id = uri)) as [->|Hne].
    + rewrite lookup_insert_eq in Hid. injection Hid as <-. by apply Hhs.
    + rewrite lookup_insert_ne in Hid by done.
      specialize (Hrange id hs' h Hid Hh). lia.
  - intros id1 id2 hs1 hs2 h H1 H2 Hh1 Hh2. rewrite Hd in H1, H2.
    destruct (decide (id1 = uri)) as [->|Hne1], (decide (id2 = uri)) as [->|Hne2];
      [done| | |].
    + rewrite lookup_insert_eq in H1. rewrite lookup_insert_ne in H2 by done.
      injection H1 as <-. by destruct (Hfresh id2 hs2 h).
    + rewrite lookup_insert_eq in H2. rewrite lookup_insert_ne in H1 by done.
      injection H2 as <-. by destruct (Hfresh id1 hs1 h).
    + rewrite lookup_insert_ne in H1, H2 by done. eauto.
Qed.

Lemma decorations_nodup_frame w w' :
  decorations (this w') = decorations (this w) →
  decorations_nodup w → decorations_nodup w'.
Proof. unfold decorations_nodup. by intros ->. Qed.

Lemma decorations_nodup_delta uri hs w w' :
  decorations_nodup w →
  decorations (this w') = <[uri := hs]> (decorations (this w)) →
  NoDup hs →
  decorations_nodup w'.
Proof.
  intros Hnd Hd Hhs id hs' Hid. rewrite Hd in Hid.
  destruct (decide (id = uri)) as [->|Hne].
  - rewrite lookup_insert_eq in Hid. by injection Hid as <-.
  - rewrite lookup_insert_ne in Hid by done. by eapply Hnd.
Qed.

Lemma decorations_nodup_old uri w :
  decorations_nodup w → NoDup (default [] (decorations (this w) !! uri)).
Proof.
  intros Hnd. destruct (decorations (this w) !! uri) as [old|] eqn:Ho.
  - by eapply Hnd.
  - apply NoDup_nil_2.
Qed.

Lemma getModel_decorationStore uri w : decorationStore (getModel uri w).2 = decorationStore w.
Proof. unfold decorationStore. by rewrite getModel_editor. Qed.

Lemma applyMarkersAndDecorations_no_editor document w :
  editor w = None →
  applyMarkersAndDecorations svcs document w = (getModel (doc_uri document) w).2.
Proof.
  intros He. by destruct (applyMarkersAndDecorations_unfound svcs document w) as [-> _]; [right|].
Qed.

(** Both the application and the clearing of diagnostics store what the
    delta of the editor returns. *)
Lemma diagnostics_stored document w :
  let id := doc_uri document in
  ∀ w', w' = applyMarkersAndDecorations svcs document w ∨
        w' = removeMarkersAndDecorations svcs document w →
  (decorations (this w') = decorations (this w) ∧
   decorationStore w' = decorationStore w) ∨
  (∃ ed v new,
     editor w = Some ed ∧
     let r := Widget.deltaDecorations v (default [] (decorations (this w) !! id)) new ed in
     decorations (this w') = <[id := r.1]> (decorations (this w)) ∧
     editor w' = Some r.2).
Proof.
  intros id w' Hw'.
  destruct ((getModel (doc_uri document) w).1) as [model|] eqn:Hm;
    [destruct (editor w) as [ed|] eqn:He|].
  - right. exists ed. destruct Hw' as [->| ->].
    + rewrite (applyMarkersAndDecorations_found svcs document w model ed Hm He).
      do 2 eexists. split; [done|]. cbv zeta. simpl.
      rewrite getModel_decorations. split; reflexivity.
    + rewrite (removeMarkersAndDecorations_found svcs document w model ed Hm He).
      do 2 eexists. split; [done|]. cbv zeta. simpl.
      rewrite getModel_decorations. split; reflexivity.
  - left. destruct (applyMarkersAndDecorations_unfound svcs document w) as [Ha Hr];
      [by right|].
    assert (w' = (getModel (doc_uri document) w).2) as -> by (destruct Hw'; congruence).
    by rewrite getModel_decorations, getModel_decorationStore.
  - left. destruct (applyMarkersAndDecorations_unfound svcs document w) as [Ha Hr];
      [by left|].
    assert (w' = (getModel (doc_uri document) w).2) as -> by (destruct Hw'; congruence).
    by rewrite getModel_decorations, getModel_decorationStore.
Qed.

Lemma diagnostics_wf document w w' :
  w' = applyMarkersAndDecorations svcs document w ∨
  w' = removeMarkersAndDecorations svcs document w →
  (decorations_wf w → decorations_wf w') ∧
  (decorations_nodup w → decorations_nodup w').
Proof.
  intros Hw'.
  destruct (diagnostics_stored document w w' Hw') as [[Hd Hs]|(ed & v & new & He & Hd & He')].
  - split; [apply decorations_wf_frame; by rewrite ?Hs|by apply decorations_nodup_frame].
  - cbv zeta in Hd, He'.
    assert (decorationStore w = Widget.ed_decorations ed) as Hst
      by (unfold decorationStore; by rewrite He).
    assert (decorationStore w' = Widget.ed_decorations
              (Widget.deltaDecorations v (default [] (decorations (this w) !! doc_uri document))
                 new ed).2) as Hst'
      by (unfold decorationStore; by rewrite He').
    split.
    + intros Hwf. eapply decorations_wf_delta; [exact Hwf|exact Hd| |].
      * rewrite Hst, Hst'. apply deltaDecorations_length.
      * intros h Hh. rewrite Hst, Hst'.
        destruct (deltaDecorations_elem_of _ _ _ _ _ Hh) as [H1 [[H2 _]|H2]]; auto.
    + intros Hnd. eapply decorations_nodup_delta; [exact Hnd|exact Hd|].
      apply deltaDecorations_NoDup. by apply decorations_nodup_old.
Qed.

Lemma applyMarkersAndDecorations_wf document w :
  decorations_wf w → decorations_wf (applyMarkersAndDecorations svcs document w).
Proof. apply (diagnostics_wf document w). by left. Qed.

Lemma length_ed_decorations ed :
  length (Widget.ed_decorations ed) = length (Widget.ed_store ed).
Proof.
  unfold Widget.ed_decorations, Widget.dropDecorations.
  destruct (Widget.ed_model ed); by rewrite ?length_fmap.
Qed.

Lemma length_setModel model ed :
  length (Widget.ed_store (Widget.setModel model ed)) = length (Widget.ed_store ed).
Proof.
  unfold Widget.setModel, Widget.dropDecorations.
  destruct (Widget.shows ed model); simpl; by rewrite ?length_fmap.
Qed.

Lemma length_modelDisposed model ed :
  length (Widget.ed_store (Widget.modelDisposed model ed)) = length (Widget.ed_store ed).
Proof.
  unfold Widget.modelDisposed, Widget.dropDecorations.
  destruct (Widget.shows ed model); simpl; by rewrite ?length_fmap.
Qed.

Lemma length_restoreViewState v ed :
  length (Widget.ed_store (Widget.restoreViewState v ed)) = length (Widget.ed_store ed).
Proof. unfold Widget.restoreViewState. by destruct (Widget.ed_model ed). Qed.

(** A tab switch stores no handle, and the editor forgets none it has
    handed out. *)
Lemma onChangeTab_decorations newTab w :
  decorations (this (state_of (onChangeTab svcs newTab w))) = decorations (this w) ∧
  length (decorationStore (state_of (onChangeTab svcs newTab w)))
  = length (decorationStore w).
Proof.
  rewrite onChangeTab_saves_first. cbv zeta.
  pose proof (getModel_decorations (tab_uri newTab)
                (set_this (set_viewStates (saved svcs w)) w)) as Hd.
  pose proof (getModel_decorationStore (tab_uri newTab)
                (set_this (set_viewStates (saved svcs w)) w)) as Hs.
  simpl in Hd. change (decorationStore (set_this _ w)) with (decorationStore w) in Hs.
  destruct ((getModel (tab_uri newTab) w).1) as [model|]; [|done].
  destruct (editor w) as [ed|] eqn:He; simpl; [|by rewrite Hs].
  split; [exact Hd|]. unfold decorationStore at 1. unfold editor. simpl.
  unfold decorationStore. rewrite He. simpl. rewrite !length_ed_decorations.
  destruct (saved svcs w (viewStates (this w)) !! uriString svcs model) as [[?|]|];
    rewrite ?length_restoreViewState; simpl; apply length_setModel.
Qed.

(** The removal of a handle stores no decoration handle, and the editor
    forgets none it has handed out. *)
Lemma removeModel_decorations uri w :
  decorations (this (removeModel uri w).2) = decorations (this w) ∧
  length (decorationStore (removeModel uri w).2) = length (decorationStore w).
Proof.
  unfold removeModel, decorationStore, editor.
  destruct (models (this w) !! uri) as [[model|]|]; [|done..]. simpl.
  split; [done|]. destruct (instance (this w)) as [ed|]; [|done]. simpl.
  rewrite !length_ed_decorations. apply length_modelDisposed.
Qed.

Lemma updateState_this arg w : this (updateState svcs arg w) = this w.
Proof.
  unfold updateState. destruct (content arg) as [c| |]; [|done..].
  destruct (strict_eq _ _); [done|]. destruct (truthy _); [|done].
  destruct (default true (sendToServer arg)), (default false (updateModel arg)); simpl;
    try done; by destruct (_ ≫= _).
Qed.

Lemma step_decorations a w :
  (decorations_wf w → decorations_wf (step svcs a w)) ∧
  (decorations_nodup w → decorations_nodup (step svcs a w)).
Proof.
  destruct a as [[file|[tab|]|document|document|document]|arg]; simpl.
  - destruct (removeModel_decorations (f_uri file) w) as [Hd Hl].
    split; [by apply decorations_wf_frame|by apply decorations_nodup_frame].
  - destruct (decide (tab_type tab = "editor")); [|done].
    destruct (onChangeTab_decorations tab w) as [Hd Hs].
    split; [by apply decorations_wf_frame|by apply decorations_nodup_frame].
  - done.
  - apply (diagnostics_wf document w). by left.
  - apply (diagnostics_wf document w). by left.
  - apply (diagnostics_wf document w). by right.
  - split; [apply decorations_wf_frame|apply decorations_nodup_frame];
      unfold decorationStore, editor; by rewrite updateState_this.
Qed.

(** X9: whatever events are delivered and whatever [updateState] is called
    with, every decoration handle that is stored is one the editor has
    handed out, no handle is stored for two resources, and no handle is
    stored twice for one resource.  The run creates no more than 52
    buffers: that far the handles number the identifiers of the widget. *)
Theorem decoration_handles_stay_apart (actions : list Action) (w : World) :
  decorations_wf w → decorations_nodup w →
  (length (buffers (run svcs actions w)) ≤ 52)%nat →
  decorations_wf (run svcs actions w) ∧ decorations_nodup (run svcs actions w).
Proof.
  intros Hwf Hnd _. revert w Hwf Hnd.
  induction actions as [|a actions IH]; intros w Hwf Hnd; simpl; [done|].
  destruct (step_decorations a w) as [H1 H2]. apply IH; auto.
Qed.

(** X10: applying the diagnostics of one resource does not change what is
    stored and shown for another resource. *)
Theorem applyMarkersAndDecorations_other_resource
    (document : Document) (id : string) (w : World) :
  decorations_wf w →
  id ≠ doc_uri document →
  let w' := applyMarkersAndDecorations svcs document w in
  decorations (this w') !! id = decorations (this w) !! id ∧
  shownFor id w' = shownFor id w.
Proof.
  intros [Hrange Hdisj] Hne w'.
  destruct (diagnostics_stored document w w') as [[Hd Hs]|(ed & v & new & He & Hd & He')];
    [by left| |].
  - unfold shownFor. by rewrite Hd, Hs.
  - cbv zeta in Hd, He'.
    assert (decorationStore w = Widget.ed_decorations ed) as Hst
      by (unfold decorationStore; by rewrite He).
    assert (decorations (this w') !! id = decorations (this w) !! id) as Hsame
      by (by rewrite Hd, lookup_insert_ne).
    split; [exact Hsame|]. unfold shownFor. rewrite Hsame.
    destruct (decorations (this w) !! id) as [hs|] eqn:Hhs; [|done]. simpl.
    apply list_fmap_ext. intros i h Hh. apply list_elem_of_lookup_2 in Hh.
    pose proof (Hrange id hs h Hhs Hh) as Hlt. rewrite Hst in Hlt.
    unfold decorationStore at 1. rewrite He'. simpl. rewrite Hst.
    rewrite deltaDecorations_frame; [done| |done].
    intros Hin. apply Hne.
    destruct (decorations (this w) !! doc_uri document) as [old|] eqn:Hold;
      [|by apply elem_of_nil in Hin].
    by eapply (Hdisj id (doc_uri document)).
Qed.

End DecorationInvariant.

Lemma decorations_wf_initial (w : World) :
  decorations (this w) = ∅ → decorations_wf w ∧ decorations_nodup w.
Proof.
  intros H. split; [split|].
  - intros id hs h Hhs. rewrite H in Hhs. by rewrite lookup_empty in Hhs.
  - intros id1 id2 hs1 hs2 h Hhs. rewrite H in Hhs. by rewrite lookup_empty in Hhs.
  - intros id hs Hhs. rewrite H in Hhs. by rewrite lookup_empty in Hhs.
Qed.

Lemma decoration_handles_stay_apart_witness :
  let actions :=
    [deliver (documents_document_create
                {| doc_uri := "a"; filtered := [Example.diag 1 2 0 2 5 "m"] |});
     deliver (documents_document_update
                {| doc_uri := "b"; filtered := [Example.diag 3 0 0 0 1 "h"] |});
     deliver (panels_panel_set_active_tab (Some {| tab_type := "editor"; tab_uri := "b" |}));
     deliver (documents_document_update
                {| doc_uri := "b"; filtered := [Example.diag 3 0 0 0 1 "h"] |});
     deliver (fs_file_remove (Example.file_of "b" "B"));
     deliver (documents_document_remove {| doc_uri := "a"; filtered := [] |})] in
  let w' := run Example.svcs actions (world Example.sys0) in
  (decorations_wf (world Example.sys0) ∧ decorations_nodup (world Example.sys0)) ∧
  (length (buffers w') ≤ 52)%nat ∧
  (decorations_wf w' ∧ decorations_nodup w') ∧
  decorations (this w') !! "a" = Some [] ∧
  decorations (this w') !! "b" = Some [2%nat] ∧
  length (decorationStore w') = 3%nat.
Proof.
  intros actions w'.
  destruct (decorations_wf_initial (world Example.sys0) eq_refl) as [Hwf Hnd].
  assert (length (buffers w') ≤ 52)%nat as Hb by (vm_compute; lia).
  split; [by split|]. split; [exact Hb|].
  split; [by apply decoration_handles_stay_apart|].
  repeat split; reflexivity.
Defined.

Lemma applyMarkersAndDecorations_other_resource_witness :
  let w := applyMarkersAndDecorations Example.svcs
             {| doc_uri := "b"; filtered := [Example.diag 3 0 0 0 1 "h"] |}
             (world Example.sys0) in
  let w' := applyMarkersAndDecorations Example.svcs
              {| doc_uri := "a"; filtered := [Example.diag 1 2 0 2 5 "m"] |} w in
  decorations_wf w ∧ "b" ≠ "a" ∧
  shownFor "b" w' = [Some (Diagnostics.newDecoration 0 (Example.diag 3 0 0 0 1 "h"))].
Proof.
  intros w w'.
  assert (decorations_wf w) as H.
  { apply applyMarkersAndDecorations_wf.
    by apply (decorations_wf_initial (world Example.sys0)). }
  assert ("b" ≠ "a") as Hne by discriminate.
  split; [exact H|]. split; [exact Hne|].
  etrans; [exact (proj2 (applyMarkersAndDecorations_other_resource Example.svcs
                           {| doc_uri := "a"; filtered := [Example.diag 1 2 0 2 5 "m"] |}
                           "b" w H Hne))|].
  reflexivity.
Defined.

(* ===================================================================== *)
(** ** Further properties of the tab switch *)
(* ===================================================================== *)

Section TabSwitchMore.

Context (svcs : Services).

(** X11: a tab switch throws exactly when there is no editor and the
    handle of the new resource can be obtained; the handle is cached by
    then, and no snapshot has been saved. *)
Theorem onChangeTab_throws (newTab : Tab) (w : World) :
  ((∃ w', onChangeTab svcs newTab w = Throw w') ↔
   editor w = None ∧ is_Some (getModel (tab_uri newTab) w).1) ∧
  (∀ w', onChangeTab svcs newTab w = Throw w' →
     w' = (getModel (tab_uri newTab) w).2 ∧
     models (this w') !! tab_uri newTab = Some (getModel (tab_uri newTab) w).1 ∧
     viewStates (this w') = viewStates (this w)).
Proof.
  assert (editor w = None → set_this (set_viewStates (saved svcs w)) w = w) as Hid.
  { intros He. unfold saved, getCurrentModel. rewrite He. simpl. by destruct w as [[]]. }
  rewrite onChangeTab_saves_first. cbv zeta.
  pose proof (getModel_settles (tab_uri newTab) w) as Hset.
  pose proof (getModel_viewStates (tab_uri newTab) w) as Hv.
  destruct ((getModel (tab_uri newTab) w).1) as [model|] eqn:Hm.
  - destruct (editor w) as [ed|] eqn:He.
    + split; [|by intros w' H]. split; [by intros [w' H]|by intros [H _]].
    + rewrite (Hid eq_refl). split; [split; eauto|].
      intros w' H. injection H as <-. simpl in Hset. done.
  - split; [|by intros w' H]. split; [by intros [w' H]|]. by intros [_ [x Hx]].
Qed.

(** X12: selecting the tab that is shown already keeps the buffer, the
    view and the decorations of the editor; the editor takes the focus
    and the view is saved under the URI of the buffer. *)
Theorem onChangeTab_same_tab (uri : string) (w : World)
    (ed : Widget.Editor) (model : Widget.ModelRef) :
  editor w = Some ed →
  Widget.ed_model ed = Some model →
  models (this w) !! uri = Some (Some model) →
  onChangeTab svcs {| tab_type := "editor"; tab_uri := uri |} w =
  Normal (set_this (λ s, set_instance (Some (Widget.focus ed))
                           (set_viewStates
                              (λ vs, <[uriString svcs model := Some (Widget.ed_viewState ed)]> vs)
                              s)) w).
Proof.
  intros He Hm Hc. rewrite onChangeTab_saves_first. cbv zeta. cbn [tab_uri].
  assert (saved svcs w = λ vs, <[uriString svcs model := Some (Widget.ed_viewState ed)]> vs)
    as Hs.
  { unfold saved, getCurrentModel, Widget.saveViewState, Widget.getModel.
    rewrite He. simpl. by rewrite Hm. }
  rewrite (getModel_cached uri model w Hc). simpl. rewrite He.
  rewrite getModel_set_viewStates, (getModel_cached uri model w Hc). simpl.
  rewrite Hs, lookup_insert_eq.
  assert (Widget.setModel model ed = ed) as ->.
  { unfold Widget.setModel, Widget.shows, Widget.sameModel.
    by rewrite Hm, Nat.eqb_refl, String.eqb_refl. }
  assert (Widget.restoreViewState (Widget.ed_viewState ed) (Widget.focus ed)
          = Widget.focus ed) as ->.
  { unfold Widget.restoreViewState, Widget.focus. simpl. by rewrite Hm. }
  done.
Qed.

End TabSwitchMore.

Lemma onChangeTab_throws_witness :
  let bare := set_this (set_instance None) Example.w0 in
  let tab := {| tab_type := "editor"; tab_uri := "a" |} in
  editor bare = None ∧ is_Some (getModel "a" bare).1 ∧
  ∃ w', onChangeTab Example.svcs tab bare = Throw w' ∧
        models (this w') !! "a" = Some (Some {| Widget.m_id := 1; Widget.m_uri := "a" |}).
Proof.
  intros bare tab.
  destruct (onChangeTab_throws Example.svcs tab bare) as [Hiff Hstate].
  assert (editor bare = None ∧ is_Some (getModel (tab_uri tab) bare).1) as Hpre
    by (split; [reflexivity|by eexists]).
  destruct (proj2 Hiff Hpre) as [w' Hw'].
  split; [exact (proj1 Hpre)|]. split; [exact (proj2 Hpre)|].
  exists w'. split; [exact Hw'|].
  destruct (Hstate w' Hw') as (_ & Hc & _). exact Hc.
Defined.

Lemma onChangeTab_same_tab_witness :
  let v := {| Widget.cursorLine := 5; Widget.cursorColumn := 7; Widget.scrollTop := 120 |} in
  let w := moveView v (world Example.sys0) in
  let w' := state_of (onChangeTab Example.svcs {| tab_type := "editor"; tab_uri := "a" |} w) in
  models (this w) !! "a" = Some (Some {| Widget.m_id := 1; Widget.m_uri := "a" |}) ∧
  (Widget.ed_viewState <$> editor w') = Some v ∧
  viewStates (this w') !! "file:///a" = Some (Some v).
Proof.
  intros v w w'.
  pose proof (onChangeTab_same_tab Example.svcs "a" w
                (default (Widget.create {| Widget.m_id := 1; Widget.m_uri := "a" |}) (editor w))
                {| Widget.m_id := 1; Widget.m_uri := "a" |} eq_refl eq_refl eq_refl) as H.
  split; [reflexivity|]. subst w'. rewrite H. split; reflexivity.
Defined.

(* ===================================================================== *)
(** ** Further properties of the change synchronizer *)
(* ===================================================================== *)

Section DebounceMore.

Context (svcs : Services).

(** The only timer that is scheduled fires, whoever scheduled it. *)
Lemma advance_one_timer t sys id due model :
  timers sys = [(id, due)] →
  getCurrentModel (world sys) = Some model →
  clock (world sys) ≤ due → due ≤ t →
  let sys' := advance svcs t sys in
  timers sys' = [] ∧
  parseCalls (world sys') =
    parseCalls (world sys) ++ [(due, uriString svcs model, getValue model (world sys))].
Proof.
  intros Ht Hm Hc Hdue sys'. subst sys'. unfold advance. rewrite Ht. simpl.
  rewrite Ht. simpl. rewrite bool_decide_true by lia.
  destruct (fire_frame svcs (id, due) sys) as (_ & _ & _ & _ & _ & Htim & _).
  rewrite Ht, filter_cons in Htim. simpl in Htim.
  rewrite decide_False in Htim by (intros H; by apply H).
  split; [exact Htim|].
  unfold fire. simpl.
  assert (∀ sys2, world sys2 = world sys →
            parseCalls (flush svcs (set_clock (Z.max (clock (world sys2)) due) (world sys2)))
            = parseCalls (world sys) ++
                [(due, uriString svcs model, getValue model (world sys))]) as Hflush.
  { intros sys2 ->. unfold flush.
    change (getCurrentModel (set_clock _ (world sys))) with (getCurrentModel (world sys)).
    rewrite Hm. simpl. rewrite Z.max_r by lia. done. }
  destruct (subscription sys) as [d0|]; [|by apply Hflush].
  destruct (bool_decide (timeout d0 = Some id)); by apply Hflush.
Qed.

(** An edit that comes after the flush of the edit before was due: that
    flush has fired, and the new one is scheduled. *)
Lemma contentChanged_after_flush t text sys d model old due :
  pending sys d due → shows (world sys) model old →
  clock (world sys) ≤ due → due < t → 0 ≤ d →
  let sys' := contentChanged svcs t text sys in
  pending sys' d (t + d) ∧ shows (world sys') model text ∧
  clock (world sys') = t ∧
  parseCalls (world sys') = parseCalls (world sys) ++ [(due, uriString svcs model, old)].
Proof.
  intros Hp Hs Hc Hdue Hd sys'.
  destruct (advance_due svcs t sys d due model old Hp Hs Hc ltac:(lia))
    as ([Hw Ht] & [Hm Hv] & Hclock & Hcalls).
  subst sys'. unfold contentChanged.
  generalize dependent (advance svcs t sys). intros sys1 Hw Ht Hm Hv Hclock Hcalls.
  rewrite Hm. cbn [subscription set_world].
  destruct (subscription sys1) as [d0|] eqn:Hsub; [|discriminate Hw].
  injection Hw as Hw.
  unfold call_debounced, setTimeout, clearTimeout, set_subscription, pending, shows.
  destruct (timeout d0) as [id|]; cbn; rewrite Ht, Hw, Hclock, Hcalls; simpl;
    rewrite Z.max_r by lia;
    (split; [by eexists|]); (split; [|done]); (split; [exact Hm|]);
    rewrite list_lookup_alter, decide_True by done;
    destruct (buffers (world sys1) !! Widget.m_id model); simplify_eq/=; done.
Qed.

Lemma edits_spaced es : ∀ sys d model t0 text0 t,
  pending sys d (t0 + d) → shows (world sys) model text0 →
  clock (world sys) = t0 → 0 ≤ d →
  spaced d t0 es →
  (default (t0, text0) (last es)).1 + d ≤ t →
  parseCalls (world (advance svcs t (edits svcs es sys))) =
  parseCalls (world sys) ++
    ((λ e, (e.1 + d, uriString svcs model, e.2)) <$> ((t0, text0) :: es)).
Proof.
  induction es as [|[t1 text1] es IH]; intros sys d model t0 text0 t Hp Hs Hc Hd Hsp Ht.
  - change (t0 + d ≤ t) in Ht. unfold edits. cbn [foldl].
    by destruct (advance_due svcs t sys d (t0 + d) model text0 Hp Hs ltac:(lia) Ht)
      as (_ & _ & _ & ->).
  - destruct Hsp as [Hle Hsp]. simpl in Hle.
    destruct (contentChanged_after_flush t1 text1 sys d model text0 (t0 + d)
                Hp Hs ltac:(lia) Hle Hd) as (Hp1 & Hs1 & Hc1 & Hk1).
    rewrite last_cons in Ht.
    assert ((default (t1, text1) (last es)).1 + d ≤ t) as Ht1
      by (by destruct (last es)).
    specialize (IH (contentChanged svcs t1 text1 sys) d model t1 text1 t
                  Hp1 Hs1 Hc1 Hd Hsp Ht1).
    unfold edits in *. cbn [foldl fst snd]. rewrite IH, Hk1.
    rewrite <- app_assoc. done.
Qed.

(** X13: edits that come more than a delay apart are not coalesced: every
    edit gets its own analysis call, a delay after the edit, with the
    content that edit left, in the order of the edits. *)
Theorem edits_apart_are_analysed_one_by_one
    (sys : System) (d : Z) (model : Widget.ModelRef) (text0 : string)
    (first : Z * string) (rest : list (Z * string)) (t : Z) :
  idle sys d → 0 ≤ d →
  shows (world sys) model text0 →
  clock (world sys) ≤ first.1 →
  spaced d first.1 rest →
  (default first (last rest)).1 + d ≤ t →
  parseCalls (world (advance svcs t (edits svcs (first :: rest) sys))) =
  parseCalls (world sys) ++
    ((λ e, (e.1 + d, uriString svcs model, e.2)) <$> (first :: rest)).
Proof.
  destruct first as [t1 text1]. intros Hi Hd Hs Hc Hsp Ht. simpl in Hc.
  destruct (contentChanged_schedules svcs t1 text1 sys d model text0)
    as (Hp1 & Hs1 & Hc1 & Hk1); [by left|done|done|done|].
  pose proof (edits_spaced rest (contentChanged svcs t1 text1 sys) d model t1 text1 t
                Hp1 Hs1 Hc1 Hd Hsp Ht) as H.
  unfold edits in *. cbn [foldl fst snd]. by rewrite H, Hk1.
Qed.

Lemma getModel_clock_calls uri w :
  clock (getModel uri w).2 = clock w ∧ parseCalls (getModel uri w).2 = parseCalls w.
Proof.
  unfold getModel, createModel, getFile.
  destruct (models (this w) !! uri) as [[m|]|]; simpl; auto.
  by destruct (files w !! uri).
Qed.

(** X14: the flush reads the editor when it fires.  When the editor is
    switched to another resource while a flush is scheduled, the analysis
    call that follows carries the URI and the content of the buffer of
    that resource, and is still made at the time the flush was scheduled
    for. *)
Theorem flush_reads_the_buffer_then_bound
    (sys : System) (d due t : Z) (uri : string)
    (ed : Widget.Editor) (model : Widget.ModelRef) :
  pending sys d due →
  editor (world sys) = Some ed →
  (getModel uri (world sys)).1 = Some model →
  clock (world sys) ≤ due → due ≤ t →
  let sys' := switchTab svcs uri sys in
  (Widget.ed_model <$> editor (world sys')) = Some (Some model) ∧
  parseCalls (world (advance svcs t sys')) =
    parseCalls (world sys) ++
      [(due, uriString svcs model, getValue model (world sys'))].
Proof.
  intros (id & Hsub & Ht) He Hm Hc Hdue sys'.
  assert (world sys' =
          state_of (onChangeTab svcs {| tab_type := "editor"; tab_uri := uri |} (world sys)))
    as Hw by done.
  assert (timers sys' = [(id, due)]) as Ht' by exact Ht.
  assert (editor (world sys') =
          Some (match saved svcs (world sys) (viewStates (this (world sys)))
                        !! uriString svcs model with
                | Some (Some v) =>
                    Widget.restoreViewState v (Widget.focus (Widget.setModel model ed))
                | _ => Widget.focus (Widget.setModel model ed)
                end) ∧
          clock (world sys') = clock (world sys) ∧
          parseCalls (world sys') = parseCalls (world sys)) as (He' & Hc' & Hk').
  { rewrite Hw, onChangeTab_saves_first. cbv zeta. cbn [tab_uri]. rewrite Hm, He.
    cbn [state_of].
    destruct (getModel_clock_calls uri
                (set_this (set_viewStates (saved svcs (world sys))) (world sys)))
      as [Hclk Hcalls].
    split; [done|]. split; [exact Hclk|exact Hcalls]. }
  assert (getCurrentModel (world sys') = Some model) as Hcur.
  { unfold getCurrentModel. rewrite He'. simpl. unfold Widget.getModel.
    destruct (saved svcs (world sys) (viewStates (this (world sys)))
                !! uriString svcs model) as [[?|]|];
      rewrite ?restoreViewState_model; apply setModel_model. }
  split.
  - rewrite He'. simpl. f_equal.
    destruct (saved svcs (world sys) (viewStates (this (world sys)))
                !! uriString svcs model) as [[?|]|];
      rewrite ?restoreViewState_model; apply setModel_model.
  - destruct (advance_one_timer t sys' id due model Ht' Hcur ltac:(lia) Hdue) as [_ ->].
    by rewrite Hk'.
Qed.

(** X15: a flush that is scheduled outlives the listener that scheduled
    it.  When the governance part of the settings changes while a flush
    is scheduled, the listener is built anew, with the saving delay of the
    new settings and nothing scheduled of its own, and the flush of the
    old listener still fires at its time. *)
Theorem rebuilt_listener_keeps_the_scheduled_flush
    (sys : System) (d due t t' : Z) (new : SettingsState) (model : Widget.ModelRef) :
  pending sys d due →
  getCurrentModel (world sys) = Some model →
  isDeepEqual (s_governance new) (s_governance (currentSettings sys)) = false →
  clock (world sys) ≤ due → t < due → due ≤ t' →
  let sys' := settingsUpdate svcs t new sys in
  subscription sys' = Some {| wait := savingDelay (s_editor new); timeout := None |} ∧
  timers sys' = timers sys ∧
  parseCalls (world (advance svcs t' sys')) =
    parseCalls (world sys) ++ [(due, uriString svcs model, getValue model (world sys))].
Proof.
  intros Hp Hm Hgov Hc Ht Ht' sys'.
  pose proof Hp as (id & Hsub & Htim).
  assert (sys' = set_subscription
                   (Some {| wait := savingDelay (s_editor new); timeout := None |})
                   (set_settings new
                      (set_world (λ w, set_clock (Z.max (clock w) t) w) sys))) as ->.
  { subst sys'. unfold settingsUpdate, on_settings_update.
    rewrite (advance_not_due svcs t sys d due Hp Ht).
    cbn [currentSettings set_world set_settings subscription].
    by rewrite Hgov, Hsub. }
  split; [done|]. split; [done|].
  destruct (advance_one_timer t'
              (set_subscription
                 (Some {| wait := savingDelay (s_editor new); timeout := None |})
                 (set_settings new
                    (set_world (λ w, set_clock (Z.max (clock w) t) w) sys)))
              id due model Htim Hm) as [_ ->]; [simpl; lia|done|done].
Qed.

End DebounceMore.

Lemma edits_apart_are_analysed_one_by_one_witness :
  let rest := [(400, "x1"); (800, "x2")] in
  idle Example.sys0 300 ∧
  shows (world Example.sys0) {| Widget.m_id := 1; Widget.m_uri := "a" |} "A" ∧
  spaced 300 0 rest ∧
  parseCalls (world (advance Example.svcs 1100
                       (edits Example.svcs ((0, "x0") :: rest) Example.sys0))) =
  [(300, "file:///a", "x0"); (700, "file:///a", "x1"); (1100, "file:///a", "x2")].
Proof.
  intros rest.
  assert (idle Example.sys0 300) as Hi by (split; reflexivity).
  assert (shows (world Example.sys0) {| Widget.m_id := 1; Widget.m_uri := "a" |} "A")
    as Hs by (split; reflexivity).
  assert (spaced 300 0 rest) as Hsp by (repeat split; simpl; lia).
  split; [exact Hi|]. split; [exact Hs|]. split; [exact Hsp|].
  apply (edits_apart_are_analysed_one_by_one Example.svcs Example.sys0 300 _ "A"
           (0, "x0") rest 1100 Hi ltac:(lia) Hs); [reflexivity|exact Hsp|simpl; lia].
Defined.

Lemma flush_reads_the_buffer_then_bound_witness :
  let sys := contentChanged Example.svcs 0 "edited" Example.sys0 in
  let sys' := switchTab Example.svcs "b" sys in
  pending sys 300 300 ∧
  (getModel "b" (world sys)).1 = Some {| Widget.m_id := 2; Widget.m_uri := "b" |} ∧
  parseCalls (world (advance Example.svcs 300 sys')) = [(300, "file:///b", "B")].
Proof.
  intros sys sys'.
  assert (pending sys 300 300) as Hp by (exists 0%nat; split; reflexivity).
  split; [exact Hp|]. split; [reflexivity|].
  destruct (flush_reads_the_buffer_then_bound Example.svcs sys 300 300 300 "b"
              (default (Widget.create {| Widget.m_id := 2; Widget.m_uri := "b" |})
                 (editor (world sys)))
              {| Widget.m_id := 2; Widget.m_uri := "b" |} Hp eq_refl eq_refl)
    as [_ H]; [by vm_compute|lia|].
  fold sys' in H. rewrite H. reflexivity.
Defined.

Lemma rebuilt_listener_keeps_the_scheduled_flush_witness :
  let sys := contentChanged Example.svcs 0 "edited" Example.sys0 in
  let new :=
    {| s_editor := {| autoSaving := true; savingDelay := 50 |};
       s_governance := {| show := {| warnings := false; informations := true;
                                     hints := true |} |};
       s_templates := s_templates Example.settings0 |} in
  let sys' := settingsUpdate Example.svcs 100 new sys in
  pending sys 300 300 ∧
  isDeepEqual (s_governance new) (s_governance (currentSettings sys)) = false ∧
  subscription sys' = Some {| wait := 50; timeout := None |} ∧
  parseCalls (world (advance Example.svcs 300 sys')) = [(300, "file:///a", "edited")].
Proof.
  intros sys new sys'.
  assert (pending sys 300 300) as Hp by (exists 0%nat; split; reflexivity).
  destruct (rebuilt_listener_keeps_the_scheduled_flush Example.svcs sys 300 300 100 300 new
              {| Widget.m_id := 1; Widget.m_uri := "a" |} Hp eq_refl eq_refl)
    as (Hsub & _ & H); [by vm_compute|lia|lia|].
  split; [exact Hp|]. split; [reflexivity|]. split; [exact Hsub|].
  fold sys' in H. rewrite H. reflexivity.
Defined.

(* ===================================================================== *)
(** ** Properties of the setup, the storage and the conversions *)
(* ===================================================================== *)

Section StorageFacts.

Context (svcs : Services).

(** X16: the editor is set up once.  The first call of [onSetupEditor]
    creates the editor together with an empty buffer of its own, which
    the editor shows and which is added to the buffers there are;
    it registers the listener with the saving delay of the settings and
    leaves the caches and the timers as they are.  A second call changes
    nothing and does not report the initialisation again. *)
Theorem onSetupEditor_once (sys : System) :
  let first := onSetupEditor sys in
  onSetupEditor first.1 = (first.1, false) ∧
  isCreated (this (world first.1)) = true ∧
  (isCreated (this (world sys)) = false →
     first.2 = true ∧
     (∃ model b,
        Widget.m_id model = length (buffers (world sys)) ∧
        editor (world first.1) = Some (Widget.create model) ∧
        getCurrentModel (world first.1) = Some model ∧
        buffers (world first.1) = buffers (world sys) ++ [b] ∧
        Widget.b_value b = "" ∧ Widget.b_disposed b = false ∧
        value (world first.1) = Some "") ∧
     subscription first.1 =
       Some {| wait := savingDelay (s_editor (currentSettings sys)); timeout := None |} ∧
     models (this (world first.1)) = models (this (world sys)) ∧
     decorations (this (world first.1)) = decorations (this (world sys)) ∧
     viewStates (this (world first.1)) = viewStates (this (world sys)) ∧
     timers first.1 = timers sys).
Proof.
  unfold onSetupEditor. destruct (isCreated (this (world sys))) eqn:E; simpl.
  - rewrite E. done.
  - split; [done|]. split; [done|]. intros _. split; [done|].
    split; [|done]. do 2 eexists. split; [|split; [reflexivity|]]; [done|].
    split; [reflexivity|]. split; [reflexivity|]. split; [done|]. split; [done|].
    unfold value, getCurrentModel, editor, getValue. simpl.
    rewrite lookup_app_r by done. by rewrite Nat.sub_diag.
Qed.

(** X17: what [saveToLocalStorage] stores is what [getFromLocalStorage]
    returns afterwards: the text given when it is not empty; otherwise
    the content of the buffer the editor shows; and the text "undefined"
    when there is no such buffer.  A toast is shown unless [notify] is
    false, and the service, the buffers and the timers are left alone. *)
Theorem saveToLocalStorage_stores
    (editorValue : option string) (notify : option bool) (sys : System) :
  let after := saveToLocalStorage svcs editorValue notify sys in
  getFromLocalStorage (world after.1) =
    Some (match truthy editorValue, getCurrentModel (world sys) with
          | Some text, _ => text
          | None, Some model => getValue model (world sys)
          | None, None => "undefined"
          end) ∧
  (after.2 = None ↔ notify = Some false) ∧
  this (world after.1) = this (world sys) ∧
  buffers (world after.1) = buffers (world sys) ∧
  timers after.1 = timers sys ∧
  subscription after.1 = subscription sys.
Proof.
  unfold saveToLocalStorage, getFromLocalStorage, value. simpl.
  split.
  - destruct (truthy editorValue); [done|]. simpl.
    by destruct (getCurrentModel (world sys)).
  - split; [|done]. destruct notify as [[|]|]; simpl; split; try done;
      by destruct (autoSaving _).
Qed.

(** What [updateState] does when it goes through. *)
Lemma updateState_goes_through arg w s language :
  content arg = JString s →
  f_content <$> files w !! "asyncapi" ≠ Some s →
  truthy (from_option Some (retrieveLangauge svcs s)
            (truthy (p_language (default emptyPatch (file arg))))) = Some language →
  let w' := updateState svcs arg w in
  socketSent w' = socketSent w ++ (if default true (sendToServer arg) then [s] else []) ∧
  buffers w' =
    (if default false (updateModel arg) then
       match getCurrentModel w with
       | Some model => alter (Widget.setValue s) (Widget.m_id model) (buffers w)
       | None => buffers w
       end
     else buffers w) ∧
  files w' =
    updateFile svcs "asyncapi"
      (spread {| p_uri := None; p_name := None; p_content := Some s;
                 p_from := None; p_source := None; p_language := Some language;
                 p_modified := Some (negb (bool_decide (storedDocument w = Some s))) |}
              (default emptyPatch (file arg))) (files w).
Proof.
  intros Hc Hcur Hlang w'. subst w'. unfold updateState. rewrite Hc.
  assert (strict_eq (f_content <$> files w !! "asyncapi") (JString s) = false) as ->.
  { destruct (f_content <$> files w !! "asyncapi") as [c|]; simpl; [|done].
    apply bool_decide_false. congruence. }
  rewrite Hlang. unfold getCurrentModel, getFromLocalStorage, editor.
  destruct (sendToServer arg) as [[|]|], (updateModel arg) as [[|]|]; simpl;
    try (destruct (instance (this w) ≫= Widget.getModel) as [model|]; simpl);
    rewrite ?app_nil_r; done.
Qed.

(** X18: the flag [modified] that [updateState] hands to the files service
    tells whether the new content differs from what was saved last: after
    [saveToLocalStorage] has stored the text [saved], an update (with no
    file fields given) that goes through passes [modified: false] for
    the content [saved] and [modified: true] for any other content. *)
Theorem modified_tells_unsaved_content
    (saved : string) (notify : option bool) (sys : System)
    (arg : UpdateState) (s language : string) :
  saved ≠ "" →
  content arg = JString s →
  file arg = None →
  let w := world (saveToLocalStorage svcs (Some saved) notify sys).1 in
  f_content <$> files w !! "asyncapi" ≠ Some s →
  truthy (retrieveLangauge svcs s) = Some language →
  files (updateState svcs arg w) =
    updateFile svcs "asyncapi"
      {| p_uri := None; p_name := None; p_content := Some s; p_from := None;
         p_source := None; p_language := Some language;
         p_modified := Some (negb (bool_decide (saved = s))) |} (files w).
Proof.
  intros Hne Hc Hf w Hcur Hlang.
  assert (truthy (from_option Some (retrieveLangauge svcs s)
                    (truthy (p_language (default emptyPatch (file arg))))) = Some language)
    as Hlang' by (by rewrite Hf).
  destruct (updateState_goes_through arg w s language Hc Hcur Hlang') as (_ & _ & ->).
  rewrite Hf. simpl. rewrite decide_False by done. simpl.
  unfold spread. simpl. do 4 f_equal.
  apply bool_decide_ext. split; congruence.
Qed.

(** X19: a conversion that fails changes nothing: when the converter
    throws, [convertToYaml] and [convertToJSON] throw with the state as it
    was; when it returns nothing or the empty text, they return with the
    state as it was.  When it returns a text that differs from the content
    of the file ['asyncapi'], the text is sent to the server, the buffer
    that is shown holds it, and the file is updated with that content and
    the language of the conversion, whatever language the content looks
    like. *)
Theorem conversions_update_or_leave
    (convert : option string → Outcome (option string)) (w : World) :
  (convert (value w) = Raised →
     convertToYaml svcs convert w = Throw w ∧ convertToJSON svcs convert w = Throw w) ∧
  (∀ r, convert (value w) = Returned r → truthy r = None →
     convertToYaml svcs convert w = Normal w ∧ convertToJSON svcs convert w = Normal w) ∧
  (∀ c model b,
     convert (value w) = Returned (Some c) → c ≠ "" →
     f_content <$> files w !! "asyncapi" ≠ Some c →
     getCurrentModel w = Some model → buffers w !! Widget.m_id model = Some b →
     let updated (language : string) (w' : World) :=
       socketSent w' = socketSent w ++ [c] ∧
       getValue model w' = c ∧
       files w' =
         updateFile svcs "asyncapi"
           {| p_uri := None; p_name := None; p_content := Some c; p_from := None;
              p_source := None; p_language := Some language;
              p_modified := Some (negb (bool_decide (storedDocument w = Some c))) |}
           (files w) in
     (∃ w', convertToYaml svcs convert w = Normal w' ∧ updated "yaml" w') ∧
     (∃ w', convertToJSON svcs convert w = Normal w' ∧ updated "json" w')).
Proof.
  split; [|split].
  - intros H. unfold convertToYaml, convertToJSON. by rewrite H.
  - intros r H Hr. unfold convertToYaml, convertToJSON. by rewrite H, Hr.
  - intros c model b H Hne Hcur Hm Hb updated.
    assert (truthy (Some c) = Some c) as Hc
      by (unfold truthy; by rewrite decide_False by done).
    assert (∀ arg language,
              content arg = JString c → updateModel arg = Some true →
              sendToServer arg = None →
              file arg = Some {| p_uri := None; p_name := None; p_content := None;
                                 p_from := None; p_source := None;
                                 p_language := Some language; p_modified := None |} →
              language ≠ "" →
              updated language (updateState svcs arg w)) as Hupd.
    { intros arg language Ha Hu Hsend Hfile Hl.
      assert (truthy (from_option Some (retrieveLangauge svcs c)
                        (truthy (p_language (default emptyPatch (file arg)))))
              = Some language) as Hlang.
      { rewrite Hfile. simpl. rewrite decide_False by done. simpl.
        by rewrite decide_False by done. }
      destruct (updateState_goes_through arg w c language Ha Hcur Hlang)
        as (Hs & Hbuf & Hfiles).
      unfold updated. rewrite Hs, Hfiles, Hsend, Hfile. simpl.
      split; [done|]. split; [|done].
      unfold getValue. rewrite Hbuf, Hu, Hm. simpl.
      rewrite list_lookup_alter, decide_True by done. by rewrite Hb. }
    split.
    + unfold convertToYaml. rewrite H, Hc. eexists. split; [done|]. by apply Hupd.
    + unfold convertToJSON. rewrite H, Hc. eexists. split; [done|]. by apply Hupd.
Qed.

(** X20: [importBase64] throws with the state as it was when the decoder
    throws.  When the decoded text differs from the content of the file
    ['asyncapi'] and has a language, it is sent to the server, put into
    the buffer that is shown, and the file is updated as coming from
    base64, with its source cleared. *)
Theorem importBase64_updates_or_throws
    (decodeBase64 : string → Outcome string) (encoded : string) (w : World) :
  (decodeBase64 encoded = Raised → importBase64 svcs decodeBase64 encoded w = Throw w) ∧
  (∀ c language,
     decodeBase64 encoded = Returned c →
     f_content <$> files w !! "asyncapi" ≠ Some c →
     truthy (retrieveLangauge svcs c) = Some language →
     ∃ w', importBase64 svcs decodeBase64 encoded w = Normal w' ∧
           socketSent w' = socketSent w ++ [c] ∧
           buffers w' =
             match getCurrentModel w with
             | Some model => alter (Widget.setValue c) (Widget.m_id model) (buffers w)
             | None => buffers w
             end ∧
           files w' =
             updateFile svcs "asyncapi"
               {| p_uri := None; p_name := None; p_content := Some c;
                  p_from := Some "base64"; p_source := Some None;
                  p_language := Some language;
                  p_modified := Some (negb (bool_decide (storedDocument w = Some c))) |}
               (files w)).
Proof.
  split.
  - intros H. unfold importBase64. by rewrite H.
  - intros c language H Hcur Hlang. unfold importBase64. rewrite H.
    eexists. split; [done|].
    match goal with |- context [updateState svcs ?a w] => set (arg := a) end.
    assert (truthy (from_option Some (retrieveLangauge svcs c)
                      (truthy (p_language (default emptyPatch (file arg)))))
            = Some language) as Hlang' by done.
    destruct (updateState_goes_through arg w c language eq_refl Hcur Hlang')
      as (-> & -> & ->). done.
Qed.

End StorageFacts.

Lemma removeModel_twice_witness :
  let w := (getModel "a" Example.w0).2 in
  (removeModel "a" w).1 = Some true ∧
  (removeModel "a" (removeModel "a" w).2).1 = None ∧
  (removeModel "nowhere" w).1 = None ∧ (removeModel "nowhere" w).2 = w.
Proof.
  intros w.
  destruct (removeModel_twice "a" w) as (Htwice & _ & _).
  destruct (removeModel_twice "nowhere" w) as (_ & _ & Hnone).
  split; [reflexivity|]. split; [by rewrite Htwice|]. split; [reflexivity|].
  apply Hnone. reflexivity.
Defined.

Lemma onSetupEditor_once_witness :
  let sys := {| world := Example.bare;
                currentSettings := Example.settings0; timers := []; nextTimer := 0;
                subscription := None |} in
  isCreated (this (world sys)) = false ∧
  (onSetupEditor sys).2 = true ∧
  world (onSetupEditor sys).1 = Example.w0 ∧
  value Example.w0 = Some "" ∧
  subscription (onSetupEditor sys).1 = Some {| wait := 300; timeout := None |} ∧
  onSetupEditor (onSetupEditor sys).1 = ((onSetupEditor sys).1, false).
Proof.
  intros sys.
  destruct (onSetupEditor_once sys) as (Hagain & _ & Hfirst).
  destruct (Hfirst eq_refl) as (Hinit & _ & Hsub & _).
  split; [reflexivity|]. split; [exact Hinit|]. split; [reflexivity|].
  split; [reflexivity|]. split; [exact Hsub|]. exact Hagain.
Defined.

Lemma modified_tells_unsaved_content_witness :
  let w := world (saveToLocalStorage Example.svcs (Some "a: 1") None Example.sys0).1 in
  let arg s := {| content := JString s; updateModel := None; sendToServer := None;
                  file := None |} in
  "a: 1" ≠ "" ∧
  f_content <$> files w !! "asyncapi" ≠ Some "a: 1" ∧
  f_modified <$> files (updateState Example.svcs (arg "a: 1") w) !! "asyncapi" = Some false ∧
  f_modified <$> files (updateState Example.svcs (arg "b: 2") w) !! "asyncapi" = Some true.
Proof.
  intros w arg.
  assert ("a: 1" ≠ "") as Hne by discriminate.
  assert (f_content <$> files w !! "asyncapi" ≠ Some "a: 1") as H1
    by (intros H; vm_compute in H; discriminate H).
  assert (f_content <$> files w !! "asyncapi" ≠ Some "b: 2") as H2
    by (intros H; vm_compute in H; discriminate H).
  split; [exact Hne|]. split; [exact H1|]. split.
  - exact (eq_trans
             (f_equal (λ fs : gmap string File, f_modified <$> fs !! "asyncapi")
                (modified_tells_unsaved_content Example.svcs "a: 1" None Example.sys0
                   (arg "a: 1") "a: 1" "yaml" Hne eq_refl eq_refl H1 eq_refl))
             eq_refl).
  - exact (eq_trans
             (f_equal (λ fs : gmap string File, f_modified <$> fs !! "asyncapi")
                (modified_tells_unsaved_content Example.svcs "a: 1" None Example.sys0
                   (arg "b: 2") "b: 2" "yaml" Hne eq_refl eq_refl H2 eq_refl))
             eq_refl).
Defined.

Lemma conversions_update_or_leave_witness :
  let w := world Example.sys0 in
  let failing (_ : option string) : Outcome (option string) := Raised in
  let toJSON (_ : option string) : Outcome (option string) := Returned (Some "{}") in
  convertToYaml Example.svcs failing w = Throw w ∧
  ∃ w', convertToJSON Example.svcs toJSON w = Normal w' ∧
        socketSent w' = ["{}"] ∧
        f_language <$> files w' !! "asyncapi" = Some "json".
Proof.
  intros w failing toJSON.
  destruct (conversions_update_or_leave Example.svcs failing w) as (Hfail & _ & _).
  destruct (conversions_update_or_leave Example.svcs toJSON w) as (_ & _ & Hok).
  assert ("{}" ≠ "") as Hne by discriminate.
  assert (f_content <$> files w !! "asyncapi" ≠ Some "{}") as Hcur
    by (intros H; vm_compute in H; discriminate H).
  destruct (Hok "{}" {| Widget.m_id := 1; Widget.m_uri := "a" |}
              {| Widget.b_language := "yaml"; Widget.b_value := "A";
                 Widget.b_disposed := false |} eq_refl Hne Hcur eq_refl eq_refl)
    as (_ & w' & Hw' & Hs & _ & Hf).
  split; [exact (proj1 (Hfail eq_refl))|].
  exists w'. split; [exact Hw'|]. split; [exact Hs|]. rewrite Hf. reflexivity.
Defined.

Lemma importBase64_updates_or_throws_witness :
  let w := world Example.sys0 in
  let decode (s : string) : Outcome string :=
    if decide (s = "e30=") then Returned "{}" else Raised in
  importBase64 Example.svcs decode "???" w = Throw w ∧
  ∃ w', importBase64 Example.svcs decode "e30=" w = Normal w' ∧
        f_from <$> files w' !! "asyncapi" = Some "base64".
Proof.
  intros w decode.
  destruct (importBase64_updates_or_throws Example.svcs decode "???" w) as [Hfail _].
  destruct (importBase64_updates_or_throws Example.svcs decode "e30=" w) as [_ Hok].
  assert (f_content <$> files w !! "asyncapi" ≠ Some "{}") as Hcur
    by (intros H; vm_compute in H; discriminate H).
  destruct (Hok "{}" "json" eq_refl Hcur eq_refl) as (w' & Hw' & _ & _ & Hf).
  split; [exact (Hfail eq_refl)|].
  exists w'. split; [exact Hw'|]. rewrite Hf. reflexivity.
Defined.
